(** * ENSO metrics: the metric registry and the metric computation engine

    A shallow embedding of [lib/EnsoCollectionsLib.py] (the static catalogs)
    and [lib/EnsoMetricsLib.py] (the metric functions and [ComputeMetric]).

    The sources are Python 2 ([basestring], integer [/] on ints): an int
    divided by an int is floor division, dictionaries raise [KeyError] on a
    missing key, an unbound name raises [NameError].  Floating point values
    are binary64, modelled by the kernel's primitive floats. *)

From Stdlib Require Import ZArith List String Ascii Bool Lia.
From Stdlib Require Import Floats Uint63.
Import ListNotations.

Local Open Scope Z_scope.
Set Warnings "-register-all".

(** ** Python values, exceptions and outcomes *)

(** The literals the catalogs are built from. A dictionary keeps its items in
    the order of the source text; every key of the catalogs is a string. *)
Inductive pyval : Type :=
| PNone
| PBool (b : bool)
| PInt (z : Z)
| PFloat (x : float)
| PStr (s : string)
| PList (l : list pyval)
| PTuple (l : list pyval)
| PDict (d : list (string * pyval)).

(** The built-in exceptions the two modules can raise. Neither module defines
    an exception class of its own, and neither has a [raise] statement. *)
Inductive exn : Type :=
| NameError (name : string)
| UnboundLocalError (name : string)
| KeyError (key : pyval)
| IndexError (msg : string)
| TypeError (msg : string)
| ZeroDivisionError (msg : string).

Definition exn_class (e : exn) : string :=
  match e with
  | NameError _ => "NameError"
  | UnboundLocalError _ => "UnboundLocalError"
  | KeyError _ => "KeyError"
  | IndexError _ => "IndexError"
  | TypeError _ => "TypeError"
  | ZeroDivisionError _ => "ZeroDivisionError"
  end.

Inductive result (A : Type) : Type :=
| Ok (a : A)
| Raise (e : exn).
Arguments Ok {A} a.
Arguments Raise {A} e.

Definition bind {A B : Type} (r : result A) (k : A -> result B) : result B :=
  match r with
  | Ok a => k a
  | Raise e => Raise e
  end.

Notation "x <- r ;; k" := (bind r (fun x => k))
  (at level 61, r at next level, right associativity).
Notation "' p <- r ;; k" := (bind r (fun p => k))
  (at level 61, p pattern, r at next level, right associativity).

(** [try: r  except: pass] around an assignment: keep the old value when the
    right-hand side raises. *)
Definition try_or {A : Type} (r : result A) (old : A) : A :=
  match r with
  | Ok a => a
  | Raise _ => old
  end.

Definition raises {A : Type} (r : result A) (cls : string) : Prop :=
  exists e, r = Raise e /\ exn_class e = cls.

(** *** Subscripting *)

Fixpoint dict_get (d : list (string * pyval)) (k : string) : option pyval :=
  match d with
  | [] => None
  | (k', v) :: d' => if String.eqb k' k then Some v else dict_get d' k
  end.

Definition dict_keys (d : list (string * pyval)) : list string := map fst d.

(** A dictionary display [{k1: v1, k2: v2, ...}] evaluates left to right and
    a later item replaces an earlier one with the same key. *)
Fixpoint dict_set (d : list (string * pyval)) (k : string) (v : pyval)
  : list (string * pyval) :=
  match d with
  | [] => [(k, v)]
  | (k', v') :: d' =>
      if String.eqb k' k then (k', v) :: d' else (k', v') :: dict_set d' k v
  end.

Definition dict_display (items : list (string * pyval)) : pyval :=
  PDict (fold_left (fun d kv => dict_set d (fst kv) (snd kv)) items []).

(** [seq[i]] for an int [i]: a negative index counts from the end. *)
Definition seq_index {A : Type} (l : list A) (i : Z) : option A :=
  let n := Z.of_nat (List.length l) in
  let j := if i <? 0 then i + n else i in
  if (j <? 0) || (n <=? j) then None else nth_error l (Z.to_nat j).

Definition string_chars (s : string) : list string :=
  map (fun c => String c EmptyString) (list_ascii_of_string s).

Fixpoint hashable (v : pyval) : bool :=
  match v with
  | PList _ | PDict _ => false
  | PTuple l => forallb hashable l
  | _ => true
  end.

(** [v[k]]. A sequence takes an int, or a bool as the int it is. *)
Definition getitem (v k : pyval) : result pyval :=
  match v, k with
  | PDict d, PStr s =>
      match dict_get d s with
      | Some x => Ok x
      | None => Raise (KeyError k)
      end
  | PDict _, _ =>
      if hashable k then Raise (KeyError k) else Raise (TypeError "unhashable type")
  | PList l, PInt i =>
      match seq_index l i with
      | Some x => Ok x
      | None => Raise (IndexError "list index out of range")
      end
  | PTuple l, PInt i =>
      match seq_index l i with
      | Some x => Ok x
      | None => Raise (IndexError "tuple index out of range")
      end
  | PStr s, PInt i =>
      match seq_index (string_chars s) i with
      | Some c => Ok (PStr c)
      | None => Raise (IndexError "string index out of range")
      end
  | PList l, PBool b =>
      match seq_index l (Z.b2z b) with
      | Some x => Ok x
      | None => Raise (IndexError "list index out of range")
      end
  | PTuple l, PBool b =>
      match seq_index l (Z.b2z b) with
      | Some x => Ok x
      | None => Raise (IndexError "tuple index out of range")
      end
  | PStr s, PBool b =>
      match seq_index (string_chars s) (Z.b2z b) with
      | Some c => Ok (PStr c)
      | None => Raise (IndexError "string index out of range")
      end
  | PList _, _ => Raise (TypeError "list indices must be integers")
  | PTuple _, _ => Raise (TypeError "tuple indices must be integers")
  | PStr _, _ => Raise (TypeError "string indices must be integers")
  | _, _ => Raise (TypeError "object has no attribute '__getitem__'")
  end.

(** Truth value of an object, as [not x] and [if x] test it. *)
Definition truthy (v : pyval) : bool :=
  match v with
  | PNone => false
  | PBool b => b
  | PInt z => negb (z =? 0)
  | PFloat x => negb (PrimFloat.eqb x 0%float)
  | PStr s => negb (String.eqb s "")
  | PList l | PTuple l => negb (Nat.eqb (List.length l) 0)
  | PDict d => negb (Nat.eqb (List.length d) 0)
  end.

(** *** Floating point numbers

    The statistics kernels hand back floating point scalars, either Python's
    own [float] or numpy's [float64]. Both are binary64; they differ on a
    zero divisor: Python raises [ZeroDivisionError], numpy warns and returns
    an infinity or a NaN. A [float64] operand makes the operation numpy's. *)
Inductive number : Type :=
| PyFloat (x : float)
| NpFloat (x : float).

Definition num_val (n : number) : float :=
  match n with
  | PyFloat x | NpFloat x => x
  end.

Definition is_np (n : number) : bool :=
  match n with
  | PyFloat _ => false
  | NpFloat _ => true
  end.

Definition num_like (a b : number) (x : float) : number :=
  if is_np a || is_np b then NpFloat x else PyFloat x.

Definition num_add (a b : number) : number :=
  num_like a b (PrimFloat.add (num_val a) (num_val b)).

Definition num_sub (a b : number) : number :=
  num_like a b (PrimFloat.sub (num_val a) (num_val b)).

Definition num_mul (a b : number) : number :=
  num_like a b (PrimFloat.mul (num_val a) (num_val b)).

Definition num_div (a b : number) : result number :=
  if is_np a || is_np b then Ok (NpFloat (PrimFloat.div (num_val a) (num_val b)))
  else if PrimFloat.eqb (num_val b) 0%float
       then Raise (ZeroDivisionError "float division by zero")
       else Ok (PyFloat (PrimFloat.div (num_val a) (num_val b))).

(** [float(x)]. *)
Definition py_float (n : number) : number := PyFloat (num_val n).

Definition float_of_Z (z : Z) : float :=
  if z <? 0 then PrimFloat.opp (PrimFloat.of_uint63 (Uint63.of_Z (- z)))
  else PrimFloat.of_uint63 (Uint63.of_Z z).

(** [numpy.sqrt] of a Python int and [numpy.square] of a float: both return a
    [float64]. *)
Definition NUMPYsqrt (n : Z) : number := NpFloat (PrimFloat.sqrt (float_of_Z n)).

Definition NUMPYsquare (n : number) : number :=
  NpFloat (PrimFloat.mul (num_val n) (num_val n)).


(** * lib/EnsoCollectionsLib.py *)

Module EnsoCollectionsLib.

Local Open Scope string_scope.
Local Open Scope float_scope.
Local Set Warnings "-inexact-float".

(** ** Metrics collections *)

Definition metrics_collection : pyval :=
  dict_display
   [("ENSO_perf", dict_display
     [("long_name", PStr "Metrics Collection for ENSO performance");
      ("metrics_list", dict_display
       [("BiasPrLatRmse", dict_display
         [("variables", PList [PStr "pr"]);
          ("regions", dict_display [("pr", PStr "nino3_LatExt")]);
          ("obs_name", dict_display [("pr", PList [PStr "ERA-Interim"; PStr "GPCPv2.3"])]);
          ("regridding", dict_display
           [("model_orand_obs", PInt 2);
            ("regridder", PStr "cdms");
            ("regridTool", PStr "esmf");
            ("regridMethod", PStr "linear");
            ("newgrid_name", PStr "generic_1x1deg")])]);
        ("BiasPrLonRmse", dict_display
         [("variables", PList [PStr "pr"]);
          ("regions", dict_display [("pr", PStr "equatorial_pacific")]);
          ("obs_name", dict_display [("pr", PList [PStr "ERA-Interim"; PStr "GPCPv2.3"])]);
          ("regridding", dict_display
           [("model_orand_obs", PInt 2);
            ("regridder", PStr "cdms");
            ("regridTool", PStr "esmf");
            ("regridMethod", PStr "linear");
            ("newgrid_name", PStr "generic_1x1deg")])]);
        ("BiasSstLonRmse", dict_display
         [("variables", PList [PStr "sst"]);
          ("regions", dict_display [("sst", PStr "equatorial_pacific")]);
          ("obs_name", dict_display [("sst", PList [PStr "ERA-Interim"; PStr "HadISST"; PStr "Tropflux"])]);
          ("regridding", dict_display
           [("model_orand_obs", PInt 2);
            ("regridder", PStr "cdms");
            ("regridTool", PStr "esmf");
            ("regridMethod", PStr "linear");
            ("newgrid_name", PStr "generic_1x1deg")])]);
        ("BiasTauxLonRmse", dict_display
         [("variables", PList [PStr "taux"]);
          ("regions", dict_display [("taux", PStr "equatorial_pacific")]);
          ("obs_name", dict_display [("taux", PList [PStr "ERA-Interim"; PStr "Tropflux"])]);
          ("regridding", dict_display
           [("model_orand_obs", PInt 2);
            ("regridder", PStr "cdms");
            ("regridTool", PStr "esmf");
            ("regridMethod", PStr "linear");
            ("newgrid_name", PStr "generic_1x1deg")])]);
        ("SeasonalPrLatRmse", dict_display
         [("variables", PList [PStr "pr"]);
          ("regions", dict_display [("pr", PStr "nino3_LatExt")]);
          ("obs_name", dict_display [("pr", PList [PStr "ERA-Interim"; PStr "GPCPv2.3"])]);
          ("regridding", dict_display
           [("model_orand_obs", PInt 2);
            ("regridder", PStr "cdms");
            ("regridTool", PStr "esmf");
            ("regridMethod", PStr "linear");
            ("newgrid_name", PStr "generic_1x1deg")])]);
        ("SeasonalPrLonRmse", dict_display
         [("variables", PList [PStr "pr"]);
          ("regions", dict_display [("pr", PStr "equatorial_pacific")]);
          ("obs_name", dict_display [("pr", PList [PStr "ERA-Interim"; PStr "GPCPv2.3"])]);
          ("regridding", dict_display
           [("model_orand_obs", PInt 2);
            ("regridder", PStr "cdms");
            ("regridTool", PStr "esmf");
            ("regridMethod", PStr "linear");
            ("newgrid_name", PStr "generic_1x1deg")])]);
        ("SeasonalSstLonRmse", dict_display
         [("variables", PList [PStr "sst"]);
          ("regions", dict_display [("sst", PStr "equatorial_pacific")]);
          ("obs_name", dict_display [("sst", PList [PStr "ERA-Interim"; PStr "HadISST"; PStr "Tropflux"])]);
          ("regridding", dict_display
           [("model_orand_obs", PInt 2);
            ("regridder", PStr "cdms");
            ("regridTool", PStr "esmf");
            ("regridMethod", PStr "linear");
            ("newgrid_name", PStr "generic_1x1deg")])]);
        ("SeasonalTauxLonRmse", dict_display
         [("variables", PList [PStr "taux"]);
          ("regions", dict_display [("taux", PStr "equatorial_pacific")]);
          ("obs_name", dict_display [("sst", PList [PStr "ERA-Interim"; PStr "Tropflux"])]);
          ("regridding", dict_display
           [("model_orand_obs", PInt 2);
            ("regridder", PStr "cdms");
            ("regridTool", PStr "esmf");
            ("regridMethod", PStr "linear");
            ("newgrid_name", PStr "generic_1x1deg")])]);
        ("EnsoAmpl", dict_display
         [("variables", PList [PStr "sst"]);
          ("regions", dict_display [("sst", PStr "nino3.4")]);
          ("obs_name", dict_display [("sst", PList [PStr "ERA-Interim"; PStr "HadISST"; PStr "Tropflux"])]);
          ("metric_computation", PStr "abs_relative_difference");
          ("regridding", dict_display
           [("regridder", PStr "cdms");
            ("regridTool", PStr "esmf");
            ("regridMethod", PStr "linear");
            ("newgrid_name", PStr "generic_1x1deg")])]);
        ("EnsoDuration", dict_display
         [("variables", PList [PStr "sst"]);
          ("regions", dict_display [("sst", PStr "nino3.4")]);
          ("obs_name", dict_display [("sst", PList [PStr "ERA-Interim"; PStr "HadISST"; PStr "Tropflux"])]);
          ("event_definition", dict_display
           [("region_ev", PStr "nino3.4");
            ("season_ev", PStr "DEC");
            ("threshold", PFloat 0.75);
            ("normalization", PBool true)]);
          ("nbr_years_window", PInt 6);
          ("smoothing", dict_display [("window", PInt 5); ("method", PStr "triangle")]);
          ("metric_computation", PStr "abs_relative_difference");
          ("regridding", dict_display
           [("model_orand_obs", PInt 2);
            ("regridder", PStr "cdms");
            ("regridTool", PStr "esmf");
            ("regridMethod", PStr "linear");
            ("newgrid_name", PStr "generic_1x1deg")])]);
        ("EnsoSeasonality", dict_display
         [("variables", PList [PStr "sst"]);
          ("regions", dict_display [("sst", PStr "nino3.4")]);
          ("obs_name", dict_display [("sst", PList [PStr "ERA-Interim"; PStr "HadISST"; PStr "Tropflux"])]);
          ("metric_computation", PStr "abs_relative_difference");
          ("regridding", dict_display
           [("regridder", PStr "cdms");
            ("regridTool", PStr "esmf");
            ("regridMethod", PStr "linear");
            ("newgrid_name", PStr "generic_1x1deg")])]);
        ("EnsoSstLonRmse", dict_display
         [("variables", PList [PStr "sst"]);
          ("regions", dict_display [("sst", PStr "equatorial_pacific")]);
          ("obs_name", dict_display [("sst", PList [PStr "ERA-Interim"; PStr "HadISST"; PStr "Tropflux"])]);
          ("event_definition", dict_display
           [("region_ev", PStr "nino3.4");
            ("season_ev", PStr "DEC");
            ("threshold", PFloat 0.75);
            ("normalization", PBool true)]);
          ("smoothing", dict_display [("window", PInt 5); ("method", PStr "triangle")]);
          ("regridding", dict_display
           [("model_orand_obs", PInt 2);
            ("regridder", PStr "cdms");
            ("regridTool", PStr "esmf");
            ("regridMethod", PStr "linear");
            ("newgrid_name", PStr "generic_1x1deg")])]);
        ("EnsoSstDiversity_2", dict_display
         [("variables", PList [PStr "sst"]);
          ("regions", dict_display [("sst", PStr "equatorial_pacific")]);
          ("obs_name", dict_display [("sst", PList [PStr "ERA-Interim"; PStr "HadISST"; PStr "Tropflux"])]);
          ("event_definition", dict_display
           [("region_ev", PStr "nino3.4");
            ("season_ev", PStr "DEC");
            ("threshold", PFloat 0.75);
            ("normalization", PBool true)]);
          ("smoothing", dict_display [("window", PInt 5); ("method", PStr "triangle")]);
          ("regridding", dict_display
           [("regridder", PStr "cdms");
            ("regridTool", PStr "esmf");
            ("regridMethod", PStr "linear");
            ("newgrid_name", PStr "generic_1x1deg")]);
          ("metric_computation", PStr "abs_relative_difference")]);
        ("EnsoSstSkew", dict_display
         [("variables", PList [PStr "sst"]);
          ("regions", dict_display [("sst", PStr "nino3.4")]);
          ("obs_name", dict_display [("sst", PList [PStr "ERA-Interim"; PStr "HadISST"; PStr "Tropflux"])]);
          ("metric_computation", PStr "abs_relative_difference");
          ("regridding", dict_display
           [("regridder", PStr "cdms");
            ("regridTool", PStr "esmf");
            ("regridMethod", PStr "linear");
            ("newgrid_name", PStr "generic_1x1deg")])]);
        ("EnsoSstTsRmse", dict_display
         [("variables", PList [PStr "sst"]);
          ("regions", dict_display [("sst", PStr "nino3.4")]);
          ("obs_name", dict_display [("sst", PList [PStr "ERA-Interim"; PStr "HadISST"; PStr "Tropflux"])]);
          ("event_definition", dict_display
           [("region_ev", PStr "nino3.4");
            ("season_ev", PStr "DEC");
            ("threshold", PFloat 0.75);
            ("normalization", PBool true)]);
          ("nbr_years_window", PInt 6);
          ("smoothing", dict_display [("window", PInt 5); ("method", PStr "triangle")]);
          ("regridding", dict_display
           [("model_orand_obs", PInt 2);
            ("regridder", PStr "cdms");
            ("regridTool", PStr "esmf");
            ("regridMethod", PStr "linear");
            ("newgrid_name", PStr "generic_1x1deg")])])]);
      ("common_collection_parameters", dict_display
       [("detrending", dict_display [("method", PStr "linear")]);
        ("frequency", PStr "monthly");
        ("min_time_steps", PInt 12);
        ("normalization", PBool false);
        ("project_interpreter", PStr "CMIP");
        ("observed_period", PTuple [PStr "1850-01-01 00:00:00"; PStr "2018-12-31 23:59:60.0"]);
        ("modeled_period", PTuple [PStr "1850-01-01 00:00:00"; PStr "2015-12-31 23:59:60.0"])]);
      ("plot_order", PList
       [PStr "BiasPrLatRmse";
        PStr "BiasPrLonRmse";
        PStr "BiasSstLonRmse";
        PStr "BiasTauxLonRmse";
        PStr "SeasonalPrLatRmse";
        PStr "SeasonalPrLonRmse";
        PStr "SeasonalSstLonRmse";
        PStr "SeasonalTauxLonRmse";
        PStr "EnsoSstLonRmse";
        PStr "EnsoSstTsRmse";
        PStr "EnsoAmpl";
        PStr "EnsoSeasonality";
        PStr "EnsoSstSkew";
        PStr "EnsodDuration";
        PStr "EnsoSstDiversity_2"]);
      ("description", PStr "Describe which science question this collection is about")]);
    ("ENSO_tel", dict_display
     [("long_name", PStr "Metrics Collection for ENSO teleconnections");
      ("metrics_list", dict_display
       [("EnsoAmpl", dict_display
         [("variables", PList [PStr "sst"]);
          ("regions", dict_display [("sst", PStr "nino3.4")]);
          ("obs_name", dict_display [("sst", PList [PStr "ERA-Interim"; PStr "HadISST"; PStr "Tropflux"])]);
          ("metric_computation", PStr "abs_relative_difference")]);
        ("EnsoSeasonality", dict_display
         [("variables", PList [PStr "sst"]);
          ("regions", dict_display [("sst", PStr "nino3.4")]);
          ("obs_name", dict_display [("sst", PList [PStr "ERA-Interim"; PStr "HadISST"; PStr "Tropflux"])]);
          ("metric_computation", PStr "abs_relative_difference");
          ("regridding", dict_display
           [("regridder", PStr "cdms");
            ("regridTool", PStr "esmf");
            ("regridMethod", PStr "linear");
            ("newgrid_name", PStr "generic_1x1deg")])]);
        ("EnsoSstLonRmse", dict_display
         [("variables", PList [PStr "sst"]);
          ("regions", dict_display [("sst", PStr "equatorial_pacific")]);
          ("obs_name", dict_display [("sst", PList [PStr "ERA-Interim"; PStr "HadISST"; PStr "Tropflux"])]);
          ("event_definition", dict_display
           [("region_ev", PStr "nino3.4");
            ("season_ev", PStr "DEC");
            ("threshold", PFloat 0.75);
            ("normalization", PBool true)]);
          ("smoothing", dict_display [("window", PInt 5); ("method", PStr "triangle")]);
          ("regridding", dict_display
           [("model_orand_obs", PInt 2);
            ("regridder", PStr "cdms");
            ("regridTool", PStr "esmf");
            ("regridMethod", PStr "linear");
            ("newgrid_name", PStr "generic_1x1deg")])]);
        ("EnsoPrMapDjf", dict_display
         [("variables", PList [PStr "sst"; PStr "pr"]);
          ("regions", dict_display [("pr", PStr "global"); ("sst", PStr "nino3.4")]);
          ("event_definition", dict_display
           [("region_ev", PStr "nino3.4");
            ("season_ev", PStr "DEC");
            ("threshold", PFloat 0.75);
            ("normalization", PBool false)]);
          ("smoothing", dict_display [("window", PInt 5); ("method", PStr "triangle")]);
          ("regridding", dict_display
           [("model_orand_obs", PInt 2);
            ("regridder", PStr "cdms");
            ("regridTool", PStr "esmf");
            ("regridMethod", PStr "linear");
            ("newgrid_name", PStr "generic_1x1deg")]);
          ("obs_name", dict_display
           [("pr", PList [PStr "ERA-Interim"; PStr "GPCPv2.3"]);
            ("sst", PList [PStr "ERA-Interim"; PStr "HadISST"; PStr "Tropflux"])])]);
        ("EnsoPrMapJja", dict_display
         [("variables", PList [PStr "sst"; PStr "pr"]);
          ("regions", dict_display [("pr", PStr "global"); ("sst", PStr "nino3.4")]);
          ("event_definition", dict_display
           [("region_ev", PStr "nino3.4");
            ("season_ev", PStr "DEC");
            ("threshold", PFloat 0.75);
            ("normalization", PBool false)]);
          ("smoothing", dict_display [("window", PInt 5); ("method", PStr "triangle")]);
          ("regridding", dict_display
           [("model_orand_obs", PInt 2);
            ("regridder", PStr "cdms");
            ("regridTool", PStr "esmf");
            ("regridMethod", PStr "linear");
            ("newgrid_name", PStr "generic_1x1deg")]);
          ("obs_name", dict_display
           [("pr", PList [PStr "ERA-Interim"; PStr "GPCPv2.3"]);
            ("sst", PList [PStr "ERA-Interim"; PStr "HadISST"; PStr "Tropflux"])])]);
        ("EnsoSstMapDjf", dict_display
         [("variables", PList [PStr "sst"]);
          ("regions", dict_display [("sst", PStr "global")]);
          ("event_definition", dict_display
           [("region_ev", PStr "nino3.4");
            ("season_ev", PStr "DEC");
            ("threshold", PFloat 0.75);
            ("normalization", PBool false)]);
          ("smoothing", dict_display [("window", PInt 5); ("method", PStr "triangle")]);
          ("regridding", dict_display
           [("model_orand_obs", PInt 2);
            ("regridder", PStr "cdms");
            ("regridTool", PStr "esmf");
            ("regridMethod", PStr "linear");
            ("newgrid_name", PStr "generic_1x1deg")]);
          ("obs_name", dict_display [("sst", PList [PStr "ERA-Interim"; PStr "HadISST"; PStr "Tropflux"])])]);
        ("EnsoSstMapJja", dict_display
         [("variables", PList [PStr "sst"]);
          ("regions", dict_display [("sst", PStr "global")]);
          ("event_definition", dict_display
           [("region_ev", PStr "nino3.4");
            ("season_ev", PStr "DEC");
            ("threshold", PFloat 0.75);
            ("normalization", PBool false)]);
          ("smoothing", dict_display [("window", PInt 5); ("method", PStr "triangle")]);
          ("regridding", dict_display
           [("model_orand_obs", PInt 2);
            ("regridder", PStr "cdms");
            ("regridTool", PStr "esmf");
            ("regridMethod", PStr "linear");
            ("newgrid_name", PStr "generic_1x1deg")]);
          ("obs_name", dict_display [("sst", PList [PStr "ERA-Interim"; PStr "HadISST"; PStr "Tropflux"])])])]);
      ("common_collection_parameters", dict_display
       [("detrending", dict_display [("method", PStr "linear")]);
        ("frequency", PStr "monthly");
        ("min_time_steps", PInt 12);
        ("normalization", PBool false);
        ("project_interpreter", PStr "CMIP");
        ("observed_period", PTuple [PStr "1850-01-01 00:00:00"; PStr "2018-12-31 23:59:60.0"]);
        ("modeled_period", PTuple [PStr "1850-01-01 00:00:00"; PStr "2015-12-31 23:59:60.0"])]);
      ("plot_order", PList
       [PStr "EnsoSstLonRmse";
        PStr "EnsoAmpl";
        PStr "EnsoSeasonality";
        PStr "EnsoPrMapDjfRmse";
        PStr "EnsoPrMapJjaRmse";
        PStr "EnsoSstMapDjfRmse";
        PStr "EnsoSstMapJjaRmse"]);
      ("description", PStr "Describe which science question this collection is about")]);
    ("ENSO_proc", dict_display
     [("long_name", PStr "Metrics Collection for ENSO processes");
      ("metrics_list", dict_display
       [("BiasSstLonRmse", dict_display
         [("variables", PList [PStr "sst"]);
          ("regions", dict_display [("sst", PStr "equatorial_pacific")]);
          ("obs_name", dict_display [("sst", PList [PStr "ERA-Interim"; PStr "HadISST"; PStr "Tropflux"])]);
          ("regridding", dict_display
           [("model_orand_obs", PInt 2);
            ("regridder", PStr "cdms");
            ("regridTool", PStr "esmf");
            ("regridMethod", PStr "linear");
            ("newgrid_name", PStr "generic_1x1deg")])]);
        ("BiasTauxLonRmse", dict_display
         [("variables", PList [PStr "taux"]);
          ("regions", dict_display [("taux", PStr "equatorial_pacific")]);
          ("obs_name", dict_display [("taux", PList [PStr "ERA-Interim"; PStr "Tropflux"])]);
          ("regridding", dict_display
           [("model_orand_obs", PInt 2);
            ("regridder", PStr "cdms");
            ("regridTool", PStr "esmf");
            ("regridMethod", PStr "linear");
            ("newgrid_name", PStr "generic_1x1deg")])]);
        ("EnsoAmpl", dict_display
         [("variables", PList [PStr "sst"]);
          ("regions", dict_display [("sst", PStr "nino3.4")]);
          ("obs_name", dict_display [("sst", PList [PStr "ERA-Interim"; PStr "HadISST"; PStr "Tropflux"])]);
          ("metric_computation", PStr "abs_relative_difference")]);
        ("EnsoSstLonRmse", dict_display
         [("variables", PList [PStr "sst"]);
          ("regions", dict_display [("sst", PStr "equatorial_pacific")]);
          ("obs_name", dict_display [("sst", PList [PStr "ERA-Interim"; PStr "HadISST"; PStr "Tropflux"])]);
          ("event_definition", dict_display
           [("region_ev", PStr "nino3.4");
            ("season_ev", PStr "DEC");
            ("threshold", PFloat 0.75);
            ("normalization", PBool true)]);
          ("smoothing", dict_display [("window", PInt 5); ("method", PStr "triangle")]);
          ("regridding", dict_display
           [("model_orand_obs", PInt 2);
            ("regridder", PStr "cdms");
            ("regridTool", PStr "esmf");
            ("regridMethod", PStr "linear");
            ("newgrid_name", PStr "generic_1x1deg")])]);
        ("EnsoSeasonality", dict_display
         [("variables", PList [PStr "sst"]);
          ("regions", dict_display [("sst", PStr "nino3.4")]);
          ("obs_name", dict_display [("sst", PList [PStr "ERA-Interim"; PStr "HadISST"; PStr "Tropflux"])]);
          ("metric_computation", PStr "abs_relative_difference");
          ("regridding", dict_display
           [("regridder", PStr "cdms");
            ("regridTool", PStr "esmf");
            ("regridMethod", PStr "linear");
            ("newgrid_name", PStr "generic_1x1deg")])]);
        ("EnsoSstSkew", dict_display
         [("variables", PList [PStr "sst"]);
          ("regions", dict_display [("sst", PStr "nino3.4")]);
          ("obs_name", dict_display [("sst", PList [PStr "ERA-Interim"; PStr "HadISST"; PStr "Tropflux"])]);
          ("metric_computation", PStr "abs_relative_difference");
          ("regridding", dict_display
           [("regridder", PStr "cdms");
            ("regridTool", PStr "esmf");
            ("regridMethod", PStr "linear");
            ("newgrid_name", PStr "generic_1x1deg")])]);
        ("EnsodSstOce_2", dict_display
         [("variables", PList [PStr "sst"; PStr "thf"]);
          ("regions", dict_display [("sst", PStr "nino3"); ("thf", PStr "nino3")]);
          ("obs_name", dict_display
           [("sst", PList [PStr "ERA-Interim"; PStr "HadISST"; PStr "Tropflux"]);
            ("thf", PList [PStr "ERA-Interim"; PStr "Tropflux"])]);
          ("event_definition", dict_display
           [("region_ev", PStr "nino3.4");
            ("season_ev", PStr "DEC");
            ("threshold", PFloat 0.75);
            ("normalization", PBool true)]);
          ("smoothing", dict_display [("window", PInt 5); ("method", PStr "triangle")]);
          ("regridding", dict_display
           [("regridder", PStr "cdms");
            ("regridTool", PStr "esmf");
            ("regridMethod", PStr "linear");
            ("newgrid_name", PStr "generic_1x1deg")]);
          ("metric_computation", PStr "abs_relative_difference")]);
        ("EnsoFbSshSst", dict_display
         [("variables", PList [PStr "sst"; PStr "ssh"]);
          ("regions", dict_display [("sst", PStr "nino3"); ("ssh", PStr "nino3")]);
          ("obs_name", dict_display
           [("sst", PList [PStr "ERA-Interim"; PStr "HadISST"; PStr "Tropflux"]);
            ("ssh", PList [PStr "AVISO"])]);
          ("regridding", dict_display
           [("regridder", PStr "cdms");
            ("regridTool", PStr "esmf");
            ("regridMethod", PStr "linear");
            ("newgrid_name", PStr "generic_1x1deg")]);
          ("metric_computation", PStr "abs_relative_difference")]);
        ("EnsoFbSstTaux", dict_display
         [("variables", PList [PStr "sst"; PStr "taux"]);
          ("regions", dict_display [("sst", PStr "nino3"); ("taux", PStr "nino4")]);
          ("obs_name", dict_display
           [("sst", PList [PStr "ERA-Interim"; PStr "HadISST"; PStr "Tropflux"]);
            ("taux", PList [PStr "ERA-Interim"; PStr "Tropflux"])]);
          ("regridding", dict_display
           [("regridder", PStr "cdms");
            ("regridTool", PStr "esmf");
            ("regridMethod", PStr "linear");
            ("newgrid_name", PStr "generic_1x1deg")]);
          ("metric_computation", PStr "abs_relative_difference")]);
        ("EnsoFbSstThf", dict_display
         [("variables", PList [PStr "sst"; PStr "thf"]);
          ("regions", dict_display [("sst", PStr "nino3"); ("thf", PStr "nino3")]);
          ("obs_name", dict_display
           [("sst", PList [PStr "ERA-Interim"; PStr "HadISST"; PStr "Tropflux"]);
            ("thf", PList [PStr "ERA-Interim"; PStr "Tropflux"])]);
          ("regridding", dict_display
           [("regridder", PStr "cdms");
            ("regridTool", PStr "esmf");
            ("regridMethod", PStr "linear");
            ("newgrid_name", PStr "generic_1x1deg")]);
          ("metric_computation", PStr "abs_relative_difference")]);
        ("EnsoFbTauxSsh", dict_display
         [("variables", PList [PStr "taux"; PStr "ssh"]);
          ("regions", dict_display [("ssh", PStr "nino3"); ("taux", PStr "nino4")]);
          ("obs_name", dict_display
           [("sst", PList [PStr "ERA-Interim"; PStr "HadISST"; PStr "Tropflux"]);
            ("ssh", PList [PStr "AVISO"])]);
          ("regridding", dict_display
           [("regridder", PStr "cdms");
            ("regridTool", PStr "esmf");
            ("regridMethod", PStr "linear");
            ("newgrid_name", PStr "generic_1x1deg")]);
          ("metric_computation", PStr "abs_relative_difference")])]);
      ("common_collection_parameters", dict_display
       [("detrending", dict_display [("method", PStr "linear")]);
        ("frequency", PStr "monthly");
        ("min_time_steps", PInt 12);
        ("normalization", PBool false);
        ("project_interpreter", PStr "CMIP");
        ("observed_period", PTuple [PStr "1850-01-01 00:00:00"; PStr "2018-12-31 23:59:60.0"]);
        ("modeled_period", PTuple [PStr "1850-01-01 00:00:00"; PStr "2015-12-31 23:59:60.0"])]);
      ("plot_order", PList
       [PStr "BiasSstLonRmse";
        PStr "BiasTauxLonRmse";
        PStr "EnsoSstLonRmse";
        PStr "EnsoAmpl";
        PStr "EnsoSeasonality";
        PStr "EnsoSstSkew";
        PStr "EnsodSstOce_2";
        PStr "EnsoFbSstThf";
        PStr "EnsoFbSstTaux";
        PStr "EnsoFbTauxSsh";
        PStr "EnsoFbSshSst"]);
      ("description", PStr "Describe which science question this collection is about")]);
    ("all_metrics", dict_display
     [("long_name", PStr "Metrics Collection for ENSO performance");
      ("metrics_list", dict_display
       [("BiasPrLatRmse", dict_display
         [("variables", PList [PStr "pr"]);
          ("regions", dict_display [("pr", PStr "nino3_LatExt")]);
          ("obs_name", dict_display [("pr", PList [PStr "ERA-Interim"; PStr "GPCPv2.3"])]);
          ("regridding", dict_display
           [("model_orand_obs", PInt 2);
            ("regridder", PStr "cdms");
            ("regridTool", PStr "esmf");
            ("regridMethod", PStr "linear");
            ("newgrid_name", PStr "generic_1x1deg")])]);
        ("BiasPrLonRmse", dict_display
         [("variables", PList [PStr "pr"]);
          ("regions", dict_display [("pr", PStr "equatorial_pacific")]);
          ("obs_name", dict_display [("pr", PList [PStr "ERA-Interim"; PStr "GPCPv2.3"])]);
          ("regridding", dict_display
           [("model_orand_obs", PInt 2);
            ("regridder", PStr "cdms");
            ("regridTool", PStr "esmf");
            ("regridMethod", PStr "linear");
            ("newgrid_name", PStr "generic_1x1deg")])]);
        ("BiasSshLatRmse", dict_display
         [("variables", PList [PStr "ssh"]);
          ("regions", dict_display [("ssh", PStr "nino3_LatExt")]);
          ("obs_name", dict_display [("ssh", PList [PStr "AVISO"])]);
          ("regridding", dict_display
           [("model_orand_obs", PInt 2);
            ("regridder", PStr "cdms");
            ("regridTool", PStr "esmf");
            ("regridMethod", PStr "linear");
            ("newgrid_name", PStr "generic_1x1deg")])]);
        ("BiasSshLonRmse", dict_display
         [("variables", PList [PStr "ssh"]);
          ("regions", dict_display [("ssh", PStr "equatorial_pacific")]);
          ("obs_name", dict_display [("ssh", PList [PStr "AVISO"])]);
          ("regridding", dict_display
           [("model_orand_obs", PInt 2);
            ("regridder", PStr "cdms");
            ("regridTool", PStr "esmf");
            ("regridMethod", PStr "linear");
            ("newgrid_name", PStr "generic_1x1deg")])]);
        ("BiasSstLatRmse", dict_display
         [("variables", PList [PStr "sst"]);
          ("regions", dict_display [("sst", PStr "nino3_LatExt")]);
          ("obs_name", dict_display [("sst", PList [PStr "ERA-Interim"; PStr "HadISST"; PStr "Tropflux"])]);
          ("regridding", dict_display
           [("model_orand_obs", PInt 2);
            ("regridder", PStr "cdms");
            ("regridTool", PStr "esmf");
            ("regridMethod", PStr "linear");
            ("newgrid_name", PStr "generic_1x1deg")])]);
        ("BiasSstLonRmse", dict_display
         [("variables", PList [PStr "sst"]);
          ("regions", dict_display [("sst", PStr "equatorial_pacific")]);
          ("obs_name", dict_display [("sst", PList [PStr "ERA-Interim"; PStr "HadISST"; PStr "Tropflux"])]);
          ("regridding", dict_display
           [("model_orand_obs", PInt 2);
            ("regridder", PStr "cdms");
            ("regridTool", PStr "esmf");
            ("regridMethod", PStr "linear");
            ("newgrid_name", PStr "generic_1x1deg")])]);
        ("BiasTauxLatRmse", dict_display
         [("variables", PList [PStr "taux"]);
          ("regions", dict_display [("taux", PStr "equatorial_pacific_LatExt")]);
          ("obs_name", dict_display [("taux", PList [PStr "ERA-Interim"; PStr "Tropflux"])]);
          ("regridding", dict_display
           [("model_orand_obs", PInt 2);
            ("regridder", PStr "cdms");
            ("regridTool", PStr "esmf");
            ("regridMethod", PStr "linear");
            ("newgrid_name", PStr "generic_1x1deg")])]);
        ("BiasTauxLonRmse", dict_display
         [("variables", PList [PStr "taux"]);
          ("regions", dict_display [("taux", PStr "equatorial_pacific")]);
          ("obs_name", dict_display [("taux", PList [PStr "ERA-Interim"; PStr "Tropflux"])]);
          ("regridding", dict_display
           [("model_orand_obs", PInt 2);
            ("regridder", PStr "cdms");
            ("regridTool", PStr "esmf");
            ("regridMethod", PStr "linear");
            ("newgrid_name", PStr "generic_1x1deg")])]);
        ("EnsoAmpl", dict_display
         [("variables", PList [PStr "sst"]);
          ("regions", dict_display [("sst", PStr "nino3.4")]);
          ("obs_name", dict_display [("sst", PList [PStr "ERA-Interim"; PStr "HadISST"; PStr "Tropflux"])]);
          ("metric_computation", PStr "abs_relative_difference");
          ("regridding", dict_display
           [("regridder", PStr "cdms");
            ("regridTool", PStr "esmf");
            ("regridMethod", PStr "linear");
            ("newgrid_name", PStr "generic_1x1deg")])]);
        ("EnsoDuration", dict_display
         [("variables", PList [PStr "sst"]);
          ("regions", dict_display [("sst", PStr "nino3.4")]);
          ("obs_name", dict_display [("sst", PList [PStr "ERA-Interim"; PStr "HadISST"; PStr "Tropflux"])]);
          ("event_definition", dict_display
           [("region_ev", PStr "nino3.4");
            ("season_ev", PStr "DEC");
            ("threshold", PFloat 0.75);
            ("normalization", PBool true)]);
          ("nbr_years_window", PInt 6);
          ("smoothing", dict_display [("window", PInt 5); ("method", PStr "triangle")]);
          ("metric_computation", PStr "abs_relative_difference");
          ("regridding", dict_display
           [("model_orand_obs", PInt 2);
            ("regridder", PStr "cdms");
            ("regridTool", PStr "esmf");
            ("regridMethod", PStr "linear");
            ("newgrid_name", PStr "generic_1x1deg")])]);
        ("EnsodSstOce_1", dict_display
         [("variables", PList [PStr "sst"; PStr "thf"]);
          ("regions", dict_display [("sst", PStr "nino3"); ("thf", PStr "nino3")]);
          ("obs_name", dict_display
           [("sst", PList [PStr "ERA-Interim"; PStr "HadISST"; PStr "Tropflux"]);
            ("thf", PList [PStr "ERA-Interim"; PStr "Tropflux"])]);
          ("event_definition", dict_display
           [("region_ev", PStr "nino3.4");
            ("season_ev", PStr "DEC");
            ("threshold", PFloat 0.75);
            ("normalization", PBool false)]);
          ("smoothing", dict_display [("window", PInt 5); ("method", PStr "triangle")]);
          ("regridding", dict_display
           [("regridder", PStr "cdms");
            ("regridTool", PStr "esmf");
            ("regridMethod", PStr "linear");
            ("newgrid_name", PStr "generic_1x1deg")]);
          ("metric_computation", PStr "abs_relative_difference")]);
        ("EnsodSstOce_2", dict_display
         [("variables", PList [PStr "sst"; PStr "thf"]);
          ("regions", dict_display [("sst", PStr "nino3"); ("thf", PStr "nino3")]);
          ("obs_name", dict_display
           [("sst", PList [PStr "ERA-Interim"; PStr "HadISST"; PStr "Tropflux"]);
            ("thf", PList [PStr "ERA-Interim"; PStr "Tropflux"])]);
          ("event_definition", dict_display
           [("region_ev", PStr "nino3.4");
            ("season_ev", PStr "DEC");
            ("threshold", PFloat 0.75);
            ("normalization", PBool true)]);
          ("smoothing", dict_display [("window", PInt 5); ("method", PStr "triangle")]);
          ("regridding", dict_display
           [("regridder", PStr "cdms");
            ("regridTool", PStr "esmf");
            ("regridMethod", PStr "linear");
            ("newgrid_name", PStr "generic_1x1deg")]);
          ("metric_computation", PStr "abs_relative_difference")]);
        ("EnsoFbSshSst", dict_display
         [("variables", PList [PStr "sst"; PStr "ssh"]);
          ("regions", dict_display [("sst", PStr "nino3"); ("ssh", PStr "nino3")]);
          ("obs_name", dict_display
           [("sst", PList [PStr "ERA-Interim"; PStr "HadISST"; PStr "Tropflux"]);
            ("ssh", PList [PStr "AVISO"])]);
          ("regridding", dict_display
           [("regridder", PStr "cdms");
            ("regridTool", PStr "esmf");
            ("regridMethod", PStr "linear");
            ("newgrid_name", PStr "generic_1x1deg")]);
          ("metric_computation", PStr "abs_relative_difference")]);
        ("EnsoFbSstLhf", dict_display
         [("variables", PList [PStr "sst"; PStr "lhf"]);
          ("regions", dict_display [("sst", PStr "nino3"); ("lhf", PStr "nino3")]);
          ("obs_name", dict_display
           [("sst", PList [PStr "ERA-Interim"; PStr "HadISST"; PStr "Tropflux"]);
            ("lhf", PList [PStr "ERA-Interim"; PStr "Tropflux"])]);
          ("regridding", dict_display
           [("regridder", PStr "cdms");
            ("regridTool", PStr "esmf");
            ("regridMethod", PStr "linear");
            ("newgrid_name", PStr "generic_1x1deg")]);
          ("metric_computation", PStr "abs_relative_difference")]);
        ("EnsoFbSstLwr", dict_display
         [("variables", PList [PStr "sst"; PStr "lwr"]);
          ("regions", dict_display [("sst", PStr "nino3"); ("lwr", PStr "nino3")]);
          ("obs_name", dict_display
           [("sst", PList [PStr "ERA-Interim"; PStr "HadISST"; PStr "Tropflux"]);
            ("lwr", PList [PStr "ERA-Interim"; PStr "Tropflux"])]);
          ("regridding", dict_display
           [("regridder", PStr "cdms");
            ("regridTool", PStr "esmf");
            ("regridMethod", PStr "linear");
            ("newgrid_name", PStr "generic_1x1deg")]);
          ("metric_computation", PStr "abs_relative_difference")]);
        ("EnsoFbSstShf", dict_display
         [("variables", PList [PStr "sst"; PStr "shf"]);
          ("regions", dict_display [("sst", PStr "nino3"); ("shf", PStr "nino3")]);
          ("obs_name", dict_display
           [("sst", PList [PStr "ERA-Interim"; PStr "HadISST"; PStr "Tropflux"]);
            ("shf", PList [PStr "ERA-Interim"; PStr "Tropflux"])]);
          ("regridding", dict_display
           [("regridder", PStr "cdms");
            ("regridTool", PStr "esmf");
            ("regridMethod", PStr "linear");
            ("newgrid_name", PStr "generic_1x1deg")]);
          ("metric_computation", PStr "abs_relative_difference")]);
        ("EnsoFbSstSwr", dict_display
         [("variables", PList [PStr "sst"; PStr "swr"]);
          ("regions", dict_display [("sst", PStr "nino3"); ("swr", PStr "nino3")]);
          ("obs_name", dict_display
           [("sst", PList [PStr "ERA-Interim"; PStr "HadISST"; PStr "Tropflux"]);
            ("swr", PList [PStr "ERA-Interim"; PStr "Tropflux"])]);
          ("regridding", dict_display
           [("regridder", PStr "cdms");
            ("regridTool", PStr "esmf");
            ("regridMethod", PStr "linear");
            ("newgrid_name", PStr "generic_1x1deg")]);
          ("metric_computation", PStr "abs_relative_difference")]);
        ("EnsoFbSstTaux", dict_display
         [("variables", PList [PStr "sst"; PStr "taux"]);
          ("regions", dict_display [("sst", PStr "nino3"); ("taux", PStr "nino4")]);
          ("obs_name", dict_display
           [("sst", PList [PStr "ERA-Interim"; PStr "HadISST"; PStr "Tropflux"]);
            ("taux", PList [PStr "ERA-Interim"; PStr "Tropflux"])]);
          ("regridding", dict_display
           [("regridder", PStr "cdms");
            ("regridTool", PStr "esmf");
            ("regridMethod", PStr "linear");
            ("newgrid_name", PStr "generic_1x1deg")]);
          ("metric_computation", PStr "abs_relative_difference")]);
        ("EnsoFbSstThf", dict_display
         [("variables", PList [PStr "sst"; PStr "thf"]);
          ("regions", dict_display [("sst", PStr "nino3"); ("thf", PStr "nino3")]);
          ("obs_name", dict_display
           [("sst", PList [PStr "ERA-Interim"; PStr "HadISST"; PStr "Tropflux"]);
            ("thf", PList [PStr "ERA-Interim"; PStr "Tropflux"])]);
          ("regridding", dict_display
           [("regridder", PStr "cdms");
            ("regridTool", PStr "esmf");
            ("regridMethod", PStr "linear");
            ("newgrid_name", PStr "generic_1x1deg")]);
          ("metric_computation", PStr "abs_relative_difference")]);
        ("EnsoFbTauxSsh", dict_display
         [("variables", PList [PStr "taux"; PStr "ssh"]);
          ("regions", dict_display [("ssh", PStr "nino3"); ("taux", PStr "nino4")]);
          ("obs_name", dict_display
           [("sst", PList [PStr "ERA-Interim"; PStr "HadISST"; PStr "Tropflux"]);
            ("ssh", PList [PStr "AVISO"])]);
          ("regridding", dict_display
           [("regridder", PStr "cdms");
            ("regridTool", PStr "esmf");
            ("regridMethod", PStr "linear");
            ("newgrid_name", PStr "generic_1x1deg")]);
          ("metric_computation", PStr "abs_relative_difference")]);
        ("EnsoPrMapDjf", dict_display
         [("variables", PList [PStr "sst"; PStr "pr"]);
          ("regions", dict_display [("pr", PStr "global"); ("sst", PStr "nino3.4")]);
          ("event_definition", dict_display
           [("region_ev", PStr "nino3.4");
            ("season_ev", PStr "DEC");
            ("threshold", PFloat 0.75);
            ("normalization", PBool false)]);
          ("smoothing", dict_display [("window", PInt 5); ("method", PStr "triangle")]);
          ("regridding", dict_display
           [("model_orand_obs", PInt 2);
            ("regridder", PStr "cdms");
            ("regridTool", PStr "esmf");
            ("regridMethod", PStr "linear");
            ("newgrid_name", PStr "generic_1x1deg")]);
          ("obs_name", dict_display
           [("pr", PList [PStr "ERA-Interim"; PStr "GPCPv2.3"]);
            ("sst", PList [PStr "ERA-Interim"; PStr "HadISST"; PStr "Tropflux"])])]);
        ("EnsoPrMapJja", dict_display
         [("variables", PList [PStr "sst"; PStr "pr"]);
          ("regions", dict_display [("pr", PStr "global"); ("sst", PStr "nino3.4")]);
          ("event_definition", dict_display
           [("region_ev", PStr "nino3.4");
            ("season_ev", PStr "DEC");
            ("threshold", PFloat 0.75);
            ("normalization", PBool false)]);
          ("smoothing", dict_display [("window", PInt 5); ("method", PStr "triangle")]);
          ("regridding", dict_display
           [("model_orand_obs", PInt 2);
            ("regridder", PStr "cdms");
            ("regridTool", PStr "esmf");
            ("regridMethod", PStr "linear");
            ("newgrid_name", PStr "generic_1x1deg")]);
          ("obs_name", dict_display
           [("pr", PList [PStr "ERA-Interim"; PStr "GPCPv2.3"]);
            ("sst", PList [PStr "ERA-Interim"; PStr "HadISST"; PStr "Tropflux"])])]);
        ("EnsoSeasonality", dict_display
         [("variables", PList [PStr "sst"]);
          ("regions", dict_display [("sst", PStr "nino3.4")]);
          ("obs_name", dict_display [("sst", PList [PStr "ERA-Interim"; PStr "HadISST"; PStr "Tropflux"])]);
          ("metric_computation", PStr "abs_relative_difference");
          ("regridding", dict_display
           [("regridder", PStr "cdms");
            ("regridTool", PStr "esmf");
            ("regridMethod", PStr "linear");
            ("newgrid_name", PStr "generic_1x1deg")])]);
        ("EnsoSlpMapDjf", dict_display
         [("variables", PList [PStr "sst"; PStr "slp"]);
          ("regions", dict_display [("slp", PStr "global"); ("sst", PStr "nino3.4")]);
          ("event_definition", dict_display
           [("region_ev", PStr "nino3.4");
            ("season_ev", PStr "DEC");
            ("threshold", PFloat 0.75);
            ("normalization", PBool false)]);
          ("smoothing", dict_display [("window", PInt 5); ("method", PStr "triangle")]);
          ("regridding", dict_display
           [("model_orand_obs", PInt 2);
            ("regridder", PStr "cdms");
            ("regridTool", PStr "esmf");
            ("regridMethod", PStr "linear");
            ("newgrid_name", PStr "generic_1x1deg")]);
          ("obs_name", dict_display
           [("slp", PList [PStr "AVISO"]);
            ("sst", PList [PStr "ERA-Interim"; PStr "HadISST"; PStr "Tropflux"])])]);
        ("EnsoSlpMapJja", dict_display
         [("variables", PList [PStr "sst"; PStr "slp"]);
          ("regions", dict_display [("slp", PStr "global"); ("sst", PStr "nino3.4")]);
          ("event_definition", dict_display
           [("region_ev", PStr "nino3.4");
            ("season_ev", PStr "DEC");
            ("threshold", PFloat 0.75);
            ("normalization", PBool false)]);
          ("smoothing", dict_display [("window", PInt 5); ("method", PStr "triangle")]);
          ("regridding", dict_display
           [("model_orand_obs", PInt 2);
            ("regridder", PStr "cdms");
            ("regridTool", PStr "esmf");
            ("regridMethod", PStr "linear");
            ("newgrid_name", PStr "generic_1x1deg")]);
          ("obs_name", dict_display
           [("slp", PList [PStr "AVISO"]);
            ("sst", PList [PStr "ERA-Interim"; PStr "HadISST"; PStr "Tropflux"])])]);
        ("EnsoSstDiversity_1", dict_display
         [("variables", PList [PStr "sst"]);
          ("regions", dict_display [("sst", PStr "equatorial_pacific")]);
          ("obs_name", dict_display [("sst", PList [PStr "ERA-Interim"; PStr "HadISST"; PStr "Tropflux"])]);
          ("event_definition", dict_display
           [("region_ev", PStr "nino3.4");
            ("season_ev", PStr "DEC");
            ("threshold", PFloat 0.75);
            ("normalization", PBool false)]);
          ("smoothing", dict_display [("window", PInt 5); ("method", PStr "triangle")]);
          ("regridding", dict_display
           [("regridder", PStr "cdms");
            ("regridTool", PStr "esmf");
            ("regridMethod", PStr "linear");
            ("newgrid_name", PStr "generic_1x1deg")]);
          ("metric_computation", PStr "abs_relative_difference")]);
        ("EnsoSstDiversity_2", dict_display
         [("variables", PList [PStr "sst"]);
          ("regions", dict_display [("sst", PStr "equatorial_pacific")]);
          ("obs_name", dict_display [("sst", PList [PStr "ERA-Interim"; PStr "HadISST"; PStr "Tropflux"])]);
          ("event_definition", dict_display
           [("region_ev", PStr "nino3.4");
            ("season_ev", PStr "DEC");
            ("threshold", PFloat 0.75);
            ("normalization", PBool true)]);
          ("smoothing", dict_display [("window", PInt 5); ("method", PStr "triangle")]);
          ("regridding", dict_display
           [("regridder", PStr "cdms");
            ("regridTool", PStr "esmf");
            ("regridMethod", PStr "linear");
            ("newgrid_name", PStr "generic_1x1deg")]);
          ("metric_computation", PStr "abs_relative_difference")]);
        ("EnsoSstLonRmse", dict_display
         [("variables", PList [PStr "sst"]);
          ("regions", dict_display [("sst", PStr "equatorial_pacific")]);
          ("obs_name", dict_display [("sst", PList [PStr "ERA-Interim"; PStr "HadISST"; PStr "Tropflux"])]);
          ("event_definition", dict_display
           [("region_ev", PStr "nino3.4");
            ("season_ev", PStr "DEC");
            ("threshold", PFloat 0.75);
            ("normalization", PBool true)]);
          ("smoothing", dict_display [("window", PInt 5); ("method", PStr "triangle")]);
          ("regridding", dict_display
           [("model_orand_obs", PInt 2);
            ("regridder", PStr "cdms");
            ("regridTool", PStr "esmf");
            ("regridMethod", PStr "linear");
            ("newgrid_name", PStr "generic_1x1deg")])]);
        ("EnsoSstMapDjf", dict_display
         [("variables", PList [PStr "sst"]);
          ("regions", dict_display [("sst", PStr "global")]);
          ("event_definition", dict_display
           [("region_ev", PStr "nino3.4");
            ("season_ev", PStr "DEC");
            ("threshold", PFloat 0.75);
            ("normalization", PBool false)]);
          ("smoothing", dict_display [("window", PInt 5); ("method", PStr "triangle")]);
          ("regridding", dict_display
           [("model_orand_obs", PInt 2);
            ("regridder", PStr "cdms");
            ("regridTool", PStr "esmf");
            ("regridMethod", PStr "linear");
            ("newgrid_name", PStr "generic_1x1deg")]);
          ("obs_name", dict_display [("sst", PList [PStr "ERA-Interim"; PStr "HadISST"; PStr "Tropflux"])])]);
        ("EnsoSstMapJja", dict_display
         [("variables", PList [PStr "sst"]);
          ("regions", dict_display [("sst", PStr "global")]);
          ("event_definition", dict_display
           [("region_ev", PStr "nino3.4");
            ("season_ev", PStr "DEC");
            ("threshold", PFloat 0.75);
            ("normalization", PBool false)]);
          ("smoothing", dict_display [("window", PInt 5); ("method", PStr "triangle")]);
          ("regridding", dict_display
           [("model_orand_obs", PInt 2);
            ("regridder", PStr "cdms");
            ("regridTool", PStr "esmf");
            ("regridMethod", PStr "linear");
            ("newgrid_name", PStr "generic_1x1deg")]);
          ("obs_name", dict_display [("sst", PList [PStr "ERA-Interim"; PStr "HadISST"; PStr "Tropflux"])])]);
        ("EnsoSstSkew", dict_display
         [("variables", PList [PStr "sst"]);
          ("regions", dict_display [("sst", PStr "nino3.4")]);
          ("obs_name", dict_display [("sst", PList [PStr "ERA-Interim"; PStr "HadISST"; PStr "Tropflux"])]);
          ("metric_computation", PStr "abs_relative_difference");
          ("regridding", dict_display
           [("regridder", PStr "cdms");
            ("regridTool", PStr "esmf");
            ("regridMethod", PStr "linear");
            ("newgrid_name", PStr "generic_1x1deg")])]);
        ("EnsoSstTsRmse", dict_display
         [("variables", PList [PStr "sst"]);
          ("regions", dict_display [("sst", PStr "nino3.4")]);
          ("obs_name", dict_display [("sst", PList [PStr "ERA-Interim"; PStr "HadISST"; PStr "Tropflux"])]);
          ("event_definition", dict_display
           [("region_ev", PStr "nino3.4");
            ("season_ev", PStr "DEC");
            ("threshold", PFloat 0.75);
            ("normalization", PBool true)]);
          ("nbr_years_window", PInt 6);
          ("smoothing", dict_display [("window", PInt 5); ("method", PStr "triangle")]);
          ("regridding", dict_display
           [("model_orand_obs", PInt 2);
            ("regridder", PStr "cdms");
            ("regridTool", PStr "esmf");
            ("regridMethod", PStr "linear");
            ("newgrid_name", PStr "generic_1x1deg")])]);
        ("SeasonalPrLatRmse", dict_display
         [("variables", PList [PStr "pr"]);
          ("regions", dict_display [("pr", PStr "nino3_LatExt")]);
          ("obs_name", dict_display [("pr", PList [PStr "ERA-Interim"; PStr "GPCPv2.3"])]);
          ("regridding", dict_display
           [("model_orand_obs", PInt 2);
            ("regridder", PStr "cdms");
            ("regridTool", PStr "esmf");
            ("regridMethod", PStr "linear");
            ("newgrid_name", PStr "generic_1x1deg")])]);
        ("SeasonalPrLonRmse", dict_display
         [("variables", PList [PStr "pr"]);
          ("regions", dict_display [("pr", PStr "equatorial_pacific")]);
          ("obs_name", dict_display [("pr", PList [PStr "ERA-Interim"; PStr "GPCPv2.3"])]);
          ("regridding", dict_display
           [("model_orand_obs", PInt 2);
            ("regridder", PStr "cdms");
            ("regridTool", PStr "esmf");
            ("regridMethod", PStr "linear");
            ("newgrid_name", PStr "generic_1x1deg")])]);
        ("SeasonalSshLatRmse", dict_display
         [("variables", PList [PStr "ssh"]);
          ("regions", dict_display [("ssh", PStr "nino3_LatExt")]);
          ("obs_name", dict_display [("ssh", PList [PStr "AVISO"])]);
          ("regridding", dict_display
           [("model_orand_obs", PInt 2);
            ("regridder", PStr "cdms");
            ("regridTool", PStr "esmf");
            ("regridMethod", PStr "linear");
            ("newgrid_name", PStr "generic_1x1deg")])]);
        ("SeasonalSshLonRmse", dict_display
         [("variables", PList [PStr "ssh"]);
          ("regions", dict_display [("ssh", PStr "equatorial_pacific")]);
          ("obs_name", dict_display [("ssh", PList [PStr "AVISO"])]);
          ("regridding", dict_display
           [("model_orand_obs", PInt 2);
            ("regridder", PStr "cdms");
            ("regridTool", PStr "esmf");
            ("regridMethod", PStr "linear");
            ("newgrid_name", PStr "generic_1x1deg")])]);
        ("SeasonalSstLatRmse", dict_display
         [("variables", PList [PStr "sst"]);
          ("regions", dict_display [("sst", PStr "nino3_LatExt")]);
          ("obs_name", dict_display [("sst", PList [PStr "ERA-Interim"; PStr "HadISST"; PStr "Tropflux"])]);
          ("regridding", dict_display
           [("model_orand_obs", PInt 2);
            ("regridder", PStr "cdms");
            ("regridTool", PStr "esmf");
            ("regridMethod", PStr "linear");
            ("newgrid_name", PStr "generic_1x1deg")])]);
        ("SeasonalSstLonRmse", dict_display
         [("variables", PList [PStr "sst"]);
          ("regions", dict_display [("sst", PStr "equatorial_pacific")]);
          ("obs_name", dict_display [("sst", PList [PStr "ERA-Interim"; PStr "HadISST"; PStr "Tropflux"])]);
          ("regridding", dict_display
           [("model_orand_obs", PInt 2);
            ("regridder", PStr "cdms");
            ("regridTool", PStr "esmf");
            ("regridMethod", PStr "linear");
            ("newgrid_name", PStr "generic_1x1deg")])]);
        ("SeasonalTauxLatRmse", dict_display
         [("variables", PList [PStr "taux"]);
          ("regions", dict_display [("taux", PStr "equatorial_pacific_LatExt")]);
          ("obs_name", dict_display [("taux", PList [PStr "ERA-Interim"; PStr "Tropflux"])]);
          ("regridding", dict_display
           [("model_orand_obs", PInt 2);
            ("regridder", PStr "cdms");
            ("regridTool", PStr "esmf");
            ("regridMethod", PStr "linear");
            ("newgrid_name", PStr "generic_1x1deg")])]);
        ("SeasonalTauxLonRmse", dict_display
         [("variables", PList [PStr "taux"]);
          ("regions", dict_display [("taux", PStr "equatorial_pacific")]);
          ("obs_name", dict_display [("sst", PList [PStr "ERA-Interim"; PStr "Tropflux"])]);
          ("regridding", dict_display
           [("model_orand_obs", PInt 2);
            ("regridder", PStr "cdms");
            ("regridTool", PStr "esmf");
            ("regridMethod", PStr "linear");
            ("newgrid_name", PStr "generic_1x1deg")])])]);
      ("common_collection_parameters", dict_display
       [("detrending", dict_display [("method", PStr "linear")]);
        ("frequency", PStr "monthly");
        ("min_time_steps", PInt 12);
        ("normalization", PBool false);
        ("project_interpreter", PStr "CMIP");
        ("observed_period", PTuple [PStr "1850-01-01 00:00:00"; PStr "2018-12-31 23:59:60.0"]);
        ("modeled_period", PTuple [PStr "1850-01-01 00:00:00"; PStr "2015-12-31 23:59:60.0"])]);
      ("plot_order", PList
       [PStr "BiasPrLatRmse";
        PStr "BiasPrLonRmse";
        PStr "BiasSstLonRmse";
        PStr "BiasTauxLonRmse";
        PStr "SeasonalPrLatRmse";
        PStr "SeasonalPrLonRmse";
        PStr "SeasonalSstLonRmse";
        PStr "SeasonalTauxLonRmse";
        PStr "EnsoSstLonRmse";
        PStr "EnsoSstTsRmse";
        PStr "EnsoAmpl";
        PStr "EnsoSeasonality";
        PStr "EnsoSstSkew";
        PStr "EnsodDuration";
        PStr "EnsoSstDiversity_2"]);
      ("description", PStr "Describe which science question this collection is about")]);
    ("ENSO_THF", dict_display
     [("long_name", PStr "Metrics Collection for ENSO performance");
      ("metrics_list", dict_display
       [("EnsoFbSstLhf", dict_display
         [("variables", PList [PStr "sst"; PStr "lhf"]);
          ("regions", dict_display [("sst", PStr "nino3"); ("lhf", PStr "nino3")]);
          ("obs_name", dict_display
           [("sst", PList [PStr "ERA-Interim"; PStr "HadISST"; PStr "Tropflux"]);
            ("lhf", PList [PStr "ERA-Interim"; PStr "Tropflux"])]);
          ("regridding", dict_display
           [("regridder", PStr "cdms");
            ("regridTool", PStr "esmf");
            ("regridMethod", PStr "linear");
            ("newgrid_name", PStr "generic_1x1deg")]);
          ("metric_computation", PStr "abs_relative_difference")]);
        ("EnsoFbSstLwr", dict_display
         [("variables", PList [PStr "sst"; PStr "lwr"]);
          ("regions", dict_display [("sst", PStr "nino3"); ("lwr", PStr "nino3")]);
          ("obs_name", dict_display
           [("sst", PList [PStr "ERA-Interim"; PStr "HadISST"; PStr "Tropflux"]);
            ("lwr", PList [PStr "ERA-Interim"; PStr "Tropflux"])]);
          ("regridding", dict_display
           [("regridder", PStr "cdms");
            ("regridTool", PStr "esmf");
            ("regridMethod", PStr "linear");
            ("newgrid_name", PStr "generic_1x1deg")]);
          ("metric_computation", PStr "abs_relative_difference")]);
        ("EnsoFbSstShf", dict_display
         [("variables", PList [PStr "sst"; PStr "shf"]);
          ("regions", dict_display [("sst", PStr "nino3"); ("shf", PStr "nino3")]);
          ("obs_name", dict_display
           [("sst", PList [PStr "ERA-Interim"; PStr "HadISST"; PStr "Tropflux"]);
            ("shf", PList [PStr "ERA-Interim"; PStr "Tropflux"])]);
          ("regridding", dict_display
           [("regridder", PStr "cdms");
            ("regridTool", PStr "esmf");
            ("regridMethod", PStr "linear");
            ("newgrid_name", PStr "generic_1x1deg")]);
          ("metric_computation", PStr "abs_relative_difference")]);
        ("EnsoFbSstSwr", dict_display
         [("variables", PList [PStr "sst"; PStr "swr"]);
          ("regions", dict_display [("sst", PStr "nino3"); ("swr", PStr "nino3")]);
          ("obs_name", dict_display
           [("sst", PList [PStr "ERA-Interim"; PStr "HadISST"; PStr "Tropflux"]);
            ("swr", PList [PStr "ERA-Interim"; PStr "Tropflux"])]);
          ("regridding", dict_display
           [("regridder", PStr "cdms");
            ("regridTool", PStr "esmf");
            ("regridMethod", PStr "linear");
            ("newgrid_name", PStr "generic_1x1deg")]);
          ("metric_computation", PStr "abs_relative_difference")]);
        ("EnsoFbSstThf", dict_display
         [("variables", PList [PStr "sst"; PStr "thf"]);
          ("regions", dict_display [("sst", PStr "nino3"); ("thf", PStr "nino3")]);
          ("obs_name", dict_display
           [("sst", PList [PStr "ERA-Interim"; PStr "HadISST"; PStr "Tropflux"]);
            ("thf", PList [PStr "ERA-Interim"; PStr "Tropflux"])]);
          ("regridding", dict_display
           [("regridder", PStr "cdms");
            ("regridTool", PStr "esmf");
            ("regridMethod", PStr "linear");
            ("newgrid_name", PStr "generic_1x1deg")]);
          ("metric_computation", PStr "abs_relative_difference")])]);
      ("common_collection_parameters", dict_display
       [("detrending", dict_display [("method", PStr "linear")]);
        ("frequency", PStr "monthly");
        ("min_time_steps", PInt 12);
        ("normalization", PBool false);
        ("project_interpreter", PStr "CMIP");
        ("observed_period", PTuple [PStr "1850-01-01 00:00:00"; PStr "2018-12-31 23:59:60.0"]);
        ("modeled_period", PTuple [PStr "1850-01-01 00:00:00"; PStr "2015-12-31 23:59:60.0"])]);
      ("plot_order", PList [PStr "EnsoFbSstThf"]);
      ("description", PStr "Describe which science question this collection is about")]);
    ("ENSO_tau", dict_display
     [("long_name", PStr "Metrics Collection for ENSO performance");
      ("metrics_list", dict_display
       [("BiasMldLonRmse", dict_display
         [("variables", PList [PStr "mld"]);
          ("regions", dict_display [("mld", PStr "equatorial_pacific")]);
          ("obs_name", dict_display [("mld", PList [PStr "Boyer"; PStr "Sallee"])]);
          ("regridding", dict_display
           [("model_orand_obs", PInt 2);
            ("regridder", PStr "cdms");
            ("regridTool", PStr "esmf");
            ("regridMethod", PStr "linear");
            ("newgrid_name", PStr "generic_1x1deg")])]);
        ("BiasTauxLonRmse", dict_display
         [("variables", PList [PStr "taux"]);
          ("regions", dict_display [("taux", PStr "equatorial_pacific")]);
          ("obs_name", dict_display [("taux", PList [PStr "ERA-Interim"; PStr "Tropflux"])]);
          ("regridding", dict_display
           [("model_orand_obs", PInt 2);
            ("regridder", PStr "cdms");
            ("regridTool", PStr "esmf");
            ("regridMethod", PStr "linear");
            ("newgrid_name", PStr "generic_1x1deg")])]);
        ("BiasTauyLonRmse", dict_display
         [("variables", PList [PStr "tauy"]);
          ("regions", dict_display [("tauy", PStr "equatorial_pacific")]);
          ("obs_name", dict_display [("tauy", PList [PStr "ERA-Interim"; PStr "Tropflux"])]);
          ("regridding", dict_display
           [("model_orand_obs", PInt 2);
            ("regridder", PStr "cdms");
            ("regridTool", PStr "esmf");
            ("regridMethod", PStr "linear");
            ("newgrid_name", PStr "generic_1x1deg")])]);
        ("EnsoMldLonRmse", dict_display
         [("variables", PList [PStr "sst"; PStr "mld"]);
          ("regions", dict_display [("sst", PStr "equatorial_pacific"); ("mld", PStr "equatorial_pacific")]);
          ("obs_name", dict_display
           [("sst", PList [PStr "ERA-Interim"; PStr "HadISST"; PStr "Tropflux"]);
            ("mld", PList [PStr "Boyer"; PStr "Sallee"])]);
          ("event_definition", dict_display
           [("region_ev", PStr "nino3.4");
            ("season_ev", PStr "DEC");
            ("threshold", PFloat 0.75);
            ("normalization", PBool true)]);
          ("smoothing", dict_display [("window", PInt 5); ("method", PStr "triangle")]);
          ("regridding", dict_display
           [("model_orand_obs", PInt 2);
            ("regridder", PStr "cdms");
            ("regridTool", PStr "esmf");
            ("regridMethod", PStr "linear");
            ("newgrid_name", PStr "generic_1x1deg")])]);
        ("EnsoMldTsRmse", dict_display
         [("variables", PList [PStr "sst"; PStr "mld"]);
          ("regions", dict_display [("sst", PStr "nino3.4"); ("mld", PStr "nino4")]);
          ("obs_name", dict_display
           [("sst", PList [PStr "ERA-Interim"; PStr "HadISST"; PStr "Tropflux"]);
            ("mld", PList [PStr "Boyer"; PStr "Sallee"])]);
          ("event_definition", dict_display
           [("region_ev", PStr "nino3.4");
            ("season_ev", PStr "DEC");
            ("threshold", PFloat 0.75);
            ("normalization", PBool true)]);
          ("nbr_years_window", PInt 6);
          ("smoothing", dict_display [("window", PInt 5); ("method", PStr "triangle")]);
          ("regridding", dict_display
           [("model_orand_obs", PInt 2);
            ("regridder", PStr "cdms");
            ("regridTool", PStr "esmf");
            ("regridMethod", PStr "linear");
            ("newgrid_name", PStr "generic_1x1deg")])]);
        ("EnsoTauxLonRmse", dict_display
         [("variables", PList [PStr "sst"; PStr "taux"]);
          ("regions", dict_display [("sst", PStr "equatorial_pacific"); ("taux", PStr "equatorial_pacific")]);
          ("obs_name", dict_display
           [("sst", PList [PStr "ERA-Interim"; PStr "HadISST"; PStr "Tropflux"]);
            ("taux", PList [PStr "ERA-Interim"; PStr "Tropflux"])]);
          ("event_definition", dict_display
           [("region_ev", PStr "nino3.4");
            ("season_ev", PStr "DEC");
            ("threshold", PFloat 0.75);
            ("normalization", PBool true)]);
          ("smoothing", dict_display [("window", PInt 5); ("method", PStr "triangle")]);
          ("regridding", dict_display
           [("model_orand_obs", PInt 2);
            ("regridder", PStr "cdms");
            ("regridTool", PStr "esmf");
            ("regridMethod", PStr "linear");
            ("newgrid_name", PStr "generic_1x1deg")])]);
        ("EnsoTauxTsRmse", dict_display
         [("variables", PList [PStr "sst"; PStr "taux"]);
          ("regions", dict_display [("sst", PStr "nino3.4"); ("taux", PStr "nino4")]);
          ("obs_name", dict_display
           [("sst", PList [PStr "ERA-Interim"; PStr "HadISST"; PStr "Tropflux"]);
            ("taux", PList [PStr "ERA-Interim"; PStr "Tropflux"])]);
          ("event_definition", dict_display
           [("region_ev", PStr "nino3.4");
            ("season_ev", PStr "DEC");
            ("threshold", PFloat 0.75);
            ("normalization", PBool true)]);
          ("nbr_years_window", PInt 6);
          ("smoothing", dict_display [("window", PInt 5); ("method", PStr "triangle")]);
          ("regridding", dict_display
           [("model_orand_obs", PInt 2);
            ("regridder", PStr "cdms");
            ("regridTool", PStr "esmf");
            ("regridMethod", PStr "linear");
            ("newgrid_name", PStr "generic_1x1deg")])]);
        ("EnsoTauyLonRmse", dict_display
         [("variables", PList [PStr "sst"; PStr "tauy"]);
          ("regions", dict_display [("sst", PStr "equatorial_pacific"); ("tauy", PStr "equatorial_pacific")]);
          ("obs_name", dict_display
           [("sst", PList [PStr "ERA-Interim"; PStr "HadISST"; PStr "Tropflux"]);
            ("tauy", PList [PStr "ERA-Interim"; PStr "Tropflux"])]);
          ("event_definition", dict_display
           [("region_ev", PStr "nino3.4");
            ("season_ev", PStr "DEC");
            ("threshold", PFloat 0.75);
            ("normalization", PBool true)]);
          ("smoothing", dict_display [("window", PInt 5); ("method", PStr "triangle")]);
          ("regridding", dict_display
           [("model_orand_obs", PInt 2);
            ("regridder", PStr "cdms");
            ("regridTool", PStr "esmf");
            ("regridMethod", PStr "linear");
            ("newgrid_name", PStr "generic_1x1deg")])]);
        ("EnsoTauyTsRmse", dict_display
         [("variables", PList [PStr "sst"; PStr "tauy"]);
          ("regions", dict_display [("sst", PStr "nino3.4"); ("tauy", PStr "nino4")]);
          ("obs_name", dict_display
           [("sst", PList [PStr "ERA-Interim"; PStr "HadISST"; PStr "Tropflux"]);
            ("tauy", PList [PStr "ERA-Interim"; PStr "Tropflux"])]);
          ("event_definition", dict_display
           [("region_ev", PStr "nino3.4");
            ("season_ev", PStr "DEC");
            ("threshold", PFloat 0.75);
            ("normalization", PBool true)]);
          ("nbr_years_window", PInt 6);
          ("smoothing", dict_display [("window", PInt 5); ("method", PStr "triangle")]);
          ("regridding", dict_display
           [("model_orand_obs", PInt 2);
            ("regridder", PStr "cdms");
            ("regridTool", PStr "esmf");
            ("regridMethod", PStr "linear");
            ("newgrid_name", PStr "generic_1x1deg")])])]);
      ("common_collection_parameters", dict_display
       [("detrending", dict_display [("method", PStr "linear")]);
        ("frequency", PStr "monthly");
        ("min_time_steps", PInt 12);
        ("normalization", PBool false);
        ("project_interpreter", PStr "CMIP");
        ("observed_period", PTuple [PStr "1850-01-01 00:00:00"; PStr "2018-12-31 23:59:60.0"]);
        ("modeled_period", PTuple [PStr "1850-01-01 00:00:00"; PStr "2015-12-31 23:59:60.0"])]);
      ("plot_order", PList
       [PStr "BiasMldLonRmse";
        PStr "BiasTauxLonRmse";
        PStr "BiasTauyLonRmse";
        PStr "EnsoMldLonRmse";
        PStr "EnsoMldTsRmse";
        PStr "EnsoTauxLonRmse";
        PStr "EnsoTauxTsRmse";
        PStr "EnsoTauyLonRmse";
        PStr "EnsoTauyTsRmse"]);
      ("description", PStr "Describe which science question this collection is about")])].

(** [defCollection(mc=True)]: every collection, or the one named [mc]. *)
Definition defCollection (mc : pyval) : result pyval :=
  match mc with
  | PBool true => Ok metrics_collection
  | _ => getitem metrics_collection mc
  end.

(** ** Reference observations for each variable *)

Definition dict_ref_obs : pyval :=
  dict_display
   [("20CRv2c", dict_display
     [("website", PStr "https://aims2.llnl.gov/search?project=CREATE-IP&activeFacets=%7B%22realm%22%3A%22atmos%22%2C%22time_frequency%22%3A%22mon%22%2C%22product%22%3A%22reanalysis%22%2C%22source_id%22%3A%2220CRv2c%22%7D");
      ("file_name", PStr ("<var_name>" ++ "_Amon_reanalysis_20CRv2c_185101-201212.nc"));
      ("variable_name_in_file", dict_display
       [("lhf", dict_display [("var_name", PStr "hfls")]);
        ("lwr", dict_display
         [("var_name", PList [PStr "rlds"; PStr "rlus"]);
          ("algebric_calculation", PList [PStr "plus"; PStr "minus"])]);
        ("pr", dict_display [("var_name", PStr "pr")]);
        ("shf", dict_display [("var_name", PStr "hfss")]);
        ("sst", dict_display [("var_name", PStr "ts")]);
        ("swr", dict_display
         [("var_name", PList [PStr "rsds"; PStr "rsus"]);
          ("algebric_calculation", PList [PStr "plus"; PStr "minus"])]);
        ("taux", dict_display [("var_name", PStr "tauu")]);
        ("tauy", dict_display [("var_name", PStr "tauv")]);
        ("thf", dict_display
         [("var_name", PList [PStr "hfls"; PStr "hfss"; PStr "rlds"; PStr "rlus"; PStr "rsds"; PStr "rsus"]);
          ("algebric_calculation", PList [PStr "plus"; PStr "plus"; PStr "plus"; PStr "minus"; PStr "plus"; PStr "minus"])]);
        ("ts", dict_display [("var_name", PStr "ts")])])]);
    ("20CRv3", dict_display
     [("website", PStr "https://www.esrl.noaa.gov/psd/data/gridded/data.20thC_ReanV3.monolevel.html");
      ("file_name", PStr ("<var_name>" ++ "*.mon.mean.nc"));
      ("variable_name_in_file", dict_display
       [("landmask", dict_display [("var_name", PStr "land")]);
        ("lhf", dict_display [("var_name", PStr "lhtfl")]);
        ("lwr", dict_display
         [("var_name", PList [PStr "dlwrf"; PStr "ulwrf"]);
          ("algebric_calculation", PList [PStr "plus"; PStr "minus"])]);
        ("pr", dict_display [("var_name", PStr "prate")]);
        ("slp", dict_display [("var_name", PStr "prmsl")]);
        ("shf", dict_display [("var_name", PStr "shtfl")]);
        ("sst", dict_display [("var_name", PStr "skt")]);
        ("swr", dict_display
         [("var_name", PList [PStr "dswrf"; PStr "uswrf"]);
          ("algebric_calculation", PList [PStr "plus"; PStr "minus"])]);
        ("thf", dict_display
         [("var_name", PList
           [PStr "lhtfl";
            PStr "shtfl";
            PStr "dlwrf";
            PStr "ulwrf";
            PStr "dswrf";
            PStr "uswrf"]);
          ("algebric_calculation", PList [PStr "plus"; PStr "plus"; PStr "plus"; PStr "minus"; PStr "plus"; PStr "minus"])])])]);
    ("AVISO", dict_display
     [("website", PStr "https://www.aviso.altimetry.fr/en/data/products/sea-surface-height-products/global.html");
      ("file_name", PStr "dt_global_allsat_msla_h_y????_m??.nc");
      ("variable_name_in_file", dict_display [("ssh", dict_display [("var_name", PStr "sla")])])]);
    ("CERA-20C", dict_display
     [("website", PStr "https://aims2.llnl.gov/search?project=CREATE-IP&activeFacets=%7B%22time_frequency%22%3A%22mon%22%2C%22product%22%3A%5B%22ORAreanalysis%22%2C%22reanalysis%22%5D%2C%22realm%22%3A%5B%22ocean%22%2C%22atmos%22%5D%2C%22experiment%22%3A%22CERA-20C%22%7D");
      ("file_name", PStr ("<var_name>" ++ "_Amon_reanalysis_CERA-20C_190101-201012.nc"));
      ("variable_name_in_file", dict_display
       [("lhf", dict_display [("var_name", PStr "hfls")]);
        ("lwr", dict_display
         [("var_name", PList [PStr "rlds"; PStr "rlus"]);
          ("algebric_calculation", PList [PStr "plus"; PStr "minus"])]);
        ("pr", dict_display [("var_name", PStr "pr")]);
        ("shf", dict_display [("var_name", PStr "hfss")]);
        ("sst", dict_display [("var_name", PStr "ts")]);
        ("swr", dict_display
         [("var_name", PList [PStr "rsds"; PStr "rsus"]);
          ("algebric_calculation", PList [PStr "plus"; PStr "minus"])]);
        ("taux", dict_display [("var_name", PStr "tauu")]);
        ("tauy", dict_display [("var_name", PStr "tauv")]);
        ("thf", dict_display
         [("var_name", PList [PStr "hfls"; PStr "hfss"; PStr "rlds"; PStr "rlus"; PStr "rsds"; PStr "rsus"]);
          ("algebric_calculation", PList [PStr "plus"; PStr "plus"; PStr "plus"; PStr "minus"; PStr "plus"; PStr "minus"])]);
        ("ts", dict_display [("var_name", PStr "ts")])])]);
    ("CFSR", dict_display
     [("website", PStr "see https://aims2.llnl.gov/search?project=CREATE-IP&activeFacets=%7B%22experiment%22%3A%22CFSR%22%2C%22realm%22%3A%5B%22atmos%22%2C%22ocean%22%5D%2C%22time_frequency%22%3A%22mon%22%2C%22product%22%3A%22reanalysis%22%7D");
      ("file_name", PStr ("<var_name>" ++ "_?mon_reanalysis_CFSR_197901-201912.nc"));
      ("variable_name_in_file", dict_display
       [("lhf", dict_display [("var_name", PStr "hfls")]);
        ("lwr", dict_display
         [("var_name", PList [PStr "rlds"; PStr "rlus"]);
          ("algebric_calculation", PList [PStr "plus"; PStr "minus"])]);
        ("pr", dict_display [("var_name", PStr "pr")]);
        ("shf", dict_display [("var_name", PStr "hfss")]);
        ("slp", dict_display [("var_name", PStr "psl")]);
        ("ssh", dict_display [("var_name", PStr "zos")]);
        ("sst", dict_display [("var_name", PStr "ts")]);
        ("swr", dict_display
         [("var_name", PList [PStr "rsds"; PStr "rsus"]);
          ("algebric_calculation", PList [PStr "plus"; PStr "minus"])]);
        ("taux", dict_display [("var_name", PStr "tauu")]);
        ("tauy", dict_display [("var_name", PStr "tauv")]);
        ("thf", dict_display
         [("var_name", PList [PStr "hfls"; PStr "hfss"; PStr "rlds"; PStr "rlus"; PStr "rsds"; PStr "rsus"]);
          ("algebric_calculation", PList [PStr "plus"; PStr "plus"; PStr "plus"; PStr "minus"; PStr "plus"; PStr "minus"])]);
        ("ts", dict_display [("var_name", PStr "ts")])])]);
    ("CMAP", dict_display
     [("website", PStr "https://www.esrl.noaa.gov/psd/data/gridded/data.cmap.html");
      ("file_name", PStr ("<var_name>" ++ ".mon.mean.nc"));
      ("variable_name_in_file", dict_display [("pr", dict_display [("var_name", PStr "precip")])])]);
    ("ERA-Interim", dict_display
     [("website", PStr "https://aims2.llnl.gov/search?project=CREATE-IP&activeFacets=%7B%22source_id%22%3A%22ERA-Interim%22%2C%22time_frequency%22%3A%22mon%22%2C%22product%22%3A%22reanalysis%22%7D");
      ("file_name", PStr ("<var_name>" ++ "_Amon_reanalysis_ERA-Interim_197901-201908.nc"));
      ("variable_name_in_file", dict_display
       [("lhf", dict_display [("var_name", PStr "hfls")]);
        ("lwr", dict_display
         [("var_name", PList [PStr "rlds"; PStr "rlus"]);
          ("algebric_calculation", PList [PStr "plus"; PStr "minus"])]);
        ("pr", dict_display [("var_name", PStr "pr")]);
        ("shf", dict_display [("var_name", PStr "hfss")]);
        ("sst", dict_display [("var_name", PStr "ts")]);
        ("swr", dict_display
         [("var_name", PList [PStr "rsds"; PStr "rsus"]);
          ("algebric_calculation", PList [PStr "plus"; PStr "minus"])]);
        ("taux", dict_display [("var_name", PStr "tauu")]);
        ("tauy", dict_display [("var_name", PStr "tauv")]);
        ("thf", dict_display
         [("var_name", PList [PStr "hfls"; PStr "hfss"; PStr "rlds"; PStr "rlus"; PStr "rsds"; PStr "rsus"]);
          ("algebric_calculation", PList [PStr "plus"; PStr "plus"; PStr "plus"; PStr "minus"; PStr "plus"; PStr "minus"])]);
        ("ts", dict_display [("var_name", PStr "ts")])])]);
    ("ERA5", dict_display
     [("website", PStr "https://aims2.llnl.gov/search?project=CREATE-IP&activeFacets=%7B%22realm%22%3A%22atmos%22%2C%22time_frequency%22%3A%22mon%22%2C%22product%22%3A%22reanalysis%22%2C%22experiment%22%3A%22ERA5%22%7D");
      ("file_name", PStr ("<var_name>" ++ "_Amon_reanalysis_ERA5_197901-202012.nc"));
      ("variable_name_in_file", dict_display
       [("lhf", dict_display [("var_name", PStr "hfls")]);
        ("lwr", dict_display
         [("var_name", PList [PStr "rlds"; PStr "rlus"]);
          ("algebric_calculation", PList [PStr "plus"; PStr "minus"])]);
        ("pr", dict_display [("var_name", PStr "pr")]);
        ("shf", dict_display [("var_name", PStr "hfss")]);
        ("sst", dict_display [("var_name", PStr "ts")]);
        ("swr", dict_display
         [("var_name", PList [PStr "rsds"; PStr "rsus"]);
          ("algebric_calculation", PList [PStr "plus"; PStr "minus"])]);
        ("taux", dict_display [("var_name", PStr "tauu")]);
        ("tauy", dict_display [("var_name", PStr "tauv")]);
        ("thf", dict_display
         [("var_name", PList [PStr "hfls"; PStr "hfss"; PStr "rlds"; PStr "rlus"; PStr "rsds"; PStr "rsus"]);
          ("algebric_calculation", PList [PStr "plus"; PStr "plus"; PStr "plus"; PStr "minus"; PStr "plus"; PStr "minus"])]);
        ("ts", dict_display [("var_name", PStr "ts")])])]);
    ("ERSSTv5", dict_display
     [("website", PStr "https://www1.ncdc.noaa.gov/pub/data/cmb/ersst/v5/netcdf/");
      ("file_name", PStr (("ersst.v5." ++ "<YYYYMM>") ++ ".nc"));
      ("variable_name_in_file", dict_display [("sst", dict_display [("var_name", PStr "sst")])])]);
    ("ESA-CCI-SST-v2-1", dict_display
     [("website", PStr "https://aims2.llnl.gov/search?project=obs4MIPs&activeFacets=%7B%22variable%22%3A%5B%22pr%22%2C%22rlds%22%2C%22rlus%22%2C%22rsds%22%2C%22rsus%22%2C%22tos%22%5D%2C%22frequency%22%3A%22mon%22%2C%22source_id%22%3A%22ESA-CCI-SST-v2-1%22%7D");
      ("file_name", PStr "tos_mon_ESA-CCI-SST-v2-1_BE_gn_198109-201712.nc");
      ("variable_name_in_file", dict_display [("sst", dict_display [("var_name", PStr "tos")])])]);
    ("GPCP-Monthly-3-2", dict_display
     [("website", PStr "https://aims2.llnl.gov/search?project=obs4MIPs&activeFacets=%7B%22variable%22%3A%5B%22pr%22%2C%22rlds%22%2C%22rlus%22%2C%22rsds%22%2C%22rsus%22%2C%22tos%22%5D%2C%22frequency%22%3A%22mon%22%2C%22source_id%22%3A%22GPCP-Monthly-3-2%22%7D");
      ("file_name", PStr "pr_mon_GPCP-Monthly-3-2_RSS_gn_????01-????12.nc");
      ("variable_name_in_file", dict_display [("pr", dict_display [("var_name", PStr "pr")])])]);
    ("HadISST", dict_display
     [("website", PStr "https://www.metoffice.gov.uk/hadobs/hadisst/data/download.html");
      ("file_name", PStr (("HadISST_" ++ "<var_name>") ++ ".nc"));
      ("variable_name_in_file", dict_display [("sst", dict_display [("var_name", PStr "sst")])])]);
    ("JRA-55-mdl-iso", dict_display
     [("website", PStr "https://aims2.llnl.gov/search?project=CREATE-IP&activeFacets=%7B%22realm%22%3A%22atmos%22%2C%22time_frequency%22%3A%22mon%22%2C%22product%22%3A%22reanalysis%22%2C%22source_id%22%3A%22JRA-55-mdl-iso%22%7D");
      ("file_name", PStr ("<var_name>" ++ "_Amon_reanalysis_JRA-55-mdl-iso_195801-201912.nc"));
      ("variable_name_in_file", dict_display
       [("lhf", dict_display [("var_name", PStr "hfls")]);
        ("lwr", dict_display
         [("var_name", PList [PStr "rlds"; PStr "rlus"]);
          ("algebric_calculation", PList [PStr "plus"; PStr "minus"])]);
        ("pr", dict_display [("var_name", PStr "pr")]);
        ("shf", dict_display [("var_name", PStr "hfss")]);
        ("sst", dict_display [("var_name", PStr "ts")]);
        ("swr", dict_display
         [("var_name", PList [PStr "rsds"; PStr "rsus"]);
          ("algebric_calculation", PList [PStr "plus"; PStr "minus"])]);
        ("thf", dict_display
         [("var_name", PList [PStr "hfls"; PStr "hfss"; PStr "rlds"; PStr "rlus"; PStr "rsds"; PStr "rsus"]);
          ("algebric_calculation", PList [PStr "plus"; PStr "plus"; PStr "plus"; PStr "minus"; PStr "plus"; PStr "minus"])]);
        ("ts", dict_display [("var_name", PStr "ts")])])]);
    ("MERRA", dict_display
     [("website", PStr "https://aims2.llnl.gov/search?project=CREATE-IP&activeFacets=%7B%22realm%22%3A%22atmos%22%2C%22time_frequency%22%3A%22mon%22%2C%22product%22%3A%22reanalysis%22%2C%22experiment%22%3A%22MERRA%22%7D");
      ("file_name", PStr ("<var_name>" ++ "_Amon_reanalysis_MERRA_197901-201602.nc"));
      ("variable_name_in_file", dict_display
       [("lhf", dict_display [("var_name", PStr "hfls")]);
        ("lwr", dict_display
         [("var_name", PList [PStr "rlds"; PStr "rlus"]);
          ("algebric_calculation", PList [PStr "plus"; PStr "minus"])]);
        ("pr", dict_display [("var_name", PStr "pr")]);
        ("shf", dict_display [("var_name", PStr "hfss")]);
        ("sst", dict_display [("var_name", PStr "ts")]);
        ("swr", dict_display
         [("var_name", PList [PStr "rsds"; PStr "rsus"]);
          ("algebric_calculation", PList [PStr "plus"; PStr "minus"])]);
        ("taux", dict_display [("var_name", PStr "tauu")]);
        ("tauy", dict_display [("var_name", PStr "tauv")]);
        ("thf", dict_display
         [("var_name", PList [PStr "hfls"; PStr "hfss"; PStr "rlds"; PStr "rlus"; PStr "rsds"; PStr "rsus"]);
          ("algebric_calculation", PList [PStr "plus"; PStr "plus"; PStr "plus"; PStr "minus"; PStr "plus"; PStr "minus"])]);
        ("ts", dict_display [("var_name", PStr "ts")])])]);
    ("MERRA2", dict_display
     [("website", PStr "https://aims2.llnl.gov/search?project=CREATE-IP&activeFacets=%7B%22realm%22%3A%22atmos%22%2C%22time_frequency%22%3A%22mon%22%2C%22product%22%3A%22reanalysis%22%2C%22experiment%22%3A%22MERRA-2%22%7D");
      ("file_name", PStr ("<var_name>" ++ "_Amon_reanalysis_MERRA2_198001-202012.nc"));
      ("variable_name_in_file", dict_display
       [("lhf", dict_display [("var_name", PStr "hfls")]);
        ("lwr", dict_display
         [("var_name", PList [PStr "rlds"; PStr "rlus"]);
          ("algebric_calculation", PList [PStr "plus"; PStr "minus"])]);
        ("pr", dict_display [("var_name", PStr "pr")]);
        ("shf", dict_display [("var_name", PStr "hfss")]);
        ("sst", dict_display [("var_name", PStr "ts")]);
        ("swr", dict_display
         [("var_name", PList [PStr "rsds"; PStr "rsus"]);
          ("algebric_calculation", PList [PStr "plus"; PStr "minus"])]);
        ("taux", dict_display [("var_name", PStr "tauu")]);
        ("tauy", dict_display [("var_name", PStr "tauv")]);
        ("thf", dict_display
         [("var_name", PList [PStr "hfls"; PStr "hfss"; PStr "rlds"; PStr "rlus"; PStr "rsds"; PStr "rsus"]);
          ("algebric_calculation", PList [PStr "plus"; PStr "plus"; PStr "plus"; PStr "minus"; PStr "plus"; PStr "minus"])]);
        ("ts", dict_display [("var_name", PStr "ts")])])]);
    ("NCEP2", dict_display
     [("website", PStr "https://www.esrl.noaa.gov/psd/data/gridded/data.ncep.reanalysis2.gaussian.html");
      ("file_name", PStr ("<var_name>" ++ ".sfc.mon.mean.nc"));
      ("variable_name_in_file", dict_display
       [("landmask", dict_display [("var_name", PStr "land")]);
        ("lhf", dict_display [("var_name", PStr "lhtfl")]);
        ("lwr", dict_display
         [("var_name", PList [PStr "dlwrf"; PStr "ulwrf"]);
          ("algebric_calculation", PList [PStr "plus"; PStr "minus"])]);
        ("pr", dict_display [("var_name", PStr "prate")]);
        ("shf", dict_display [("var_name", PStr "shtfl")]);
        ("slp", dict_display [("var_name", PStr "pres")]);
        ("sst", dict_display [("var_name", PStr "skt")]);
        ("swr", dict_display
         [("var_name", PList [PStr "dswrf"; PStr "uswrf"]);
          ("algebric_calculation", PList [PStr "plus"; PStr "minus"])]);
        ("taux", dict_display [("var_name", PStr "uflx")]);
        ("tauy", dict_display [("var_name", PStr "vflx")]);
        ("thf", dict_display
         [("var_name", PList
           [PStr "lhtfl";
            PStr "shtfl";
            PStr "dlwrf";
            PStr "ulwrf";
            PStr "dswrf";
            PStr "uswrf"]);
          ("algebric_calculation", PList [PStr "plus"; PStr "plus"; PStr "plus"; PStr "minus"; PStr "plus"; PStr "minus"])])])]);
    ("Tropflux", dict_display
     [("website", PStr "https://incois.gov.in/tropflux/tf_products.jsp");
      ("file_name", PStr ("<var_name>" ++ "_tropflux_1m_*.nc"));
      ("variable_name_in_file", dict_display
       [("lhf", dict_display [("var_name", PStr "lhf")]);
        ("lwr", dict_display [("var_name", PStr "lwr")]);
        ("shf", dict_display [("var_name", PStr "shf")]);
        ("sst", dict_display [("var_name", PStr "sst")]);
        ("swr", dict_display [("var_name", PStr "swr")]);
        ("taux", dict_display [("var_name", PStr "taux")]);
        ("tauy", dict_display [("var_name", PStr "tauy")]);
        ("thf", dict_display [("var_name", PStr "netflux")])])])].

Definition ReferenceObservations (dataset : pyval) : result pyval :=
  match dataset with
  | PBool true => Ok dict_ref_obs
  | _ => getitem dict_ref_obs dataset
  end.

(** ** Reference regions *)

Definition dict_reference_regions : pyval :=
  dict_display
   [("global", dict_display
     [("long_name", PStr "Global 60S-60N");
      ("latitude", PTuple [PFloat (-60); PFloat 60]);
      ("longitude", PTuple [PFloat 0; PFloat 360])]);
    ("global2", dict_display
     [("long_name", PStr "Global");
      ("latitude", PTuple [PFloat (-90); PFloat 90]);
      ("longitude", PTuple [PFloat 0; PFloat 360])]);
    ("tropical_pacific", dict_display
     [("long_name", PStr "Tropical Pacific (TP)");
      ("latitude", PTuple [PFloat (-30); PFloat 30]);
      ("longitude", PTuple [PFloat 120; PFloat 280])]);
    ("equatorial_pacific", dict_display
     [("long_name", PStr "Equatorial Pacific (EP)");
      ("latitude", PTuple [PFloat (-5); PFloat 5]);
      ("longitude", PTuple [PFloat 150; PFloat 270])]);
    ("equatorial_pacific_LatExt", dict_display
     [("long_name", PStr "Equatorial Pacific (EP)");
      ("latitude", PTuple [PFloat (-15); PFloat 15]);
      ("longitude", PTuple [PFloat 150; PFloat 270])]);
    ("equatorial_pacific_LatExt2", dict_display
     [("long_name", PStr "Equatorial Pacific extended in latitude");
      ("latitude", PTuple [PFloat (-15); PFloat 15]);
      ("longitude", PTuple [PFloat 120; PFloat 285])]);
    ("eastern_equatorial_pacific", dict_display
     [("long_name", PStr "Western Equatorial Pacific (WEP)");
      ("latitude", PTuple [PFloat (-5); PFloat 5]);
      ("longitude", PTuple [PFloat 205; PFloat 280])]);
    ("western_equatorial_pacific", dict_display
     [("long_name", PStr "Eastern Equatorial Pacific (EEP)");
      ("latitude", PTuple [PFloat (-5); PFloat 5]);
      ("longitude", PTuple [PFloat 120; PFloat 205])]);
    ("nino1+2", dict_display
     [("long_name", PStr "Niño 1+2");
      ("latitude", PTuple [PFloat (-10); PFloat 0]);
      ("longitude", PTuple [PFloat 270; PFloat 280])]);
    ("nino3", dict_display
     [("long_name", PStr "Niño 3");
      ("latitude", PTuple [PFloat (-5); PFloat 5]);
      ("longitude", PTuple [PFloat 210; PFloat 270])]);
    ("nino3_LatExt", dict_display
     [("long_name", PStr "Niño 3 extended in latitude");
      ("latitude", PTuple [PFloat (-15); PFloat 15]);
      ("longitude", PTuple [PFloat 210; PFloat 270])]);
    ("nino3.4", dict_display
     [("long_name", PStr "Niño 3.4");
      ("latitude", PTuple [PFloat (-5); PFloat 5]);
      ("longitude", PTuple [PFloat 190; PFloat 240])]);
    ("nino4", dict_display
     [("long_name", PStr "Niño 4");
      ("latitude", PTuple [PFloat (-5); PFloat 5]);
      ("longitude", PTuple [PFloat 160; PFloat 210])]);
    ("ALA", dict_display
     [("long_name", PStr "Alaska/N.W. Canada");
      ("latitude", PTuple [PFloat 60; PFloat 72.6]);
      ("longitude", PTuple [PFloat 192; PFloat 255]);
      ("maskland", PBool false);
      ("maskocean", PBool true)]);
    ("CAS", dict_display
     [("long_name", PStr "Central Asia");
      ("latitude", PTuple [PFloat 30; PFloat 50]);
      ("longitude", PTuple [PFloat 60; PFloat 75]);
      ("maskland", PBool false);
      ("maskocean", PBool true)]);
    ("CGI", dict_display
     [("long_name", PStr "Canada/Greenland/Iceland");
      ("latitude", PTuple [PFloat 50; PFloat 85]);
      ("longitude", PTuple [PFloat 255; PFloat 350]);
      ("maskland", PBool false);
      ("maskocean", PBool true)]);
    ("CNA", dict_display
     [("long_name", PStr "Central North America");
      ("latitude", PTuple [PFloat 28.6; PFloat 50]);
      ("longitude", PTuple [PFloat 255; PFloat 275]);
      ("maskland", PBool false);
      ("maskocean", PBool true)]);
    ("EAF", dict_display
     [("long_name", PStr "East Africa");
      ("latitude", PTuple [PFloat (-11.4); PFloat 15]);
      ("longitude", PTuple [PFloat 25; PFloat 52]);
      ("maskland", PBool false);
      ("maskocean", PBool true)]);
    ("EAS", dict_display
     [("long_name", PStr "East Asia");
      ("latitude", PTuple [PFloat 20; PFloat 50]);
      ("longitude", PTuple [PFloat 100; PFloat 145]);
      ("maskland", PBool false);
      ("maskocean", PBool true)]);
    ("ENA", dict_display
     [("long_name", PStr "East North America");
      ("latitude", PTuple [PFloat 25; PFloat 50]);
      ("longitude", PTuple [PFloat 275; PFloat 300]);
      ("maskland", PBool false);
      ("maskocean", PBool true)]);
    ("MED", dict_display
     [("long_name", PStr "South Europe/Mediterranean");
      ("latitude", PTuple [PFloat 30; PFloat 45]);
      ("longitude", PTuple [PFloat 350; PFloat 400]);
      ("maskland", PBool false);
      ("maskocean", PBool true)]);
    ("NAS", dict_display
     [("long_name", PStr "North Asia");
      ("latitude", PTuple [PFloat 50; PFloat 70]);
      ("longitude", PTuple [PFloat 40; PFloat 180]);
      ("maskland", PBool false);
      ("maskocean", PBool true)]);
    ("NAU", dict_display
     [("long_name", PStr "North Australia");
      ("latitude", PTuple [PFloat (-30); PFloat (-10)]);
      ("longitude", PTuple [PFloat 110; PFloat 155]);
      ("maskland", PBool false);
      ("maskocean", PBool true)]);
    ("NEB", dict_display
     [("long_name", PStr "North-East Brazil");
      ("latitude", PTuple [PFloat (-20); PFloat 0]);
      ("longitude", PTuple [PFloat 310; PFloat 326]);
      ("maskland", PBool false);
      ("maskocean", PBool true)]);
    ("SAF", dict_display
     [("long_name", PStr "Southern Africa");
      ("latitude", PTuple [PFloat (-35); PFloat (-11.4)]);
      ("longitude", PTuple [PFloat 350; PFloat 412]);
      ("maskland", PBool false);
      ("maskocean", PBool true)]);
    ("SAH", dict_display
     [("long_name", PStr "Sahara");
      ("latitude", PTuple [PFloat 15; PFloat 30]);
      ("longitude", PTuple [PFloat 340; PFloat 400]);
      ("maskland", PBool false);
      ("maskocean", PBool true)]);
    ("SAU", dict_display
     [("long_name", PStr "South Australia/New Zealand");
      ("latitude", PTuple [PFloat (-50); PFloat (-30)]);
      ("longitude", PTuple [PFloat 110; PFloat 180]);
      ("maskland", PBool false);
      ("maskocean", PBool true)]);
    ("SEA", dict_display
     [("long_name", PStr "Southeast Asia");
      ("latitude", PTuple [PFloat (-10); PFloat 20]);
      ("longitude", PTuple [PFloat 95; PFloat 155]);
      ("maskland", PBool false);
      ("maskocean", PBool false)]);
    ("TIB", dict_display
     [("long_name", PStr "Tibetan Plateau");
      ("latitude", PTuple [PFloat 30; PFloat 50]);
      ("longitude", PTuple [PFloat 75; PFloat 100]);
      ("maskland", PBool false);
      ("maskocean", PBool true)]);
    ("WAF", dict_display
     [("long_name", PStr "West Africa");
      ("latitude", PTuple [PFloat (-11.4); PFloat 15]);
      ("longitude", PTuple [PFloat 340; PFloat 385]);
      ("maskland", PBool false);
      ("maskocean", PBool true)]);
    ("WAS", dict_display
     [("long_name", PStr "West Asia");
      ("latitude", PTuple [PFloat 15; PFloat 50]);
      ("longitude", PTuple [PFloat 40; PFloat 60]);
      ("maskland", PBool false);
      ("maskocean", PBool true)]);
    ("WNA", dict_display
     [("long_name", PStr "West North America");
      ("latitude", PTuple [PFloat 28.6; PFloat 60]);
      ("longitude", PTuple [PFloat 230; PFloat 255]);
      ("maskland", PBool false);
      ("maskocean", PBool true)]);
    ("ANT", dict_display
     [("long_name", PStr "Antarctica");
      ("latitude", PTuple [PFloat (-90); PFloat (-50)]);
      ("longitude", PTuple [PFloat 0; PFloat 360]);
      ("maskland", PBool false);
      ("maskocean", PBool false)]);
    ("ARC", dict_display
     [("long_name", PStr "Arctic");
      ("latitude", PTuple [PFloat 67.5; PFloat 90]);
      ("longitude", PTuple [PFloat 0; PFloat 360]);
      ("maskland", PBool false);
      ("maskocean", PBool false)]);
    ("NTP", dict_display
     [("long_name", PStr "Northern Tropical Pacific");
      ("latitude", PTuple [PFloat 5; PFloat 25]);
      ("longitude", PTuple [PFloat 155; PFloat 210])]);
    ("STP", dict_display
     [("long_name", PStr "Southern Topical Pacific");
      ("latitude", PTuple [PFloat (-25); PFloat (-5)]);
      ("longitude", PTuple [PFloat 155; PFloat 230])]);
    ("ETP", dict_display
     [("long_name", PStr "Equatorial Tropical Pacific");
      ("latitude", PTuple [PFloat (-5); PFloat 5]);
      ("longitude", PTuple [PFloat 155; PFloat 210])]);
    ("WIO", dict_display
     [("long_name", PStr "West Indian Ocean");
      ("latitude", PTuple [PFloat (-25); PFloat 5]);
      ("longitude", PTuple [PFloat 52; PFloat 75]);
      ("maskland", PBool false);
      ("maskocean", PBool false)]);
    ("CEP", dict_display
     [("long_name", PStr "Central Equatorial Pacific");
      ("latitude", PTuple [PFloat (-5); PFloat 5]);
      ("longitude", PTuple [PFloat 180; PFloat 220]);
      ("maskland", PBool true);
      ("maskocean", PBool false)]);
    ("CNP", dict_display
     [("long_name", PStr "Central Northern Tropical Pacific");
      ("latitude", PTuple [PFloat 5; PFloat 15]);
      ("longitude", PTuple [PFloat 180; PFloat 220]);
      ("maskland", PBool true);
      ("maskocean", PBool false)]);
    ("CSP", dict_display
     [("long_name", PStr "Central Southern Tropical Pacific");
      ("latitude", PTuple [PFloat (-15); PFloat (-5)]);
      ("longitude", PTuple [PFloat 180; PFloat 220]);
      ("maskland", PBool true);
      ("maskocean", PBool false)]);
    ("INO", dict_display
     [("long_name", PStr "Indian Ocean");
      ("latitude", PTuple [PFloat (-25); PFloat 0]);
      ("longitude", PTuple [PFloat 55; PFloat 95]);
      ("maskland", PBool true);
      ("maskocean", PBool false)]);
    ("africaSE", dict_display
     [("long_name", PStr "South and East Africa");
      ("latitude", PTuple [PInt (-40); PFloat 15]);
      ("longitude", PTuple [PFloat 0; PFloat 55]);
      ("maskland", PBool false);
      ("maskocean", PBool true)]);
    ("americaN", dict_display
     [("long_name", PStr "North America");
      ("latitude", PTuple [PFloat 10; PFloat 60]);
      ("longitude", PTuple [PFloat 235; PFloat 300]);
      ("maskland", PBool false);
      ("maskocean", PBool true)]);
    ("americaS", dict_display
     [("long_name", PStr "South America");
      ("latitude", PTuple [PFloat (-60); PFloat 15]);
      ("longitude", PTuple [PFloat 275; PFloat 330]);
      ("maskland", PBool false);
      ("maskocean", PBool true)]);
    ("asiaS", dict_display
     [("long_name", PStr "South Asia");
      ("latitude", PTuple [PFloat (-10); PFloat 30]);
      ("longitude", PTuple [PFloat 65; PFloat 130]);
      ("maskland", PBool false);
      ("maskocean", PBool true)]);
    ("oceania", dict_display
     [("long_name", PStr "oceania");
      ("latitude", PTuple [PFloat (-50); PFloat 0]);
      ("longitude", PTuple [PFloat 110; PFloat 180]);
      ("maskland", PBool false);
      ("maskocean", PBool true)])].

Definition ReferenceRegions (region : pyval) : result pyval :=
  match region with
  | PBool true => Ok dict_reference_regions
  | _ => getitem dict_reference_regions region
  end.

(** ** CMIP variables *)

Definition dict_cmip_variables : pyval :=
  dict_display
   [("reference", PStr "http://cfconventions.org/Data/cf-standard-names/46/build/cf-standard-name-table.html");
    ("variable_name_in_file", dict_display
     [("areacell", dict_display
       [("var_name", PStr "areacella");
        ("cf_name", PStr "cell_area");
        ("cf_units", PStr "m2")]);
      ("landmask", dict_display
       [("var_name", PStr "sftlf");
        ("cf_name", PStr "cell_area");
        ("cf_units", PStr "1")]);
      ("lhf", dict_display
       [("var_name", PStr "hfls");
        ("cf_name", PStr "land_area_fraction");
        ("cf_units", PStr "W m-2")]);
      ("lwr", dict_display
       [("var_name", PList [PStr "rlds"; PStr "rlus"]);
        ("cf_name", PList
         [PStr "surface_downwelling_longwave_flux_in_air";
          PStr "surface_upwelling_longwave_flux_in_air"]);
        ("cf_units", PStr "W m-2");
        ("algebric_calculation", PList [PStr "plus"; PStr "minus"])]);
      ("pr", dict_display
       [("var_name", PStr "pr");
        ("cf_name", PStr "rainfall_flux");
        ("cf_units", PStr "kg m-2 s-1")]);
      ("slp", dict_display
       [("var_name", PStr "psl");
        ("cf_name", PStr "air_pressure_at_mean_sea_level");
        ("cf_units", PStr "Pa")]);
      ("shf", dict_display
       [("var_name", PStr "hfss");
        ("cf_name", PStr "surface_upward_sensible_heat_flux");
        ("cf_units", PStr "W m-2")]);
      ("ssh", dict_display
       [("var_name", PStr "zos");
        ("cf_name", PStr "sea_surface_height_above_geoid");
        ("cf_units", PStr "m")]);
      ("sst", dict_display
       [("var_name", PStr "ts");
        ("cf_name", PStr "sea_surface_temperature");
        ("cf_units", PStr "K")]);
      ("swr", dict_display
       [("var_name", PList [PStr "rsds"; PStr "rsus"]);
        ("cf_name", PList
         [PStr "surface_downwelling_shortwave_flux_in_air";
          PStr "surface_upwelling_shortwave_flux_in_air"]);
        ("cf_units", PStr "W m-2");
        ("algebric_calculation", PList [PStr "plus"; PStr "minus"])]);
      ("taux", dict_display
       [("var_name", PStr "tauu");
        ("cf_name", PStr "surface_downward_eastward_stress");
        ("cf_units", PStr "Pa")]);
      ("tauy", dict_display
       [("var_name", PStr "tauv");
        ("cf_name", PStr "surface_downward_northward_stress");
        ("cf_units", PStr "Pa")]);
      ("thf", dict_display
       [("var_name", PList [PStr "hfls"; PStr "hfss"; PStr "rlds"; PStr "rlus"; PStr "rsds"; PStr "rsus"]);
        ("cf_name", PList
         [PStr "surface_upward_latent_heat_flux";
          PStr "surface_upward_sensible_heat_flux";
          PStr "surface_downwelling_longwave_flux_in_air";
          PStr "surface_upwelling_longwave_flux_in_air";
          PStr "surface_downwelling_shortwave_flux_in_air";
          PStr "surface_upwelling_shortwave_flux_in_air"]);
        ("cf_units", PStr "W m-2");
        ("algebric_calculation", PList [PStr "plus"; PStr "plus"; PStr "plus"; PStr "minus"; PStr "plus"; PStr "minus"])])])].

Definition CmipVariables : pyval := dict_cmip_variables.

(** ** Reading the catalogs *)

(** The identifiers of a catalog, in the order of the source. *)
Definition catalog_ids (catalog : pyval) : list string :=
  match catalog with
  | PDict d => dict_keys d
  | _ => []
  end.

Definition dict_items (v : pyval) : list (string * pyval) :=
  match v with
  | PDict d => d
  | _ => []
  end.

Definition list_items (v : pyval) : list pyval :=
  match v with
  | PList l | PTuple l => l
  | _ => []
  end.

Definition str_items (v : pyval) : list string :=
  flat_map (fun x => match x with PStr s => [s] | _ => [] end) (list_items v).

Definition field_of (v : pyval) (key : string) : pyval :=
  match dict_get (dict_items v) key with
  | Some x => x
  | None => PNone
  end.

Definition has_key (v : pyval) (key : string) : bool :=
  match dict_get (dict_items v) key with
  | Some _ => true
  | None => false
  end.

(** The entries of a collection's ['plot_order'] that are no key of its
    ['metrics_list']. *)
Definition unknown_plot_entries (collection : pyval) : list string :=
  filter (fun id => negb (has_key (field_of collection "metrics_list") id))
         (str_items (field_of collection "plot_order")).

(** The variables of a metric for which ['obs_name'] holds no non-empty list
    of datasets. *)
Definition variables_without_obs (metric_spec : pyval) : list string :=
  filter (fun var => negb (truthy (field_of (field_of metric_spec "obs_name") var)))
         (str_items (field_of metric_spec "variables")).

Definition metrics_without_obs (collection : pyval) : list (string * list string) :=
  flat_map (fun kv =>
              match variables_without_obs (snd kv) with
              | [] => []
              | vars => [(fst kv, vars)]
              end)
           (dict_items (field_of collection "metrics_list")).

(** The three catalogs and their lookup functions. *)
Inductive catalog : Type := Regions | Observations | Collections.

Definition catalog_data (c : catalog) : pyval :=
  match c with
  | Regions => dict_reference_regions
  | Observations => dict_ref_obs
  | Collections => metrics_collection
  end.

Definition catalog_lookup (c : catalog) (id : pyval) : result pyval :=
  match c with
  | Regions => ReferenceRegions id
  | Observations => ReferenceObservations id
  | Collections => defCollection id
  end.

End EnsoCollectionsLib.

(** * lib/EnsoMetricsLib.py *)

Module EnsoMetricsLib.

Local Open Scope string_scope.

(** ** The collaborators

    [from EnsoToolsLib import ...]: the field reader, the unit check and the
    statistics kernels, together with the array operations the metric
    functions apply to what they read ([x.shape[0]], [a + b], [a - b],
    [x.regrid(grid, regridTool=...)], [x.getGrid()]). They are collaborators
    of this module and are taken as given. They are total here: an
    exception raised inside a collaborator would pass unchanged through
    every function of this module. The regression kernel is always called
    with [return_stderr=True] and returns the pair (slope, standard error);
    [ComputeMultiply] is applied to such a pair. *)
Record EnsoToolsLib (field grid : Type) : Type := {
  shape0 : field -> Z;
  field_add : field -> field -> field;
  field_sub : field -> field -> field;
  regrid : field -> grid -> string -> field;
  getGrid : field -> grid;
  CheckUnits : field -> string -> field;
  ComputeMultiply : number * number -> number -> number * number;
  ComputeRms : field -> field -> string -> string -> pyval -> number;
  ComputeStd : field -> number;
  SpatialAverage : field -> field;
  TimeAverage : field -> field;
  ReadAndSelectRegion : pyval -> pyval -> string -> field;
  SeasonalMean : field -> string -> field;
  interannual_variabilty_std_annual_cycle_removed : field -> number;
  get_slope_linear_regression_from_anomaly : field -> field -> Z -> number * number
}.
Arguments shape0 {field grid} _ _.
Arguments field_add {field grid} _ _ _.
Arguments field_sub {field grid} _ _ _.
Arguments regrid {field grid} _ _ _ _.
Arguments getGrid {field grid} _ _.
Arguments CheckUnits {field grid} _ _ _.
Arguments ComputeMultiply {field grid} _ _ _.
Arguments ComputeRms {field grid} _ _ _ _ _ _.
Arguments ComputeStd {field grid} _ _.
Arguments SpatialAverage {field grid} _ _.
Arguments TimeAverage {field grid} _ _.
Arguments ReadAndSelectRegion {field grid} _ _ _ _.
Arguments SeasonalMean {field grid} _ _ _.
Arguments interannual_variabilty_std_annual_cycle_removed {field grid} _ _.
Arguments get_slope_linear_regression_from_anomaly {field grid} _ _ _ _.

(** ** The names the module reads but never binds

    [EnsoMu] calls [MatchTimeDimension]; [ComputeMetric] calls
    [defCollection] and [metricReqs] and reads [region1], [region2] and
    [Ref]. No statement of the module binds any of them, so each is looked
    up in the module's global scope when the line runs and raises
    [NameError] when the scope has no such name. The scope is a parameter of
    the embedding. *)
Record Globals (field : Type) : Type := {
  g_MatchTimeDimension : option (field -> field -> field * field);
  g_defCollection : option (string -> result pyval);
  g_metricReqs : option (string -> result pyval);
  g_region1 : option string;
  g_region2 : option string;
  g_Ref : option string
}.
Arguments g_MatchTimeDimension {field} _.
Arguments g_defCollection {field} _.
Arguments g_metricReqs {field} _.
Arguments g_region1 {field} _.
Arguments g_region2 {field} _.
Arguments g_Ref {field} _.

(** The scope the module's own statements build: none of the six names. *)
Definition module_scope (field : Type) : Globals field :=
  {| g_MatchTimeDimension := None; g_defCollection := None; g_metricReqs := None;
     g_region1 := None; g_region2 := None; g_Ref := None |}.

Definition global {A : Type} (name : string) (binding : option A) : result A :=
  match binding with
  | Some a => Ok a
  | None => Raise (NameError name)
  end.

(** ** The dictionaries the metric functions return *)

(** What [EnsoAmpl], [EnsoSeasonality], the four [EnsoAlpha*] and [EnsoMu]
    return; the two nonlinearity keys are there for the regressions only. *)
Record StatMetric : Type := {
  name : string;
  value : number;
  value_error : number;
  units : string;
  method : string;
  nyears : Z;
  ref : string;
  nonlinearity : option number;
  nonlinearity_error : option number
}.

(** What [EnsoRMSE] returns; its ['value_error'] is [None]. *)
Record RmseMetric : Type := {
  rmse_name : string;
  rmse_value : number;
  rmse_value_error : option number;
  rmse_units : string;
  rmse_method : string;
  rmse_nyears_model : Z;
  rmse_nyears_obs : Z;
  rmse_ref : string
}.

(** [d[key]] for a key that a dictionary may lack. *)
Definition item {A : Type} (key : string) (v : option A) : result A :=
  match v with
  | Some a => Ok a
  | None => Raise (KeyError (PStr key))
  end.

(** A regression metric reports the three regressions [all], [pos] and
    [neg], each a (slope, standard error) pair. *)
Definition reports_regressions (all pos neg : number * number) (d : StatMetric) : Prop :=
  value d = fst all /\
  value_error d = snd all /\
  nonlinearity d = Some (num_sub (fst neg) (fst pos)) /\
  nonlinearity_error d = Some (num_add (snd neg) (snd pos)).

Section MetricFunctions.

Context {field grid : Type}.
Variable T : EnsoToolsLib field grid.
Variable G : Globals field.

(** The output dictionary shared by the five regression metrics, from the
    three regressions (all points, positive SSTA, negative SSTA). *)
Definition regression_metric (Name Units Method Ref : string) (yearN : Z)
    (Slope SlopePos SlopeNeg : number * number) : StatMetric :=
  {| name := Name; value := fst Slope; value_error := snd Slope;
     units := Units; method := Method; nyears := yearN; ref := Ref;
     nonlinearity := Some (num_sub (fst SlopeNeg) (fst SlopePos));
     nonlinearity_error := Some (num_add (snd SlopeNeg) (snd SlopePos)) |}.

Definition EnsoAlphaLhf (sstfile lhffile sstname lhfname : pyval) (sstbox lhfbox : string)
  : result StatMetric :=
  let Name := "Latent feedback (alpha_lh)" in
  let Units := "W/m2/C" in
  let Method := ("Regression of " ++ lhfbox ++ " lhfA over " ++ sstbox ++ " sstA")%string in
  let Ref := "Using CDAT regression calculation" in
  let sst := ReadAndSelectRegion T sstfile sstname sstbox in
  let lhf := ReadAndSelectRegion T lhffile lhfname lhfbox in
  let sst := CheckUnits T sst "temperature" in
  let yearN := shape0 T sst / 12 in
  let alphaLhfSlope := get_slope_linear_regression_from_anomaly T lhf sst 0 in
  let alphaLhfSlopePos := get_slope_linear_regression_from_anomaly T lhf sst 1 in
  let alphaLhfSlopeNeg := get_slope_linear_regression_from_anomaly T lhf sst (-1) in
  Ok (regression_metric Name Units Method Ref yearN
        alphaLhfSlope alphaLhfSlopePos alphaLhfSlopeNeg).

(** The [isinstance] dispatch of [EnsoAlphaLwr] and [EnsoAlphaSwr] on the flux
    file: one file, or a list of the downward and the upward radiation. With
    neither a string nor a list the flux variable is never assigned. *)
Definition read_net_radiation (var : string) (file fname : pyval) (box : string)
  : result field :=
  match file with
  | PStr _ => Ok (CheckUnits T (ReadAndSelectRegion T file fname box) "heat flux")
  | PList _ =>
      f0 <- getitem file (PInt 0) ;;
      n0 <- getitem fname (PInt 0) ;;
      let down := CheckUnits T (ReadAndSelectRegion T f0 n0 box) "heat flux" in
      f1 <- getitem file (PInt 1) ;;
      n1 <- getitem fname (PInt 1) ;;
      let up := CheckUnits T (ReadAndSelectRegion T f1 n1 box) "heat flux" in
      Ok (field_sub T down up)
  | _ => Raise (UnboundLocalError var)
  end.

Definition EnsoAlphaLwr (sstfile lwrfile sstname lwrname : pyval) (sstbox lwrbox : string)
  : result StatMetric :=
  let Name := "Longwave feedback (alpha_lwr)" in
  let Units := "W/m2/C" in
  let Method := ("Regression of " ++ lwrbox ++ " lwrA over " ++ sstbox ++ " sstA")%string in
  let Ref := "Using CDAT regression calculation" in
  let sst := ReadAndSelectRegion T sstfile sstname sstbox in
  let sst := CheckUnits T sst "temperature" in
  lwr <- read_net_radiation "lwr" lwrfile lwrname lwrbox ;;
  let yearN := shape0 T sst / 12 in
  let alphaLwrSlope := get_slope_linear_regression_from_anomaly T lwr sst 0 in
  let alphaLwrSlopePos := get_slope_linear_regression_from_anomaly T lwr sst 1 in
  let alphaLwrSlopeNeg := get_slope_linear_regression_from_anomaly T lwr sst (-1) in
  Ok (regression_metric Name Units Method Ref yearN
        alphaLwrSlope alphaLwrSlopePos alphaLwrSlopeNeg).

Definition EnsoAlphaSwr (sstfile swrfile sstname swrname : pyval) (sstbox swrbox : string)
  : result StatMetric :=
  let Name := "Shortwave feedback (alpha_sw)" in
  let Units := "W/m2/C" in
  let Method := ("Regression of " ++ swrbox ++ " swrA over " ++ sstbox ++ " sstA")%string in
  let Ref := "Using CDAT regression calculation" in
  let sst := ReadAndSelectRegion T sstfile sstname sstbox in
  let sst := CheckUnits T sst "temperature" in
  swr <- read_net_radiation "swr" swrfile swrname swrbox ;;
  let yearN := shape0 T sst / 12 in
  let alphaSwrSlope := get_slope_linear_regression_from_anomaly T swr sst 0 in
  let alphaSwrSlopePos := get_slope_linear_regression_from_anomaly T swr sst 1 in
  let alphaSwrSlopeNeg := get_slope_linear_regression_from_anomaly T swr sst (-1) in
  Ok (regression_metric Name Units Method Ref yearN
        alphaSwrSlope alphaSwrSlopePos alphaSwrSlopeNeg).

(** The first loop of [EnsoAlphaThf] over [range(len(thffile))]. *)
Fixpoint read_terms (files : list pyval) (ii : Z) (thfname : pyval) (thfbox : string)
  : result (list field) :=
  match files with
  | [] => Ok []
  | file :: rest =>
      n <- getitem thfname (PInt ii) ;;
      let val := CheckUnits T (ReadAndSelectRegion T file n thfbox) "heat flux" in
      tmp <- read_terms rest (ii + 1) thfname thfbox ;;
      Ok (val :: tmp)
  end.

(** The second loop: the first term, then [thf = thf + tmp[ii]]. An empty
    list leaves [thf] unassigned. *)
Definition read_total_heat_flux (thffile thfname : pyval) (thfbox : string)
  : result field :=
  match thffile with
  | PStr _ => Ok (CheckUnits T (ReadAndSelectRegion T thffile thfname thfbox) "heat flux")
  | PList files =>
      tmp <- read_terms files 0 thfname thfbox ;;
      match tmp with
      | [] => Raise (UnboundLocalError "thf")
      | first :: others => Ok (fold_left (field_add T) others first)
      end
  | _ => Raise (UnboundLocalError "thf")
  end.

Definition EnsoAlphaThf (sstfile thffile sstname thfname : pyval) (sstbox thfbox : string)
  : result StatMetric :=
  let Name := "Heat flux feedback (alpha)" in
  let Units := "W/m2/C" in
  let Method := ("Regression of " ++ thfbox ++ " thfA over " ++ sstbox ++ " sstA")%string in
  let Ref := "Using CDAT regression calculation" in
  let sst := ReadAndSelectRegion T sstfile sstname sstbox in
  let sst := CheckUnits T sst "temperature" in
  thf <- read_total_heat_flux thffile thfname thfbox ;;
  let yearN := shape0 T sst / 12 in
  let alphaSlope := get_slope_linear_regression_from_anomaly T thf sst 0 in
  let alphaSlopePos := get_slope_linear_regression_from_anomaly T thf sst 1 in
  let alphaSlopeNeg := get_slope_linear_regression_from_anomaly T thf sst (-1) in
  Ok (regression_metric Name Units Method Ref yearN alphaSlope alphaSlopePos alphaSlopeNeg).

Definition EnsoAmpl (sstfile sstname : pyval) (ninobox : string) : result StatMetric :=
  let Name := "ENSO amplitude" in
  let Units := "C" in
  let Method := ("Standard deviation of SSTA in " ++ ninobox)%string in
  let Ref := "Using CDAT std dev calculation" in
  let sst := ReadAndSelectRegion T sstfile sstname ninobox in
  let sst := CheckUnits T sst "temperature" in
  let yearN := shape0 T sst / 12 in
  let sstStd := interannual_variabilty_std_annual_cycle_removed T sst in
  sstStdErr <- num_div sstStd (NUMPYsqrt yearN) ;;
  Ok {| name := Name; value := sstStd; value_error := sstStdErr; units := Units;
        method := Method; nyears := yearN; ref := Ref;
        nonlinearity := None; nonlinearity_error := None |}.

(** Lines 403-405 of [EnsoMu]: match the time axes when the lengths differ. *)
Definition match_time (sst taux : field) : result (field * field) :=
  if negb (shape0 T sst =? shape0 T taux)%Z
  then MatchTimeDimension <- global "MatchTimeDimension" (g_MatchTimeDimension G) ;;
       Ok (MatchTimeDimension sst taux)
  else Ok (sst, taux).

Definition EnsoMu (sstfile tauxfile sstname tauxname : pyval) (sstbox tauxbox : string)
  : result StatMetric :=
  let Name := "Bjerknes feedback (mu)" in
  let Units := "10-3 N/m2/C" in
  let Method := ("Regression of " ++ tauxbox ++ " tauxA over " ++ sstbox ++ " sstA")%string in
  let Ref := "Using CDAT regression calculation" in
  let sst := ReadAndSelectRegion T sstfile sstname sstbox in
  let sst := CheckUnits T sst "temperature" in
  let taux := ReadAndSelectRegion T tauxfile tauxname tauxbox in
  let taux := CheckUnits T taux "wind stress" in
  '(sst, taux) <- match_time sst taux ;;
  let yearN := shape0 T sst / 12 in
  let muSlope := get_slope_linear_regression_from_anomaly T taux sst 0 in
  let muSlopePos := get_slope_linear_regression_from_anomaly T taux sst 1 in
  let muSlopeNeg := get_slope_linear_regression_from_anomaly T taux sst (-1) in
  let muSlope := ComputeMultiply T muSlope (PyFloat 1000) in
  let muSlopePos := ComputeMultiply T muSlopePos (PyFloat 1000) in
  let muSlopeNeg := ComputeMultiply T muSlopeNeg (PyFloat 1000) in
  Ok (regression_metric Name Units Method Ref yearN muSlope muSlopePos muSlopeNeg).

Definition EnsoRMSE (sstfilemodel sstnamemodel sstfileobs sstnameobs : pyval)
    (ninobox : string) (centered_rmse : pyval) : result RmseMetric :=
  let Name := "ENSO RMSE" in
  let Units := "C" in
  let Method := ("Spatial root mean square error SST in " ++ ninobox)%string in
  let Ref := "Using CDAT regriding and rms (uncentered and biased) calculation" in
  let sst_model := ReadAndSelectRegion T sstfilemodel sstnamemodel ninobox in
  let sst_model := CheckUnits T sst_model "temperature" in
  let sst_observation := ReadAndSelectRegion T sstfileobs sstnameobs ninobox in
  let sst_observation := CheckUnits T sst_observation "temperature" in
  let yearN_model := shape0 T sst_model / 12 in
  let yearN_observation := shape0 T sst_model / 12 in
  let sst_model := TimeAverage T sst_model in
  let sst_observation := TimeAverage T sst_observation in
  let sst_model := regrid T sst_model (getGrid T sst_observation) "regrid2" in
  let sstRmse := ComputeRms T sst_model sst_observation "xy" "weighted" centered_rmse in
  Ok {| rmse_name := Name; rmse_value := sstRmse; rmse_value_error := None;
        rmse_units := Units; rmse_method := Method;
        rmse_nyears_model := yearN_model; rmse_nyears_obs := yearN_observation;
        rmse_ref := Ref |}.

Definition EnsoSeasonality (sstfile sstname : pyval) (ninobox : string)
  : result StatMetric :=
  let Name := "ENSO Seasonality" in
  let Units := "" in
  let Method :=
    ("Ratio between NDJ and MAM standard deviation of SSTA in " ++ ninobox)%string in
  let Ref := "Using CDAT std dev calculation" in
  let sst := ReadAndSelectRegion T sstfile sstname ninobox in
  let sst := CheckUnits T sst "temperature" in
  let yearN := shape0 T sst / 12 in
  let sst_NDJ := SpatialAverage T (SeasonalMean T sst "NDJ") in
  let sst_MAM := SpatialAverage T (SeasonalMean T sst "MAM") in
  let sst_NDJ_std := ComputeStd T sst_NDJ in
  let sst_MAM_std := ComputeStd T sst_MAM in
  q <- num_div sst_NDJ_std sst_MAM_std ;;
  let ratioStd := py_float q in
  sst_NDJ_std_err <- num_div sst_NDJ_std (NUMPYsqrt (yearN - 1)) ;;
  sst_MAM_std_err <- num_div sst_MAM_std (NUMPYsqrt yearN) ;;
  e <- num_div (num_add (num_mul sst_MAM_std sst_NDJ_std_err)
                        (num_mul sst_NDJ_std sst_MAM_std_err))
               (NUMPYsquare sst_MAM_std_err) ;;
  let ratio_std_err := py_float e in
  Ok {| name := Name; value := ratioStd; value_error := ratio_std_err; units := Units;
        method := Method; nyears := yearN; ref := Ref;
        nonlinearity := None; nonlinearity_error := None |}.

(** ** ComputeMetric *)

Definition dict_oneVar_modelAndObs
  : list (string * (pyval -> pyval -> pyval -> pyval -> string -> pyval -> result RmseMetric)) :=
  [("EnsoRMSE", EnsoRMSE)].

Definition dict_oneVar : list (string * (pyval -> pyval -> string -> result StatMetric)) :=
  [("EnsoAmpl", EnsoAmpl); ("EnsoSeasonality", EnsoSeasonality)].

Definition dict_twoVar
  : list (string * (pyval -> pyval -> pyval -> pyval -> string -> string -> result StatMetric)) :=
  [("EnsoAlphaLhf", EnsoAlphaLhf); ("EnsoAlphaLwr", EnsoAlphaLwr);
   ("EnsoAlphaSwr", EnsoAlphaSwr); ("EnsoAlphaThf", EnsoAlphaThf);
   ("EnsoMu", EnsoMu)].

Fixpoint lookup {A : Type} (d : list (string * A)) (k : string) : option A :=
  match d with
  | [] => None
  | (k', v) :: d' => if String.eqb k' k then Some v else lookup d' k
  end.

(** What [ComputeMetric] returns. ['metric_error'] holds [None] for
    [EnsoRMSE]; the raw values and the nonlinearity entries are keys that
    only the ratio branch sets. *)
Record MetricVal : Type := {
  mv_name : string;
  metric : number;
  metric_error : option number;
  comment : string;
  model : string;
  nyears_model : pyval;
  observations : string;
  nyears_observations : pyval;
  mv_units : string;
  mv_method : string;
  mv_ref : string;
  value_model : option number;
  value_error_model : option number;
  value_observations : option number;
  value_error_observations : option number;
  nonlinearity_model : option number;
  nonlinearity_error_model : option number;
  nonlinearity_observations : option number;
  nonlinearity_error_observations : option number;
  metric_nonlinearity : option number;
  metric_nonlinearity_error : option number
}.

(** Lines 604-610: the regions of the metric's variables; an argument given
    by the caller is kept. *)
Definition resolve_regions (MetricCollection metric : string) (regionVar1 regionVar2 : pyval)
  : result (pyval * pyval * pyval) :=
  defCollection <- global "defCollection" (g_defCollection G) ;;
  collection <- defCollection MetricCollection ;;
  all_regions <- getitem collection (PStr "dict_of_regions") ;;
  dict_regions <- getitem all_regions (PStr metric) ;;
  metricReqs <- global "metricReqs" (g_metricReqs G) ;;
  reqs <- metricReqs metric ;;
  var_names <- getitem reqs (PStr "var_names") ;;
  regionVar1 <-
    (if negb (truthy regionVar1)
     then v <- getitem var_names (PInt 0) ;; getitem dict_regions v
     else Ok regionVar1) ;;
  let regionVar2 :=
    if negb (truthy regionVar2)
    then try_or (v <- getitem var_names (PInt 2) ;; getitem dict_regions v) regionVar2
    else regionVar2 in
  Ok (dict_regions, regionVar1, regionVar2).

(** Lines 627-630: the ratio of the model to the observations and its error. *)
Definition ratio (metric_mod metric_obs : StatMetric) : result (number * number) :=
  let v1 := value metric_mod in
  let v2 := value metric_obs in
  let err1 := value_error metric_mod in
  let err2 := value_error metric_obs in
  val1 <- num_div (value metric_mod) (value metric_obs) ;;
  val1_err <- num_div (num_add (num_mul v1 err2) (num_mul v2 err1)) (NUMPYsquare v2) ;;
  Ok (val1, val1_err).

(** Lines 631-638: the dictionary of the ratio branch. [metric] is the
    metric's name, the string the three dispatch tables are keyed by. *)
Definition ratio_metric_val (metric modelName obsName : string)
    (metric_mod metric_obs : StatMetric) (val1 val1_err : number) : result MetricVal :=
  let v1 := value metric_mod in
  let v2 := value metric_obs in
  let err1 := value_error metric_mod in
  let err2 := value_error metric_obs in
  years_model <- getitem (PStr metric) (PStr "nyears_model") ;;
  years_obs <- getitem (PStr metric) (PStr "nyears_obs") ;;
  Ok {| mv_name := name metric_mod; metric := val1; metric_error := Some val1_err;
        comment := "The metric is the ratio value_model / value_observations";
        model := modelName;
        nyears_model := years_model; value_model := Some v1; value_error_model := Some err1;
        observations := obsName; nyears_observations := years_obs;
        value_observations := Some v2; value_error_observations := Some err2;
        mv_units := units metric_mod; mv_method := method metric_mod;
        mv_ref := ref metric_mod;
        nonlinearity_model := None; nonlinearity_error_model := None;
        nonlinearity_observations := None; nonlinearity_error_observations := None;
        metric_nonlinearity := None; metric_nonlinearity_error := None |}.

Definition set_nonlinearity (metric_val : MetricVal) (v1 err1 v2 err2 val2 val2_err : number)
  : MetricVal :=
  {| mv_name := mv_name metric_val; metric := metric metric_val;
     metric_error := metric_error metric_val; comment := comment metric_val;
     model := model metric_val; nyears_model := nyears_model metric_val;
     observations := observations metric_val;
     nyears_observations := nyears_observations metric_val;
     mv_units := mv_units metric_val; mv_method := mv_method metric_val;
     mv_ref := mv_ref metric_val;
     value_model := value_model metric_val;
     value_error_model := value_error_model metric_val;
     value_observations := value_observations metric_val;
     value_error_observations := value_error_observations metric_val;
     nonlinearity_model := Some v1; nonlinearity_error_model := Some err1;
     nonlinearity_observations := Some v2; nonlinearity_error_observations := Some err2;
     metric_nonlinearity := Some val2; metric_nonlinearity_error := Some val2_err |}.

(** Lines 639-650: [try: metric_mod['nonlinearity']  except: pass  else: ...]. *)
Definition nonlinearity_channel (metric_mod metric_obs : StatMetric) (metric_val : MetricVal)
  : result MetricVal :=
  match nonlinearity metric_mod with
  | None => Ok metric_val
  | Some v1 =>
      v2 <- item "nonlinearity" (nonlinearity metric_obs) ;;
      err1 <- item "nonlinearity_error" (nonlinearity_error metric_mod) ;;
      err2 <- item "nonlinearity_error" (nonlinearity_error metric_obs) ;;
      val2 <- num_div (value metric_mod) (value metric_obs) ;;
      val2_err <- num_div (num_add (num_mul v1 err2) (num_mul v2 err1)) (NUMPYsquare v2) ;;
      Ok (set_nonlinearity metric_val v1 err1 v2 err2 val2 val2_err)
  end.

(** Lines 621-626: the model and the observations through the same function. *)
Definition model_and_obs_metrics (metric : string)
    (modelFile1 modelVarName1 obsFile1 obsVarName1 : pyval)
    (modelFile2 modelVarName2 obsFile2 obsVarName2 : pyval)
  : result (StatMetric * StatMetric) :=
  match lookup dict_oneVar metric with
  | Some f =>
      region1 <- global "region1" (g_region1 G) ;;
      metric_mod <- f modelFile1 modelVarName1 region1 ;;
      region1 <- global "region1" (g_region1 G) ;;
      metric_obs <- f obsFile1 obsVarName1 region1 ;;
      Ok (metric_mod, metric_obs)
  | None =>
      match lookup dict_twoVar metric with
      | Some f =>
          region1 <- global "region1" (g_region1 G) ;;
          region2 <- global "region2" (g_region2 G) ;;
          metric_mod <- f modelFile1 modelFile2 modelVarName1 modelVarName2 region1 region2 ;;
          region1 <- global "region1" (g_region1 G) ;;
          region2 <- global "region2" (g_region2 G) ;;
          metric_obs <- f obsFile1 obsFile2 obsVarName1 obsVarName2 region1 region2 ;;
          Ok (metric_mod, metric_obs)
      | None => Raise (UnboundLocalError "metric_mod")
      end
  end.

Definition ComputeMetric (MetricCollection metric modelName : string)
    (modelFile1 modelVarName1 : pyval) (obsName : string) (obsFile1 obsVarName1 : pyval)
    (regionVar1 regionVar2 modelFile2 modelVarName2 obsFile2 obsVarName2 : pyval)
  : result MetricVal :=
  '(dict_regions, regionVar1, regionVar2) <-
     resolve_regions MetricCollection metric regionVar1 regionVar2 ;;
  match lookup dict_oneVar_modelAndObs metric with
  | Some f =>
      region1 <- global "region1" (g_region1 G) ;;
      metric_mod_obs <- f modelFile1 modelVarName1 obsFile1 obsVarName1 region1 (PInt 0) ;;
      Ref <- global "Ref" (g_Ref G) ;;
      Ok {| mv_name := rmse_name metric_mod_obs; metric := rmse_value metric_mod_obs;
            metric_error := rmse_value_error metric_mod_obs;
            comment :=
              "The metric is the statistical value between the model and the observations";
            model := modelName; nyears_model := PInt (rmse_nyears_model metric_mod_obs);
            observations := obsName;
            nyears_observations := PInt (rmse_nyears_obs metric_mod_obs);
            mv_units := rmse_units metric_mod_obs; mv_method := rmse_method metric_mod_obs;
            mv_ref := Ref;
            value_model := None; value_error_model := None;
            value_observations := None; value_error_observations := None;
            nonlinearity_model := None; nonlinearity_error_model := None;
            nonlinearity_observations := None; nonlinearity_error_observations := None;
            metric_nonlinearity := None; metric_nonlinearity_error := None |}
  | None =>
      '(metric_mod, metric_obs) <-
         model_and_obs_metrics metric modelFile1 modelVarName1 obsFile1 obsVarName1
           modelFile2 modelVarName2 obsFile2 obsVarName2 ;;
      '(val1, val1_err) <- ratio metric_mod metric_obs ;;
      metric_val <- ratio_metric_val metric modelName obsName metric_mod metric_obs
                      val1 val1_err ;;
      nonlinearity_channel metric_mod metric_obs metric_val
  end.

End MetricFunctions.

End EnsoMetricsLib.

(** * Test doubles for the collaborators

    A monthly series is known by the file it was read from and by the length
    of its time axis; the kernels answer from the table of a scenario. *)

Module Fixture.

Import EnsoMetricsLib.
Local Open Scope string_scope.
Local Open Scope float_scope.
Local Set Warnings "-inexact-float".

Record series : Type := { handle : string; months : Z }.

Record scenario : Type := {
  months_of : string -> Z;
  std_of : series -> number;
  regress_of : series -> series -> Z -> number * number;
  rms_of : series -> series -> number
}.

Definition file_handle (file : pyval) : string :=
  match file with
  | PStr s => s
  | _ => ""
  end.

Definition tools (sc : scenario) : EnsoToolsLib series unit :=
  {| shape0 := months;
     field_add := fun a b => {| handle := handle a ++ "+" ++ handle b; months := months a |};
     field_sub := fun a b => {| handle := handle a ++ "-" ++ handle b; months := months a |};
     regrid := fun x _ _ => x;
     getGrid := fun _ => tt;
     CheckUnits := fun x _ => x;
     ComputeMultiply := fun p k => (num_mul (fst p) k, num_mul (snd p) k);
     ComputeRms := fun a b _ _ _ => rms_of sc a b;
     ComputeStd := std_of sc;
     SpatialAverage := fun x => x;
     TimeAverage := fun x => x;
     ReadAndSelectRegion := fun file _ _ =>
       {| handle := file_handle file; months := months_of sc (file_handle file) |};
     SeasonalMean := fun x season =>
       {| handle := handle x ++ "." ++ season; months := months x |};
     interannual_variabilty_std_annual_cycle_removed := std_of sc;
     get_slope_linear_regression_from_anomaly := regress_of sc |}.

(** A [MatchTimeDimension] that keeps the common leading months of both. *)
Definition common_period (a b : series) : series * series :=
  let n := Z.min (months a) (months b) in
  ({| handle := handle a; months := n |}, {| handle := handle b; months := n |}).

Definition of_model (x : series) : bool := String.eqb (handle x) "sst_model.nc".

(** The numbers of the specification's examples: the model regresses with
    slope 2.0 +- 0.1 (1.5 over positive, 2.0 over negative anomalies), the
    observations with slope 1.0 +- 0.05 (1.0 and 1.0); 400 years of each. *)
Definition spec_example : scenario :=
  {| months_of := fun _ => 4800%Z;
     std_of := fun x => if of_model x then PyFloat 2 else PyFloat 1;
     regress_of := fun _ x sign =>
       if of_model x
       then (if (sign =? 1)%Z then PyFloat 1.5 else PyFloat 2, PyFloat 0.1)
       else (PyFloat 1, PyFloat 0.05);
     rms_of := fun _ _ => PyFloat 0.5 |}.

(** Slopes whose nonlinearity differs from the slope itself: model
    4.0 - 1.0 = 3.0 around a slope of 2.0, observations 2.0 - 1.0 = 1.0
    around a slope of 1.0. *)
Definition nonlinear_example : scenario :=
  {| months_of := fun _ => 4800%Z;
     std_of := fun x => if of_model x then PyFloat 2 else PyFloat 1;
     regress_of := fun _ x sign =>
       if of_model x
       then (if (sign =? 0)%Z then PyFloat 2 else if (sign =? 1)%Z then PyFloat 1 else PyFloat 4,
             PyFloat 0.1)
       else (if (sign =? -1)%Z then PyFloat 2 else PyFloat 1, PyFloat 0.05);
     rms_of := fun _ _ => PyFloat 0.5 |}.

(** Observations whose statistic is exactly zero; [np] makes the kernels
    answer with numpy's [float64] instead of Python's [float]. *)
Definition zero_observations (np : bool) : scenario :=
  let num := if np then NpFloat else PyFloat in
  {| months_of := fun _ => 4800%Z;
     std_of := fun x => if of_model x then num 2 else num 0;
     regress_of := fun _ x _ => if of_model x then (num 2, num 0.1) else (num 0, num 0.05);
     rms_of := fun _ _ => num 0.5 |}.

(** Two years of model SST against three years of everything else. The
    regression kernel answers with the lengths of the two series it is
    handed. *)
Definition unequal_lengths : scenario :=
  {| months_of := fun f => if String.eqb f "sst_model.nc" then 24%Z else 36%Z;
     std_of := fun _ => PyFloat 1;
     regress_of := fun y x _ =>
       (PyFloat (float_of_Z (months y)), PyFloat (float_of_Z (months x)));
     rms_of := fun _ _ => PyFloat 0.5 |}.

(** A wind stress feedback of 0.002 N/m2/C. *)
Definition wind_stress_example : scenario :=
  {| months_of := fun _ => 4800%Z;
     std_of := fun _ => PyFloat 1;
     regress_of := fun _ _ _ => (PyFloat 0.002, PyFloat 0.0005);
     rms_of := fun _ _ => PyFloat 0.5 |}.

(** A [defCollection] of the shape [ComputeMetric] reads: each collection
    has a ['dict_of_regions'] from metric to variable to region. *)
Definition regions_by_metric : pyval :=
  dict_display
    [("EnsoRMSE", dict_display [("sst", PStr "nino3.4")]);
     ("EnsoAmpl", dict_display [("sst", PStr "nino3.4")]);
     ("EnsoAlphaLhf", dict_display [("sst", PStr "nino3"); ("lhf", PStr "nino3")]);
     ("EnsoMu", dict_display [("sst", PStr "nino3"); ("taux", PStr "nino4")])].

Definition collection_with_regions (mc : string) : result pyval :=
  Ok (dict_display [("dict_of_regions", regions_by_metric)]).

Definition requirements (metric : string) : result pyval :=
  Ok (dict_display
        [("var_names",
          if String.eqb metric "EnsoMu" then PList [PStr "sst"; PStr "taux"]
          else if String.eqb metric "EnsoAlphaLhf" then PList [PStr "sst"; PStr "lhf"]
          else PList [PStr "sst"])]).

(** A global scope that binds the six names, with [region1 = 'nino3'] and
    [region2 = 'nino4']. *)
Definition bound_scope : Globals series :=
  {| g_MatchTimeDimension := Some common_period;
     g_defCollection := Some collection_with_regions;
     g_metricReqs := Some requirements;
     g_region1 := Some "nino3";
     g_region2 := Some "nino4";
     g_Ref := Some "Using CDAT regriding and rms calculation" |}.

(** The same scope with [defCollection] bound to the function of
    [EnsoCollectionsLib]. *)
Definition repository_scope : Globals series :=
  {| g_MatchTimeDimension := Some common_period;
     g_defCollection := Some (fun mc => EnsoCollectionsLib.defCollection (PStr mc));
     g_metricReqs := Some requirements;
     g_region1 := Some "nino3";
     g_region2 := Some "nino4";
     g_Ref := Some "Using CDAT regriding and rms calculation" |}.

(** [ComputeMetric(MetricCollection, metric, 'model', sst_model, 'ts',
    'obs', sst_obs, 'ts', regionVar1=..., regionVar2=..., modelFile2=...,
    modelVarName2=..., obsFile2=..., obsVarName2=...)] on the files of the
    scenario. *)
Definition compute (sc : scenario) (G : Globals series) (metric : string)
    (regionVar1 regionVar2 : pyval) (var2 name2 : string) : result MetricVal :=
  ComputeMetric (tools sc) G "ENSO_perf" metric "model"
    (PStr "sst_model.nc") (PStr "ts") "obs" (PStr "sst_obs.nc") (PStr "ts")
    regionVar1 regionVar2
    (PStr (var2 ++ "_model.nc")) (PStr name2) (PStr (var2 ++ "_obs.nc")) (PStr name2).

(** What the regression metric returns for the model and for the
    observations of a scenario. *)
Definition lhf_metric (sc : scenario) (side : string) : result StatMetric :=
  EnsoAlphaLhf (tools sc) (PStr ("sst_" ++ side ++ ".nc")) (PStr ("lhf_" ++ side ++ ".nc"))
    (PStr "ts") (PStr "hfls") "nino3" "nino3".

End Fixture.

(** * The shape of the catalogs *)

Module CatalogShape.

Import EnsoCollectionsLib.
Local Open Scope string_scope.

(** A number of the catalogs: a float, or an int as in [(-40, 15.)]. *)
Definition num_of (v : pyval) : option float :=
  match v with
  | PFloat x => Some x
  | PInt z => Some (float_of_Z z)
  | _ => None
  end.

(** A pair of numbers, as the ['latitude'] and ['longitude'] of a region. *)
Definition pair_of (v : pyval) : option (float * float) :=
  match v with
  | PTuple [a; b] =>
      match num_of a, num_of b with
      | Some x, Some y => Some (x, y)
      | _, _ => None
      end
  | _ => None
  end.

Definition is_str (v : pyval) : bool :=
  match v with
  | PStr _ => true
  | _ => false
  end.

Definition is_dict (v : pyval) : bool :=
  match v with
  | PDict _ => true
  | _ => false
  end.

Definition region_well_formed (region : pyval) : bool :=
  is_str (field_of region "long_name") &&
  match pair_of (field_of region "latitude"), pair_of (field_of region "longitude") with
  | Some (south, north), Some (west, east) =>
      PrimFloat.leb (-90)%float south && PrimFloat.ltb south north &&
      PrimFloat.leb north 90%float &&
      PrimFloat.leb 0%float west && PrimFloat.ltb west east
  | _, _ => false
  end.

Definition is_sign (s : string) : bool := String.eqb s "plus" || String.eqb s "minus".

(** How a dataset names a variable: one name, or the names of the terms
    together with their signs. *)
Definition variable_entry_well_formed (entry : pyval) : bool :=
  match field_of entry "var_name" with
  | PStr _ => negb (has_key entry "algebric_calculation")
  | PList names =>
      match field_of entry "algebric_calculation" with
      | PList signs =>
          forallb is_str names && forallb is_str signs &&
          Nat.eqb (List.length signs) (List.length names) &&
          forallb is_sign (str_items (PList signs))
      | _ => false
      end
  | _ => false
  end.

Definition variables_well_formed (owner : pyval) : bool :=
  forallb (fun kv => variable_entry_well_formed (snd kv))
          (dict_items (field_of owner "variable_name_in_file")).

(** Every metric of every collection, with the names of both. *)
Definition all_metric_specs : list (string * string * pyval) :=
  flat_map (fun c =>
              map (fun m => (fst c, fst m, snd m))
                  (dict_items (field_of (snd c) "metrics_list")))
           (dict_items metrics_collection).

(** A metric names one or two variables and gives each a region of
    [ReferenceRegions]. *)
Definition metric_regions_catalogued (spec : pyval) : bool :=
  forallb is_str (list_items (field_of spec "variables")) &&
  (let n := List.length (str_items (field_of spec "variables")) in
   Nat.eqb n 1 || Nat.eqb n 2) &&
  forallb (fun var =>
             match field_of (field_of spec "regions") var with
             | PStr region => has_key dict_reference_regions region
             | _ => false
             end)
          (str_items (field_of spec "variables")).

(** The keys every collection, and every metric of a collection, is read
    by. *)
Definition common_parameters : list string :=
  ["detrending"; "frequency"; "min_time_steps"; "normalization";
   "project_interpreter"; "observed_period"; "modeled_period"].

Definition metric_keys : list string := ["variables"; "regions"; "obs_name"].

Definition collection_well_formed (collection : pyval) : bool :=
  is_str (field_of collection "long_name") &&
  is_str (field_of collection "description") &&
  match field_of collection "plot_order" with
  | PList order => forallb is_str order
  | _ => false
  end &&
  forallb (has_key (field_of collection "common_collection_parameters")) common_parameters &&
  negb (Nat.eqb (List.length (dict_items (field_of collection "metrics_list"))) 0) &&
  forallb (fun m => forallb (has_key (snd m)) metric_keys)
          (dict_items (field_of collection "metrics_list")).

End CatalogShape.

(** * Further test doubles *)

Module Cases.

Import EnsoMetricsLib Fixture.
Local Open Scope string_scope.
Local Open Scope float_scope.
Local Set Warnings "-inexact-float".

(** [n] months of SST whose NDJ means vary with a standard deviation of
    1.2 and whose MAM means with one of [mam]. *)
Definition seasonal (n : Z) (mam : number) : scenario :=
  {| months_of := fun _ => n;
     std_of := fun x => if String.eqb (handle x) "sst_model.nc.NDJ" then PyFloat 1.2 else mam;
     regress_of := fun _ _ _ => (PyFloat 1, PyFloat 0.1);
     rms_of := fun _ _ => PyFloat 0.5 |}.

(** A scope whose [defCollection] knows the regions of a metric,
    ['EnsoDuration'], that [ComputeMetric] has no function for. *)
Definition scope_with_EnsoDuration : Globals series :=
  {| g_MatchTimeDimension := None;
     g_defCollection :=
       Some (fun _ =>
               Ok (dict_display
                     [("dict_of_regions",
                       dict_display
                         [("EnsoDuration", dict_display [("sst", PStr "nino3.4")])])]));
     g_metricReqs := Some (fun _ => Ok (dict_display [("var_names", PList [PStr "sst"])]));
     g_region1 := Some "nino3.4";
     g_region2 := None;
     g_Ref := None |}.

(** The scope of [Fixture.bound_scope] without a [region1]. *)
Definition region1_unbound : Globals series :=
  {| g_MatchTimeDimension := Some common_period;
     g_defCollection := Some collection_with_regions;
     g_metricReqs := Some requirements;
     g_region1 := None;
     g_region2 := Some "nino4";
     g_Ref := Some "Using CDAT regriding and rms calculation" |}.

(** What [EnsoAlphaLhf] returns on [Fixture.nonlinear_example]. *)
Definition nonlinear_model : StatMetric :=
  regression_metric "Latent feedback (alpha_lh)" "W/m2/C"
    "Regression of nino3 lhfA over nino3 sstA" "Using CDAT regression calculation" 400
    (PyFloat 2, PyFloat 0.1) (PyFloat 1, PyFloat 0.1) (PyFloat 4, PyFloat 0.1).

Definition nonlinear_observations : StatMetric :=
  regression_metric "Latent feedback (alpha_lh)" "W/m2/C"
    "Regression of nino3 lhfA over nino3 sstA" "Using CDAT regression calculation" 400
    (PyFloat 1, PyFloat 0.05) (PyFloat 1, PyFloat 0.05) (PyFloat 2, PyFloat 0.05).


End Cases.

(** * Properties *)

Local Open Scope string_scope.

(** Split a conjunction into its parts, and nothing else. *)
Ltac split_all := repeat match goal with |- _ /\ _ => split end.

(** ** Outcomes and dictionaries *)

Lemma raises_class {A : Type} (r : result A) (e : exn) (cls : string) :
  r = Raise e -> raises r cls -> cls = exn_class e.
Proof.
  intros Hr (e' & He' & Hcls).
  rewrite Hr in He'. injection He' as ->. symmetry. exact Hcls.
Qed.

Lemma returns_does_not_raise {A : Type} (r : result A) (a : A) (cls : string) :
  r = Ok a -> ~ raises r cls.
Proof.
  intros Hr (e & He & _). rewrite Hr in He. discriminate He.
Qed.

Lemma not_In_existsb (k : string) (l : list string) :
  existsb (String.eqb k) l = false -> ~ In k l.
Proof.
  intros Hex Hin.
  assert (Hin' : existsb (String.eqb k) l = true).
  { apply existsb_exists. exists k. split; [exact Hin | apply String.eqb_refl]. }
  rewrite Hex in Hin'. discriminate Hin'.
Qed.

Lemma In_existsb (k : string) (l : list string) :
  existsb (String.eqb k) l = true -> In k l.
Proof.
  intros Hex. apply existsb_exists in Hex. destruct Hex as (k' & Hin & Hk).
  apply String.eqb_eq in Hk. subst k'. exact Hin.
Qed.

Lemma dict_get_absent (d : list (string * pyval)) (k : string) :
  ~ In k (dict_keys d) -> dict_get d k = None.
Proof.
  induction d as [| [k' v] d IH]; intros Hk; cbn.
  - reflexivity.
  - destruct (String.eqb k' k) eqn:E.
    + apply String.eqb_eq in E. exfalso. apply Hk. left. exact E.
    + apply IH. intros Hin. apply Hk. right. exact Hin.
Qed.

Lemma getitem_absent (d : list (string * pyval)) (k : string) :
  ~ In k (dict_keys d) -> getitem (PDict d) (PStr k) = Raise (KeyError (PStr k)).
Proof.
  intros Hk. cbn. rewrite (dict_get_absent d k Hk). reflexivity.
Qed.

(** ** The catalogs *)

Section Catalogs.

Import EnsoCollectionsLib.

Lemma lookup_is_getitem (c : catalog) (id : string) :
  catalog_lookup c (PStr id) = getitem (catalog_data c) (PStr id).
Proof. destruct c; reflexivity. Qed.

Lemma catalog_data_is_dict (c : catalog) :
  catalog_data c = PDict (dict_items (catalog_data c)).
Proof. destruct c; reflexivity. Qed.

(** C9, as amended: looking up an identifier that a catalog does not hold
    (a region in [ReferenceRegions], a dataset in [ReferenceObservations], a
    collection in [defCollection]) raises Python's [KeyError], whose
    argument is the identifier. *)
Theorem absent_id_raises_KeyError (c : catalog) (id : string) :
  ~ In id (catalog_ids (catalog_data c)) ->
  catalog_lookup c (PStr id) = Raise (KeyError (PStr id)).
Proof.
  intros Habsent.
  rewrite lookup_is_getitem.
  rewrite (catalog_data_is_dict c) in Habsent |- *.
  apply getitem_absent. exact Habsent.
Qed.

Lemma absent_id_raises_KeyError_witness :
  ~ In "nino5" (catalog_ids (catalog_data Regions)) /\
  catalog_lookup Regions (PStr "nino5") = Raise (KeyError (PStr "nino5")).
Proof.
  assert (Habsent : ~ In "nino5" (catalog_ids (catalog_data Regions))).
  { apply not_In_existsb. vm_compute. reflexivity. }
  split.
  - exact Habsent.
  - exact (absent_id_raises_KeyError Regions "nino5" Habsent).
Defined.

(** C9, as stated, fails: ['nino5'] is no region, ['ERA6'] no dataset and
    ['ENSO_x'] no collection, and none of the three lookups raises a
    [ConfigurationError]. *)
Lemma unknown_id_is_no_ConfigurationError :
  (~ In "nino5" (catalog_ids dict_reference_regions) /\
   ~ raises (ReferenceRegions (PStr "nino5")) "ConfigurationError") /\
  (~ In "ERA6" (catalog_ids dict_ref_obs) /\
   ~ raises (ReferenceObservations (PStr "ERA6")) "ConfigurationError") /\
  (~ In "ENSO_x" (catalog_ids metrics_collection) /\
   ~ raises (defCollection (PStr "ENSO_x")) "ConfigurationError").
Proof.
  split_all.
  - apply not_In_existsb. vm_compute. reflexivity.
  - intros H.
    assert (E : ReferenceRegions (PStr "nino5") = Raise (KeyError (PStr "nino5")))
      by (vm_compute; reflexivity).
    apply (raises_class _ _ _ E) in H. discriminate H.
  - apply not_In_existsb. vm_compute. reflexivity.
  - intros H.
    assert (E : ReferenceObservations (PStr "ERA6") = Raise (KeyError (PStr "ERA6")))
      by (vm_compute; reflexivity).
    apply (raises_class _ _ _ E) in H. discriminate H.
  - apply not_In_existsb. vm_compute. reflexivity.
  - intros H.
    assert (E : defCollection (PStr "ENSO_x") = Raise (KeyError (PStr "ENSO_x")))
      by (vm_compute; reflexivity).
    apply (raises_class _ _ _ E) in H. discriminate H.
Qed.

Lemma unknown_plot_entries_spec (collection : pyval) (id : string) :
  In id (unknown_plot_entries collection) <->
  In id (str_items (field_of collection "plot_order")) /\
  has_key (field_of collection "metrics_list") id = false.
Proof.
  unfold unknown_plot_entries. rewrite filter_In.
  split; intros [Hin Hkey]; (split; [exact Hin |]).
  - apply negb_true_iff. exact Hkey.
  - apply negb_true_iff. exact Hkey.
Qed.

Lemma variables_without_obs_spec (metric_spec : pyval) (var : string) :
  In var (variables_without_obs metric_spec) <->
  In var (str_items (field_of metric_spec "variables")) /\
  truthy (field_of (field_of metric_spec "obs_name") var) = false.
Proof.
  unfold variables_without_obs. rewrite filter_In.
  split; intros [Hin Hobs]; (split; [exact Hin |]).
  - apply negb_true_iff. exact Hobs.
  - apply negb_true_iff. exact Hobs.
Qed.

(** C10 at the collections of [defCollection]: ['plot_order'] of
    ['ENSO_perf'] names ['EnsodDuration'], which is no key of its
    ['metrics_list'] (the key is ['EnsoDuration']); per collection, the
    entries of ['plot_order'] that ['metrics_list'] lacks. *)
Theorem plot_order_names_unknown_metrics :
  (exists collection metrics,
     defCollection (PStr "ENSO_perf") = Ok collection /\
     In "EnsodDuration" (str_items (field_of collection "plot_order")) /\
     getitem collection (PStr "metrics_list") = Ok metrics /\
     getitem metrics (PStr "EnsodDuration") = Raise (KeyError (PStr "EnsodDuration")) /\
     has_key metrics "EnsoDuration" = true) /\
  map (fun kv => (fst kv, unknown_plot_entries (snd kv))) (dict_items metrics_collection) =
  [("ENSO_perf", ["EnsodDuration"]);
   ("ENSO_tel", ["EnsoPrMapDjfRmse"; "EnsoPrMapJjaRmse"; "EnsoSstMapDjfRmse";
                 "EnsoSstMapJjaRmse"]);
   ("ENSO_proc", []);
   ("all_metrics", ["EnsodDuration"]);
   ("ENSO_THF", []);
   ("ENSO_tau", [])].
Proof.
  split.
  - exists (field_of metrics_collection "ENSO_perf").
    exists (field_of (field_of metrics_collection "ENSO_perf") "metrics_list").
    split_all.
    + vm_compute. reflexivity.
    + apply In_existsb. vm_compute. reflexivity.
    + vm_compute. reflexivity.
    + vm_compute. reflexivity.
    + vm_compute. reflexivity.
  - vm_compute. reflexivity.
Qed.

(** C8 at the collections of [defCollection]: ['SeasonalTauxLonRmse'] of
    ['ENSO_perf'] has the variable ['taux'] and an ['obs_name'] keyed by
    ['sst'] only; per collection, the metrics with a variable for which
    ['obs_name'] holds no dataset. *)
Theorem obs_name_misses_a_variable :
  (exists collection spec,
     defCollection (PStr "ENSO_perf") = Ok collection /\
     getitem (field_of collection "metrics_list") (PStr "SeasonalTauxLonRmse") = Ok spec /\
     getitem spec (PStr "variables") = Ok (PList [PStr "taux"]) /\
     catalog_ids (field_of spec "obs_name") = ["sst"] /\
     getitem (field_of spec "obs_name") (PStr "taux") = Raise (KeyError (PStr "taux"))) /\
  map (fun kv => (fst kv, metrics_without_obs (snd kv))) (dict_items metrics_collection) =
  [("ENSO_perf", [("SeasonalTauxLonRmse", ["taux"])]);
   ("ENSO_tel", []);
   ("ENSO_proc", [("EnsoFbTauxSsh", ["taux"])]);
   ("all_metrics", [("EnsoFbTauxSsh", ["taux"]); ("SeasonalTauxLonRmse", ["taux"])]);
   ("ENSO_THF", []);
   ("ENSO_tau", [])].
Proof.
  split.
  - exists (field_of metrics_collection "ENSO_perf").
    exists (field_of (field_of (field_of metrics_collection "ENSO_perf") "metrics_list")
              "SeasonalTauxLonRmse").
    split_all; vm_compute; reflexivity.
  - vm_compute. reflexivity.
Qed.

End Catalogs.

(** ** Binary64 division by zero *)

Section Binary64.

Local Open Scope float_scope.

Lemma float_zero_spec (z : float) :
  (z =? 0) = true -> exists s, Prim2SF z = S754_zero s.
Proof.
  rewrite FloatAxioms.eqb_spec.
  change (Prim2SF 0) with (S754_zero false).
  destruct (Prim2SF z) as [s | s | | s m e]; cbn.
  - intros _. exists s. reflexivity.
  - destruct s; discriminate.
  - discriminate.
  - destruct s; discriminate.
Qed.

Lemma nan_or_infinity_not_finite (r : float) :
  Prim2SF r = S754_nan \/ (exists s, Prim2SF r = S754_infinity s) ->
  is_finite r = false.
Proof.
  intros H. unfold is_finite, is_nan, is_infinity.
  rewrite !FloatAxioms.eqb_spec, FloatAxioms.abs_spec.
  change (Prim2SF infinity) with (S754_infinity false).
  destruct H as [H | [s H]]; rewrite H; [reflexivity | destruct s; reflexivity].
Qed.

(** Whatever is divided by a zero is an infinity or a NaN. *)
Lemma div_by_zero_not_finite (x z : float) :
  (z =? 0) = true -> is_finite (x / z) = false.
Proof.
  intros Hz. destruct (float_zero_spec z Hz) as [s Hs].
  apply nan_or_infinity_not_finite. rewrite FloatAxioms.div_spec, Hs. unfold SF64div.
  destruct (Prim2SF x) as [sx | sx | | sx mx ex]; cbn.
  - left; reflexivity.
  - right; eexists; reflexivity.
  - left; reflexivity.
  - right; eexists; reflexivity.
Qed.

Lemma square_of_zero (z : float) : (z =? 0) = true -> (z * z =? 0) = true.
Proof.
  intros Hz. destruct (float_zero_spec z Hz) as [s Hs].
  rewrite FloatAxioms.eqb_spec, FloatAxioms.mul_spec, Hs. reflexivity.
Qed.

End Binary64.

(** ** The metric functions *)

Section ReadingLists.

Import EnsoMetricsLib.
Local Open Scope Z_scope.

Context {field grid : Type}.
Variable T : EnsoToolsLib field grid.

Local Abbreviation read := (ReadAndSelectRegion T).
Local Abbreviation checked file fname box := (CheckUnits T (read file fname box) "heat flux").

Lemma getitem_list_nat (l : list pyval) (i : nat) :
  getitem (PList l) (PInt (Z.of_nat i)) =
  match nth_error l i with
  | Some x => Ok x
  | None => Raise (IndexError "list index out of range")
  end.
Proof.
  cbn [getitem]. unfold seq_index. cbv zeta.
  assert (Hneg : (Z.of_nat i <? 0) = false) by (apply Z.ltb_ge; lia).
  rewrite !Hneg. cbn [orb].
  destruct (Z.of_nat (List.length l) <=? Z.of_nat i) eqn:Hlen.
  - apply Z.leb_le in Hlen.
    assert (Hnone : nth_error l i = None) by (apply nth_error_None; lia).
    rewrite Hnone. reflexivity.
  - rewrite Nat2Z.id. destruct (nth_error l i) eqn:Hnth; [reflexivity |].
    apply nth_error_None in Hnth. apply Z.leb_gt in Hlen. lia.
Qed.

(** The terms of the first loop: file [ii] is read under name [ii]. *)
Lemma read_terms_of_lists (thfbox : string) (names files : list pyval) (ii : nat) :
  (ii + List.length files <= List.length names)%nat ->
  read_terms T files (Z.of_nat ii) (PList names) thfbox
  = Ok (map (fun fn => checked (fst fn) (snd fn) thfbox) (combine files (skipn ii names))).
Proof.
  revert ii. induction files as [| file files IH]; intros ii Hlen.
  - reflexivity.
  - cbn [read_terms List.length] in *.
    rewrite getitem_list_nat.
    destruct (nth_error names ii) as [n |] eqn:Hn.
    + cbn [bind].
      replace (Z.of_nat ii + 1) with (Z.of_nat (S ii)) by lia.
      rewrite IH by lia. cbn [bind].
      assert (Hskip : skipn ii names = n :: skipn (S ii) names).
      { clear - Hn. revert ii Hn. induction names as [| a names IHn]; intros ii Hn.
        - destruct ii; discriminate Hn.
        - destruct ii as [| ii].
          + cbn in Hn. injection Hn as ->. reflexivity.
          + cbn in Hn. cbn [skipn]. exact (IHn ii Hn). }
      rewrite Hskip. reflexivity.
    + apply nth_error_None in Hn. lia.
Qed.

Lemma read_terms_of_short_names (thfbox : string) (names files : list pyval) (ii : nat) :
  (List.length names < ii + List.length files)%nat ->
  files <> [] ->
  read_terms T files (Z.of_nat ii) (PList names) thfbox
  = Raise (IndexError "list index out of range").
Proof.
  revert ii. induction files as [| file files IH]; intros ii Hlen Hfiles.
  - contradiction Hfiles. reflexivity.
  - cbn [read_terms List.length] in *.
    rewrite getitem_list_nat.
    destruct (nth_error names ii) as [n |] eqn:Hn; [| reflexivity].
    cbn [bind].
    assert (Hii : (ii < List.length names)%nat).
    { apply nth_error_Some. rewrite Hn. discriminate. }
    replace (Z.of_nat ii + 1) with (Z.of_nat (S ii)) by lia.
    rewrite IH.
    + reflexivity.
    + lia.
    + intros Hnil. subst files. cbn in Hlen. lia.
Qed.

End ReadingLists.

Section MetricFunctionFacts.

Import EnsoMetricsLib.

Context {field grid : Type}.
Variable T : EnsoToolsLib field grid.
Variable G : Globals field.

Local Abbreviation regress := (get_slope_linear_regression_from_anomaly T).
Local Abbreviation read := (ReadAndSelectRegion T).
Local Abbreviation scaled p := (ComputeMultiply T p (PyFloat 1000)).
Local Abbreviation checked file fname box := (CheckUnits T (read file fname box) "heat flux").

Lemma regression_metric_reports (Name Units Method Ref : string) (yearN : Z)
    (all pos neg : number * number) :
  reports_regressions all pos neg
    (regression_metric Name Units Method Ref yearN all pos neg).
Proof. unfold reports_regressions. split_all; reflexivity. Qed.

(** A flux given as one file name is always read. *)
Lemma read_net_radiation_of_file (var file : string) (fname : pyval) (box : string) :
  read_net_radiation T var (PStr file) fname box
  = Ok (CheckUnits T (read (PStr file) fname box) "heat flux").
Proof. reflexivity. Qed.

Lemma read_total_heat_flux_of_file (file : string) (fname : pyval) (box : string) :
  read_total_heat_flux T (PStr file) fname box
  = Ok (CheckUnits T (read (PStr file) fname box) "heat flux").
Proof. reflexivity. Qed.

Lemma match_time_equal_lengths (sst taux : field) :
  shape0 T sst = shape0 T taux -> match_time T G sst taux = Ok (sst, taux).
Proof.
  intros Heq. unfold match_time. rewrite Heq, Z.eqb_refl. reflexivity.
Qed.



(** [EnsoRMSE] always returns, and both of its year counts are the model's. *)
Lemma EnsoRMSE_years (sstfilemodel sstnamemodel sstfileobs sstnameobs : pyval)
    (ninobox : string) (centered_rmse : pyval) :
  let sst_model := CheckUnits T (read sstfilemodel sstnamemodel ninobox) "temperature" in
  exists d,
    EnsoRMSE T sstfilemodel sstnamemodel sstfileobs sstnameobs ninobox centered_rmse = Ok d /\
    rmse_nyears_model d = shape0 T sst_model / 12 /\
    rmse_nyears_obs d = shape0 T sst_model / 12.
Proof.
  intros sst_model. eexists. split; [reflexivity |]. split; reflexivity.
Qed.

End MetricFunctionFacts.

Section MetricFunctionExamples.

Import EnsoMetricsLib Fixture Cases.
Local Set Warnings "-inexact-float".


(** C5 on 24 months of SST against 36 months of the second field. [EnsoMu]
    compares the lengths and calls [MatchTimeDimension] (line 405), a name
    that no import or statement of the module binds: the call raises
    [NameError]. [EnsoAlphaLhf], [EnsoAlphaLwr], [EnsoAlphaSwr] and
    [EnsoAlphaThf] compare nothing: the regression is handed the 36 months
    and the 24 months as they were read (the kernel of this scenario answers
    with the two lengths), and nothing is raised. *)
Theorem unequal_time_axes_are_not_aligned :
  let T := tools unequal_lengths in
  let sst := CheckUnits T (ReadAndSelectRegion T (PStr "sst_model.nc") (PStr "ts") "nino3")
               "temperature" in
  let taux := CheckUnits T (ReadAndSelectRegion T (PStr "taux_model.nc") (PStr "tauu") "nino4")
                "wind stress" in
  let lhf := ReadAndSelectRegion T (PStr "lhf_model.nc") (PStr "hfls") "nino3" in
  let unmatched d :=
    value d = PyFloat 36 /\ value_error d = PyFloat 24 /\ nyears d = 2 in
  shape0 T sst = 24 /\
  shape0 T taux = 36 /\
  shape0 T lhf = 36 /\
  EnsoMu T (module_scope series) (PStr "sst_model.nc") (PStr "taux_model.nc") (PStr "ts")
    (PStr "tauu") "nino3" "nino4"
  = Raise (NameError "MatchTimeDimension") /\
  get_slope_linear_regression_from_anomaly T lhf sst 0 = (PyFloat 36, PyFloat 24) /\
  (exists d,
     EnsoAlphaLhf T (PStr "sst_model.nc") (PStr "lhf_model.nc") (PStr "ts") (PStr "hfls")
       "nino3" "nino3" = Ok d /\ unmatched d) /\
  (exists d,
     EnsoAlphaLwr T (PStr "sst_model.nc") (PList [PStr "rlds_model.nc"; PStr "rlus_model.nc"])
       (PStr "ts") (PList [PStr "rlds"; PStr "rlus"]) "nino3" "nino3" = Ok d /\
     unmatched d) /\
  (exists d,
     EnsoAlphaSwr T (PStr "sst_model.nc") (PStr "rss_model.nc") (PStr "ts") (PStr "rss")
       "nino3" "nino3" = Ok d /\ unmatched d) /\
  (exists d,
     EnsoAlphaThf T (PStr "sst_model.nc") (PStr "thf_model.nc") (PStr "ts") (PStr "thf")
       "nino3" "nino3" = Ok d /\ unmatched d).
Proof.
  intros T sst taux lhf unmatched. subst unmatched. cbv beta. split_all.
  - reflexivity.
  - reflexivity.
  - reflexivity.
  - vm_compute. reflexivity.
  - vm_compute. reflexivity.
  - eexists. split; [reflexivity |]. split_all; vm_compute; reflexivity.
  - eexists. split; [reflexivity |]. split_all; vm_compute; reflexivity.
  - eexists. split; [reflexivity |]. split_all; vm_compute; reflexivity.
  - eexists. split; [reflexivity |]. split_all; vm_compute; reflexivity.
Qed.

(** C7 on two years of model data and three years of observations:
    ['nyears_obs'] is 2, the model's count, where the observations have
    36 / 12 = 3 years. *)
Theorem EnsoRMSE_counts_model_years_twice :
  let T := tools unequal_lengths in
  let sst_model := CheckUnits T (ReadAndSelectRegion T (PStr "sst_model.nc") (PStr "ts") "nino3")
                     "temperature" in
  let sst_observation :=
    CheckUnits T (ReadAndSelectRegion T (PStr "sst_obs.nc") (PStr "ts") "nino3")
      "temperature" in
  shape0 T sst_model = 24 /\
  shape0 T sst_observation = 36 /\
  exists d,
    EnsoRMSE T (PStr "sst_model.nc") (PStr "ts") (PStr "sst_obs.nc") (PStr "ts") "nino3"
      (PInt 0) = Ok d /\
    rmse_nyears_model d = 2 /\
    rmse_nyears_obs d = 2 /\
    rmse_nyears_obs d <> shape0 T sst_observation / 12.
Proof.
  intros T sst_model sst_observation.
  split; [reflexivity |]. split; [reflexivity |].
  eexists. split; [reflexivity |].
  split; [reflexivity |]. split; [reflexivity |].
  vm_compute. discriminate.
Qed.

End MetricFunctionExamples.

(** ** ComputeMetric *)

Section ComputeMetricFacts.

Import EnsoMetricsLib.

Context {field grid : Type}.
Variable T : EnsoToolsLib field grid.
Variable G : Globals field.

(** Line 634 indexes the metric's name with ['nyears_model']. *)
Lemma ratio_metric_val_raises (metric modelName obsName : string)
    (metric_mod metric_obs : StatMetric) (val1 val1_err : number) :
  ratio_metric_val metric modelName obsName metric_mod metric_obs val1 val1_err
  = Raise (TypeError "string indices must be integers").
Proof. reflexivity. Qed.

Lemma joint_metric_is_EnsoRMSE (metric : string) f :
  lookup (dict_oneVar_modelAndObs T) metric = Some f -> metric = "EnsoRMSE".
Proof.
  unfold dict_oneVar_modelAndObs. cbn [lookup].
  destruct (String.eqb "EnsoRMSE" metric) eqn:E; [| discriminate].
  intros _. apply String.eqb_eq in E. symmetry. exact E.
Qed.

Lemma ratio_metric_is_not_joint (metric : string)
    (modelFile1 modelVarName1 obsFile1 obsVarName1 : pyval)
    (modelFile2 modelVarName2 obsFile2 obsVarName2 : pyval)
    (metric_mod metric_obs : StatMetric) :
  model_and_obs_metrics T G metric modelFile1 modelVarName1 obsFile1 obsVarName1
    modelFile2 modelVarName2 obsFile2 obsVarName2 = Ok (metric_mod, metric_obs) ->
  lookup (dict_oneVar_modelAndObs T) metric = None.
Proof.
  intros Hboth.
  destruct (lookup (dict_oneVar_modelAndObs T) metric) as [f |] eqn:E; [| reflexivity].
  apply joint_metric_is_EnsoRMSE in E. subst metric.
  cbn in Hboth. discriminate Hboth.
Qed.

(** [ComputeMetric] returns a dictionary for [EnsoRMSE] alone: every other
    metric ends in an exception. *)
Lemma ComputeMetric_returns_only_for_EnsoRMSE
    (MetricCollection metric modelName : string) (modelFile1 modelVarName1 : pyval)
    (obsName : string) (obsFile1 obsVarName1 : pyval)
    (regionVar1 regionVar2 modelFile2 modelVarName2 obsFile2 obsVarName2 : pyval)
    (metric_val : MetricVal) :
  ComputeMetric T G MetricCollection metric modelName modelFile1 modelVarName1
    obsName obsFile1 obsVarName1 regionVar1 regionVar2
    modelFile2 modelVarName2 obsFile2 obsVarName2 = Ok metric_val ->
  metric = "EnsoRMSE".
Proof.
  unfold ComputeMetric.
  destruct (resolve_regions G MetricCollection metric regionVar1 regionVar2)
    as [[[dict_regions r1] r2] | e]; cbn [bind]; [| discriminate].
  destruct (lookup (dict_oneVar_modelAndObs T) metric) as [f |] eqn:E.
  - intros _. exact (joint_metric_is_EnsoRMSE metric f E).
  - destruct (model_and_obs_metrics T G metric modelFile1 modelVarName1 obsFile1
                obsVarName1 modelFile2 modelVarName2 obsFile2 obsVarName2)
      as [[metric_mod metric_obs] | e]; cbn [bind]; [| discriminate].
    destruct (ratio metric_mod metric_obs) as [[val1 val1_err] | e]; cbn [bind];
      [| discriminate].
    rewrite ratio_metric_val_raises. cbn [bind]. discriminate.
Qed.

(** Lines 627-630: where the division is defined, the metric is the quotient
    of the two values and its error follows the quotient rule. *)
Lemma ratio_formula (metric_mod metric_obs : StatMetric) :
  let v1 := num_val (value metric_mod) in
  let v2 := num_val (value metric_obs) in
  let err1 := num_val (value_error metric_mod) in
  let err2 := num_val (value_error metric_obs) in
  is_np (value metric_mod) || is_np (value metric_obs) = true \/
  PrimFloat.eqb v2 0 = false ->
  exists val1 val1_err,
    ratio metric_mod metric_obs = Ok (val1, val1_err) /\
    num_val val1 = (v1 / v2)%float /\
    num_val val1_err = ((v1 * err2 + v2 * err1) / (v2 * v2))%float.
Proof.
  intros v1 v2 err1 err2 Hdefined.
  unfold ratio, num_div.
  assert (Hsq : forall a, is_np a || is_np (NUMPYsquare (value metric_obs)) = true)
    by (intros a; apply orb_true_r).
  rewrite Hsq.
  destruct (is_np (value metric_mod) || is_np (value metric_obs)) eqn:Hnp.
  - cbn [bind]. eexists. eexists. split; [reflexivity |].
    split; [reflexivity |].
    unfold num_add, num_mul, num_like, NUMPYsquare, v1, v2, err1, err2.
    repeat match goal with |- context [if ?b then _ else _] => destruct b end;
      reflexivity.
  - destruct Hdefined as [Hdefined | Hnonzero]; [discriminate Hdefined |].
    fold v2. rewrite Hnonzero. cbn [bind].
    eexists. eexists. split; [reflexivity |].
    split; [reflexivity |].
    unfold num_add, num_mul, num_like, NUMPYsquare, v1, v2, err1, err2.
    repeat match goal with |- context [if ?b then _ else _] => destruct b end;
      reflexivity.
Qed.

(** Lines 644-650: the value reported as the nonlinearity metric is the
    quotient of the two values, once more. *)
Lemma nonlinearity_channel_reuses_value_ratio
    (metric_mod metric_obs : StatMetric) (metric_val metric_val' : MetricVal) :
  nonlinearity metric_mod <> None ->
  nonlinearity_channel metric_mod metric_obs metric_val = Ok metric_val' ->
  exists val2,
    num_div (value metric_mod) (value metric_obs) = Ok val2 /\
    metric_nonlinearity metric_val' = Some val2.
Proof.
  intros Hhas. unfold nonlinearity_channel.
  destruct (nonlinearity metric_mod) as [v1 |]; [| contradiction].
  destruct (item "nonlinearity" (nonlinearity metric_obs)) as [v2 | e]; cbn [bind];
    [| discriminate].
  destruct (item "nonlinearity_error" (nonlinearity_error metric_mod)) as [err1 | e];
    cbn [bind]; [| discriminate].
  destruct (item "nonlinearity_error" (nonlinearity_error metric_obs)) as [err2 | e];
    cbn [bind]; [| discriminate].
  destruct (num_div (value metric_mod) (value metric_obs)) as [val2 | e]; cbn [bind];
    [| discriminate].
  destruct (num_div _ (NUMPYsquare v2)) as [val2_err | e]; cbn [bind]; [| discriminate].
  intros Hok. injection Hok as <-. exists val2. split; reflexivity.
Qed.

(** The region arguments do not reach the metric functions: two calls that
    differ in the regions the caller gives end alike. *)
Lemma ComputeMetric_ignores_region_arguments
    (MetricCollection metric modelName : string) (modelFile1 modelVarName1 : pyval)
    (obsName : string) (obsFile1 obsVarName1 : pyval)
    (regionVar1 regionVar2 regionVar1' regionVar2' : pyval)
    (modelFile2 modelVarName2 obsFile2 obsVarName2 : pyval) :
  truthy regionVar1 = true ->
  truthy regionVar1' = true ->
  ComputeMetric T G MetricCollection metric modelName modelFile1 modelVarName1
    obsName obsFile1 obsVarName1 regionVar1 regionVar2
    modelFile2 modelVarName2 obsFile2 obsVarName2
  = ComputeMetric T G MetricCollection metric modelName modelFile1 modelVarName1
      obsName obsFile1 obsVarName1 regionVar1' regionVar2'
      modelFile2 modelVarName2 obsFile2 obsVarName2.
Proof.
  intros H1 H1'. unfold ComputeMetric, resolve_regions.
  rewrite H1, H1'. cbn [negb].
  destruct (global "defCollection" (g_defCollection G)) as [defCollection | e];
    cbn [bind]; [| reflexivity].
  destruct (defCollection MetricCollection) as [collection | e]; cbn [bind];
    [| reflexivity].
  destruct (getitem collection (PStr "dict_of_regions")) as [all_regions | e];
    cbn [bind]; [| reflexivity].
  destruct (getitem all_regions (PStr metric)) as [dict_regions | e]; cbn [bind];
    [| reflexivity].
  destruct (global "metricReqs" (g_metricReqs G)) as [metricReqs | e]; cbn [bind];
    [| reflexivity].
  destruct (metricReqs metric) as [reqs | e]; cbn [bind]; [| reflexivity].
  destruct (getitem reqs (PStr "var_names")) as [var_names | e]; cbn [bind];
    reflexivity.
Qed.

(** C3, as amended: a zero on the observations' side is not guarded, and
    nothing of the kind of a [NumericError] is raised. With Python floats
    the ratio of line 629 raises the built-in [ZeroDivisionError]. With a
    numpy [float64] among the two values the ratio step yields a quotient
    and an error that are infinite or NaN. On the nonlinearity channel a
    zero nonlinearity of the observations raises nothing either: the error
    of the nonlinearity metric comes out infinite or NaN. *)
Theorem zero_divisor_is_not_guarded :
  (forall (MetricCollection metric modelName : string) (modelFile1 modelVarName1 : pyval)
          (obsName : string) (obsFile1 obsVarName1 : pyval)
          (regionVar1 regionVar2 modelFile2 modelVarName2 obsFile2 obsVarName2 : pyval)
          regions (metric_mod metric_obs : StatMetric),
     resolve_regions G MetricCollection metric regionVar1 regionVar2 = Ok regions ->
     model_and_obs_metrics T G metric modelFile1 modelVarName1 obsFile1 obsVarName1
       modelFile2 modelVarName2 obsFile2 obsVarName2 = Ok (metric_mod, metric_obs) ->
     is_np (value metric_mod) || is_np (value metric_obs) = false ->
     PrimFloat.eqb (num_val (value metric_obs)) 0 = true ->
     ComputeMetric T G MetricCollection metric modelName modelFile1 modelVarName1
       obsName obsFile1 obsVarName1 regionVar1 regionVar2
       modelFile2 modelVarName2 obsFile2 obsVarName2
     = Raise (ZeroDivisionError "float division by zero")) /\
  (forall metric_mod metric_obs : StatMetric,
     is_np (value metric_mod) || is_np (value metric_obs) = true ->
     PrimFloat.eqb (num_val (value metric_obs)) 0 = true ->
     exists val1 val1_err,
       ratio metric_mod metric_obs = Ok (NpFloat val1, NpFloat val1_err) /\
       PrimFloat.is_finite val1 = false /\
       PrimFloat.is_finite val1_err = false) /\
  (forall (metric_mod metric_obs : StatMetric) (metric_val : MetricVal)
          (v1 v2 err1 err2 val2 : number),
     nonlinearity metric_mod = Some v1 ->
     nonlinearity metric_obs = Some v2 ->
     nonlinearity_error metric_mod = Some err1 ->
     nonlinearity_error metric_obs = Some err2 ->
     num_div (value metric_mod) (value metric_obs) = Ok val2 ->
     PrimFloat.eqb (num_val v2) 0 = true ->
     exists metric_val' val2_err,
       nonlinearity_channel metric_mod metric_obs metric_val = Ok metric_val' /\
       metric_nonlinearity_error metric_val' = Some (NpFloat val2_err) /\
       PrimFloat.is_finite val2_err = false).
Proof.
  split_all.
  - intros * Hregions Hboth Hpy Hzero.
    unfold ComputeMetric. rewrite Hregions.
    destruct regions as [[dict_regions r1] r2]. cbn [bind].
    rewrite (ratio_metric_is_not_joint _ _ _ _ _ _ _ _ _ _ _ Hboth).
    rewrite Hboth. cbn [bind].
    unfold ratio, num_div. rewrite Hpy, Hzero. reflexivity.
  - intros metric_mod metric_obs Hnp Hzero.
    unfold ratio, num_div. rewrite Hnp. cbn [bind].
    rewrite orb_true_r. cbn [bind].
    eexists. eexists. split; [reflexivity |]. split.
    + apply div_by_zero_not_finite. exact Hzero.
    + apply div_by_zero_not_finite. cbn [NUMPYsquare num_val].
      apply square_of_zero. exact Hzero.
  - intros * Hv1 Hv2 Herr1 Herr2 Hval2 Hzero.
    unfold nonlinearity_channel.
    rewrite Hv1, Hv2, Herr1, Herr2. cbn [item bind].
    rewrite Hval2. cbn [bind].
    unfold num_div at 1. rewrite orb_true_r. cbn [bind].
    eexists. eexists. split; [reflexivity |]. split; [reflexivity |].
    apply div_by_zero_not_finite. cbn [NUMPYsquare num_val].
    apply square_of_zero. exact Hzero.
Qed.

End ComputeMetricFacts.

Section ComputeMetricExamples.

Import EnsoMetricsLib Fixture.
Local Set Warnings "-inexact-float".

(** C1 on the numbers of the specification (model 2.0 +- 0.1, observations
    1.0 +- 0.05): lines 629-630 compute the ratio 2.0 and the error 0.2, and
    [ComputeMetric] then raises [TypeError] at line 634, for the regression
    metric and for the amplitude alike; in the scope the module itself
    builds it raises [NameError] at line 604. *)
Theorem ratio_is_computed_and_never_returned :
  (exists metric_mod metric_obs,
     lhf_metric spec_example "model" = Ok metric_mod /\
     lhf_metric spec_example "obs" = Ok metric_obs /\
     (value metric_mod, value_error metric_mod) = (PyFloat 2, PyFloat 0.1) /\
     (value metric_obs, value_error metric_obs) = (PyFloat 1, PyFloat 0.05) /\
     ratio metric_mod metric_obs = Ok (PyFloat 2, NpFloat 0.2)) /\
  compute spec_example bound_scope "EnsoAlphaLhf" (PStr "") (PStr "") "lhf" "hfls"
  = Raise (TypeError "string indices must be integers") /\
  compute spec_example bound_scope "EnsoAmpl" (PStr "") (PStr "") "" ""
  = Raise (TypeError "string indices must be integers") /\
  compute spec_example (module_scope series) "EnsoAlphaLhf" (PStr "") (PStr "") "lhf" "hfls"
  = Raise (NameError "defCollection").
Proof.
  split_all.
  - eexists. eexists. split_all.
    + reflexivity.
    + reflexivity.
    + vm_compute. reflexivity.
    + vm_compute. reflexivity.
    + vm_compute. reflexivity.
  - vm_compute. reflexivity.
  - vm_compute. reflexivity.
  - vm_compute. reflexivity.
Qed.

(** C2 on slopes whose nonlinearity is 3.0 for the model and 1.0 for the
    observations, around values of 2.0 and 1.0: lines 644-650 store
    ['metric_nonlinearity'] = 2.0, the ratio of the values, where the ratio
    of the nonlinearities is 3.0; the error 0.5 is the one of the
    nonlinearities. [ComputeMetric] itself raises before it gets there. *)
Theorem nonlinearity_metric_is_the_value_ratio :
  (exists metric_mod metric_obs,
     lhf_metric nonlinear_example "model" = Ok metric_mod /\
     lhf_metric nonlinear_example "obs" = Ok metric_obs /\
     (value metric_mod, nonlinearity metric_mod) = (PyFloat 2, Some (PyFloat 3)) /\
     (value metric_obs, nonlinearity metric_obs) = (PyFloat 1, Some (PyFloat 1)) /\
     num_div (PyFloat 3) (PyFloat 1) = Ok (PyFloat 3) /\
     forall metric_val, exists metric_val',
       nonlinearity_channel metric_mod metric_obs metric_val = Ok metric_val' /\
       metric_nonlinearity metric_val' = Some (PyFloat 2) /\
       metric_nonlinearity_error metric_val' = Some (NpFloat 0.5)) /\
  compute nonlinear_example bound_scope "EnsoAlphaLhf" (PStr "") (PStr "") "lhf" "hfls"
  = Raise (TypeError "string indices must be integers").
Proof.
  split.
  - eexists. eexists. split_all.
    + reflexivity.
    + reflexivity.
    + vm_compute. reflexivity.
    + vm_compute. reflexivity.
    + vm_compute. reflexivity.
    + intros metric_val. eexists. split_all.
      * vm_compute. reflexivity.
      * vm_compute. reflexivity.
      * vm_compute. reflexivity.
  - vm_compute. reflexivity.
Qed.

Lemma zero_divisor_is_not_guarded_witness :
  compute (zero_observations false) bound_scope "EnsoAlphaLhf" (PStr "") (PStr "") "lhf" "hfls"
  = Raise (ZeroDivisionError "float division by zero") /\
  (exists metric_mod metric_obs val1 val1_err,
     lhf_metric (zero_observations true) "model" = Ok metric_mod /\
     lhf_metric (zero_observations true) "obs" = Ok metric_obs /\
     ratio metric_mod metric_obs = Ok (NpFloat val1, NpFloat val1_err) /\
     PrimFloat.is_finite val1 = false /\
     PrimFloat.is_finite val1_err = false) /\
  (exists metric_mod metric_obs,
     lhf_metric spec_example "model" = Ok metric_mod /\
     lhf_metric spec_example "obs" = Ok metric_obs /\
     nonlinearity metric_obs = Some (PyFloat 0) /\
     forall metric_val, exists metric_val' val2_err,
       nonlinearity_channel metric_mod metric_obs metric_val = Ok metric_val' /\
       metric_nonlinearity_error metric_val' = Some (NpFloat val2_err) /\
       PrimFloat.is_finite val2_err = false).
Proof.
  destruct (zero_divisor_is_not_guarded (tools (zero_observations false)) bound_scope)
    as (Hpython & Hnumpy & Hchannel).
  split_all.
  - unfold compute.
    refine (Hpython "ENSO_perf" "EnsoAlphaLhf" "model" (PStr "sst_model.nc") (PStr "ts")
              "obs" (PStr "sst_obs.nc") (PStr "ts") (PStr "") (PStr "")
              (PStr "lhf_model.nc") (PStr "hfls") (PStr "lhf_obs.nc") (PStr "hfls")
              _ _ _ _ _ _ _).
    + vm_compute. reflexivity.
    + vm_compute. reflexivity.
    + vm_compute. reflexivity.
    + vm_compute. reflexivity.
  - eexists. eexists.
    match goal with
    | |- exists a b, ?m = Ok ?x /\ ?o = Ok ?y /\ _ =>
        destruct (Hnumpy
                    (regression_metric "Latent feedback (alpha_lh)" "W/m2/C"
                       "Regression of nino3 lhfA over nino3 sstA"
                       "Using CDAT regression calculation" 400
                       (NpFloat 2, NpFloat 0.1) (NpFloat 2, NpFloat 0.1)
                       (NpFloat 2, NpFloat 0.1))
                    (regression_metric "Latent feedback (alpha_lh)" "W/m2/C"
                       "Regression of nino3 lhfA over nino3 sstA"
                       "Using CDAT regression calculation" 400
                       (NpFloat 0, NpFloat 0.05) (NpFloat 0, NpFloat 0.05)
                       (NpFloat 0, NpFloat 0.05))
                    eq_refl eq_refl)
          as (val1 & val1_err & Hratio & Hval1 & Herr)
    end.
    exists val1. exists val1_err. split_all.
    + vm_compute. reflexivity.
    + vm_compute. reflexivity.
    + exact Hratio.
    + exact Hval1.
    + exact Herr.
  - eexists. eexists. split_all.
    + vm_compute. reflexivity.
    + vm_compute. reflexivity.
    + reflexivity.
    + intros metric_val.
      refine (Hchannel _ _ metric_val (PyFloat 0.5) (PyFloat 0) (PyFloat 0.2) (PyFloat 0.1)
                (PyFloat 2) _ _ _ _ _ _); vm_compute; reflexivity.
Defined.

(** C3, as stated, fails: the observations regress with slope 0.0, and
    [ComputeMetric] raises [ZeroDivisionError], no [NumericError]. *)
Lemma zero_observation_raises_no_NumericError :
  let outcome :=
    compute (zero_observations false) bound_scope "EnsoAlphaLhf" (PStr "") (PStr "")
      "lhf" "hfls" in
  (exists metric_obs,
     lhf_metric (zero_observations false) "obs" = Ok metric_obs /\
     value metric_obs = PyFloat 0) /\
  outcome = Raise (ZeroDivisionError "float division by zero") /\
  ~ raises outcome "NumericError".
Proof.
  intros outcome.
  assert (Houtcome : outcome = Raise (ZeroDivisionError "float division by zero"))
    by (vm_compute; reflexivity).
  split_all.
  - eexists. split; [reflexivity | vm_compute; reflexivity].
  - exact Houtcome.
  - intros Hraises. apply (raises_class _ _ _ Houtcome) in Hraises.
    discriminate Hraises.
Qed.

(** C6 on [EnsoRMSE], whose default region for ['sst'] is ['nino3.4']: with
    the region ['nino4'] given by the caller, and with none given, the metric
    function is handed the global [region1] (here ['nino3']); the default of
    a second variable is looked up under [var_names[2]] and never found; in
    the scope the module builds the call raises [NameError], and with
    [defCollection] of [EnsoCollectionsLib] it raises [KeyError]. *)
Theorem region_arguments_do_not_reach_the_metric :
  getitem regions_by_metric (PStr "EnsoRMSE") = Ok (PDict [("sst", PStr "nino3.4")]) /\
  (exists metric_val,
     compute spec_example bound_scope "EnsoRMSE" (PStr "nino4") (PStr "") "" ""
     = Ok metric_val /\
     mv_method metric_val = "Spatial root mean square error SST in nino3") /\
  (exists metric_val,
     compute spec_example bound_scope "EnsoRMSE" (PStr "") (PStr "") "" ""
     = Ok metric_val /\
     mv_method metric_val = "Spatial root mean square error SST in nino3") /\
  resolve_regions bound_scope "ENSO_perf" "EnsoMu" (PStr "") (PStr "")
  = Ok (PDict [("sst", PStr "nino3"); ("taux", PStr "nino4")], PStr "nino3", PStr "") /\
  compute spec_example (module_scope series) "EnsoRMSE" (PStr "nino4") (PStr "") "" ""
  = Raise (NameError "defCollection") /\
  compute spec_example repository_scope "EnsoRMSE" (PStr "nino4") (PStr "") "" ""
  = Raise (KeyError (PStr "dict_of_regions")).
Proof.
  split_all.
  - vm_compute. reflexivity.
  - eexists. split; vm_compute; reflexivity.
  - eexists. split; vm_compute; reflexivity.
  - vm_compute. reflexivity.
  - vm_compute. reflexivity.
  - vm_compute. reflexivity.
Qed.

End ComputeMetricExamples.

(** ** Further facts *)

Section FurtherFacts.

Import EnsoMetricsLib Fixture.
Local Set Warnings "-inexact-float".

(** The joint model-and-observations metric never carries a nonlinearity:
    whenever [ComputeMetric] returns, none of the nonlinearity keys is set,
    and the metric's error is the [None] of [EnsoRMSE]. *)
Lemma returned_metric_has_no_nonlinearity {field grid : Type}
    (T : EnsoToolsLib field grid) (G : Globals field)
    (MetricCollection metric modelName : string) (modelFile1 modelVarName1 : pyval)
    (obsName : string) (obsFile1 obsVarName1 : pyval)
    (regionVar1 regionVar2 modelFile2 modelVarName2 obsFile2 obsVarName2 : pyval)
    (metric_val : MetricVal) :
  ComputeMetric T G MetricCollection metric modelName modelFile1 modelVarName1
    obsName obsFile1 obsVarName1 regionVar1 regionVar2
    modelFile2 modelVarName2 obsFile2 obsVarName2 = Ok metric_val ->
  metric_nonlinearity metric_val = None /\
  metric_nonlinearity_error metric_val = None /\
  nonlinearity_model metric_val = None /\
  nonlinearity_observations metric_val = None /\
  metric_error metric_val = None.
Proof.
  unfold ComputeMetric.
  destruct (resolve_regions G MetricCollection metric regionVar1 regionVar2)
    as [[[dict_regions r1] r2] | e]; cbn [bind]; [| discriminate].
  unfold dict_oneVar_modelAndObs. cbn [lookup].
  destruct (String.eqb "EnsoRMSE" metric).
  - destruct (global "region1" (g_region1 G)) as [region1 | e]; cbn [bind];
      [| discriminate].
    unfold EnsoRMSE. cbn [bind].
    destruct (global "Ref" (g_Ref G)) as [Ref | e]; cbn [bind]; [| discriminate].
    intros Hok. injection Hok as <-. split_all; reflexivity.
  - destruct (model_and_obs_metrics T G metric modelFile1 modelVarName1 obsFile1
                obsVarName1 modelFile2 modelVarName2 obsFile2 obsVarName2)
      as [[metric_mod metric_obs] | e]; cbn [bind]; [| discriminate].
    destruct (ratio metric_mod metric_obs) as [[val1 val1_err] | e]; cbn [bind];
      [| discriminate].
    rewrite ratio_metric_val_raises. cbn [bind]. discriminate.
Qed.

Lemma returned_metric_has_no_nonlinearity_witness :
  exists metric_val,
    compute spec_example bound_scope "EnsoRMSE" (PStr "") (PStr "") "" "" = Ok metric_val /\
    metric_nonlinearity metric_val = None /\
    metric_nonlinearity_error metric_val = None /\
    nonlinearity_model metric_val = None /\
    nonlinearity_observations metric_val = None /\
    metric_error metric_val = None.
Proof.
  destruct (compute spec_example bound_scope "EnsoRMSE" (PStr "") (PStr "") "" "")
    as [metric_val | e] eqn:Hcompute.
  - exists metric_val. split; [reflexivity |].
    unfold compute in Hcompute.
    exact (returned_metric_has_no_nonlinearity _ _ _ _ _ _ _ _ _ _ _ _ _ _ _ _ _
             Hcompute).
  - vm_compute in Hcompute. discriminate Hcompute.
Defined.

Lemma ratio_formula_witness :
  let metric_mod :=
    regression_metric "Latent feedback (alpha_lh)" "W/m2/C"
      "Regression of nino3 lhfA over nino3 sstA" "Using CDAT regression calculation" 400
      (PyFloat 2, PyFloat 0.1) (PyFloat 1.5, PyFloat 0.1) (PyFloat 2, PyFloat 0.1) in
  let metric_obs :=
    regression_metric "Latent feedback (alpha_lh)" "W/m2/C"
      "Regression of nino3 lhfA over nino3 sstA" "Using CDAT regression calculation" 400
      (PyFloat 1, PyFloat 0.05) (PyFloat 1, PyFloat 0.05) (PyFloat 1, PyFloat 0.05) in
  exists val1 val1_err,
    ratio metric_mod metric_obs = Ok (val1, val1_err) /\
    num_val val1 = (2 / 1)%float /\
    num_val val1_err = ((2 * 0.05 + 1 * 0.1) / (1 * 1))%float.
Proof.
  intros metric_mod metric_obs.
  exact (ratio_formula metric_mod metric_obs (or_intror eq_refl)).
Defined.

End FurtherFacts.

(** ** The shape of the catalogs *)

Section CatalogShapeFacts.

Import EnsoCollectionsLib CatalogShape.

Lemma dict_get_In (d : list (string * pyval)) (k : string) (v : pyval) :
  dict_get d k = Some v -> In (k, v) d.
Proof.
  induction d as [| [k' v'] d IH]; cbn; [discriminate |].
  destruct (String.eqb k' k) eqn:E.
  - intros Hv. injection Hv as ->. apply String.eqb_eq in E. subst k'. left. reflexivity.
  - intros Hv. right. exact (IH Hv).
Qed.

Lemma dict_get_present (d : list (string * pyval)) (k : string) :
  In k (dict_keys d) -> exists v, dict_get d k = Some v.
Proof.
  induction d as [| [k' v'] d IH]; cbn; [contradiction |].
  intros [Hk | Hk].
  - subst k'. rewrite String.eqb_refl. exists v'. reflexivity.
  - destruct (String.eqb k' k); [exists v'; reflexivity | exact (IH Hk)].
Qed.

Lemma getitem_str_In (v : pyval) (k : string) (x : pyval) :
  getitem v (PStr k) = Ok x -> In (k, x) (dict_items v).
Proof.
  destruct v; cbn; try discriminate.
  destruct (dict_get d k) as [y |] eqn:E; [| discriminate].
  intros Hx. injection Hx as ->. exact (dict_get_In d k x E).
Qed.

Lemma getitem_field_of (v : pyval) (k : string) (x : pyval) :
  getitem v (PStr k) = Ok x -> field_of v k = x.
Proof.
  destruct v; cbn; try discriminate. unfold field_of. cbn.
  destruct (dict_get d k) as [y |]; [| discriminate].
  intros Hx. injection Hx as ->. reflexivity.
Qed.

Lemma field_of_getitem (v : pyval) (k : string) (x : pyval) :
  field_of v k = x -> x <> PNone -> getitem v (PStr k) = Ok x.
Proof.
  unfold field_of. destruct v; cbn; try (intros <- H; contradiction H; reflexivity).
  destruct (dict_get d k) as [y |].
  - intros ->. reflexivity.
  - intros <- H. contradiction H. reflexivity.
Qed.

Lemma all_str_items (l : list pyval) :
  forallb is_str l = true -> l = map PStr (str_items (PList l)).
Proof.
  unfold str_items. cbn [list_items].
  induction l as [| x l IH]; cbn; [reflexivity |].
  intros H. apply andb_prop in H. destruct H as [Hx Hl].
  destruct x; try discriminate Hx. cbn. f_equal. exact (IH Hl).
Qed.

Lemma lookup_is_getitem_unless_True (c : catalog) (k : pyval) :
  k <> PBool true -> catalog_lookup c k = getitem (catalog_data c) k.
Proof.
  intros Hk. destruct c; destruct k as [| b | | | | | |]; try reflexivity;
    destruct b; try reflexivity; contradiction Hk; reflexivity.
Qed.

Lemma listed_collection_is_found (id : string) :
  In id (catalog_ids metrics_collection) ->
  exists collection,
    catalog_lookup Collections (PStr id) = Ok collection /\
    In (id, collection) (dict_items metrics_collection).
Proof.
  intros Hid. rewrite lookup_is_getitem.
  change (catalog_data Collections) with metrics_collection.
  change metrics_collection with (PDict (dict_items metrics_collection)) in Hid |- * at 1.
  destruct (dict_get_present _ _ Hid) as [entry Hentry].
  exists entry. split.
  - cbn [getitem]. rewrite Hentry. reflexivity.
  - exact (dict_get_In _ _ _ Hentry).
Qed.

(** An identifier that a catalog lists is found, and what is found is the
    entry of the catalog. *)
Theorem catalogued_id_is_found (c : catalog) (id : string) :
  In id (catalog_ids (catalog_data c)) ->
  exists entry,
    catalog_lookup c (PStr id) = Ok entry /\
    In (id, entry) (dict_items (catalog_data c)).
Proof.
  intros Hid. rewrite lookup_is_getitem.
  rewrite (catalog_data_is_dict c) in Hid |- *.
  destruct (dict_get_present _ _ Hid) as [entry Hentry].
  exists entry. split.
  - cbn. cbn in Hentry. rewrite Hentry. reflexivity.
  - exact (dict_get_In _ _ _ Hentry).
Qed.

Lemma catalogued_id_is_found_witness :
  exists entry,
    catalog_lookup Observations (PStr "HadISST") = Ok entry /\
    In ("HadISST", entry) (dict_items (catalog_data Observations)).
Proof.
  apply (catalogued_id_is_found Observations "HadISST").
  apply In_existsb. vm_compute. reflexivity.
Defined.

(** The default argument [True] returns the whole catalog; any other
    identifier that is no string raises [KeyError] when it can be hashed
    and [TypeError] when it cannot (a list, a dictionary). *)
Theorem non_string_id_is_refused (c : catalog) (k : pyval) :
  is_str k = false ->
  catalog_lookup c k =
  match k with
  | PBool true => Ok (catalog_data c)
  | _ => if hashable k then Raise (KeyError k) else Raise (TypeError "unhashable type")
  end.
Proof.
  intros Hk.
  destruct k as [| b | z | x | s | l | l | d]; try discriminate Hk.
  - rewrite lookup_is_getitem_unless_True by discriminate.
    rewrite (catalog_data_is_dict c). reflexivity.
  - destruct b.
    + destruct c; reflexivity.
    + rewrite lookup_is_getitem_unless_True by discriminate.
      rewrite (catalog_data_is_dict c). reflexivity.
  - rewrite lookup_is_getitem_unless_True by discriminate.
    rewrite (catalog_data_is_dict c). reflexivity.
  - rewrite lookup_is_getitem_unless_True by discriminate.
    rewrite (catalog_data_is_dict c). reflexivity.
  - rewrite lookup_is_getitem_unless_True by discriminate.
    rewrite (catalog_data_is_dict c). reflexivity.
  - rewrite lookup_is_getitem_unless_True by discriminate.
    rewrite (catalog_data_is_dict c). reflexivity.
  - rewrite lookup_is_getitem_unless_True by discriminate.
    rewrite (catalog_data_is_dict c). reflexivity.
Qed.

Lemma non_string_id_is_refused_witness :
  catalog_lookup Regions (PList [PStr "nino3"; PStr "nino4"])
  = Raise (TypeError "unhashable type") /\
  catalog_lookup Regions (PInt 3) = Raise (KeyError (PInt 3)) /\
  catalog_lookup Collections (PBool true) = Ok metrics_collection.
Proof.
  split_all.
  - exact (non_string_id_is_refused Regions (PList [PStr "nino3"; PStr "nino4"]) eq_refl).
  - exact (non_string_id_is_refused Regions (PInt 3) eq_refl).
  - exact (non_string_id_is_refused Collections (PBool true) eq_refl).
Defined.

End CatalogShapeFacts.

Section CatalogInvariants.

Import EnsoCollectionsLib CatalogShape.

Lemma forallb_In {A : Type} (f : A -> bool) (l : list A) (x : A) :
  forallb f l = true -> In x l -> f x = true.
Proof. intros H Hx. exact (proj1 (forallb_forall f l) H x Hx). Qed.

Lemma is_str_inv (v : pyval) : is_str v = true -> exists s, v = PStr s.
Proof. destruct v; try discriminate. intros _. eexists. reflexivity. Qed.

Lemma pair_is_not_None (v : pyval) (p : float * float) : pair_of v = Some p -> v <> PNone.
Proof. intros Hp Hv. subst v. discriminate Hp. Qed.

(** Every region of [ReferenceRegions] has a name, a latitude range within
    -90..90 and a longitude range that starts at or above 0, each with its
    lower bound strictly below its upper bound. *)
Theorem regions_are_well_formed (id : string) (region : pyval) :
  ReferenceRegions (PStr id) = Ok region ->
  exists name latitude longitude south north west east,
    getitem region (PStr "long_name") = Ok (PStr name) /\
    getitem region (PStr "latitude") = Ok latitude /\
    pair_of latitude = Some (south, north) /\
    getitem region (PStr "longitude") = Ok longitude /\
    pair_of longitude = Some (west, east) /\
    PrimFloat.leb (-90)%float south = true /\
    PrimFloat.ltb south north = true /\
    PrimFloat.leb north 90%float = true /\
    PrimFloat.leb 0%float west = true /\
    PrimFloat.ltb west east = true.
Proof.
  intros Hlookup.
  apply getitem_str_In in Hlookup.
  assert (Hall : forallb (fun kv => region_well_formed (snd kv))
                   (dict_items dict_reference_regions) = true)
    by (vm_compute; reflexivity).
  pose proof (forallb_In _ _ _ Hall Hlookup) as Hregion. cbn [snd] in Hregion.
  unfold region_well_formed in Hregion.
  apply andb_prop in Hregion. destruct Hregion as [Hname Hbox].
  destruct (is_str_inv _ Hname) as [name Hname'].
  destruct (pair_of (field_of region "latitude")) as [[south north] |] eqn:Hlat;
    [| discriminate Hbox].
  destruct (pair_of (field_of region "longitude")) as [[west east] |] eqn:Hlon;
    [| discriminate Hbox].
  repeat (apply andb_prop in Hbox; destruct Hbox as [Hbox ?]).
  exists name, (field_of region "latitude"), (field_of region "longitude"),
         south, north, west, east.
  split_all; try assumption.
  - apply field_of_getitem; [exact Hname' | discriminate].
  - apply field_of_getitem; [reflexivity | exact (pair_is_not_None _ _ Hlat)].
  - apply field_of_getitem; [reflexivity | exact (pair_is_not_None _ _ Hlon)].
Qed.

Lemma regions_are_well_formed_witness :
  exists name latitude longitude south north west east,
    getitem (field_of dict_reference_regions "africaSE") (PStr "long_name") = Ok (PStr name) /\
    getitem (field_of dict_reference_regions "africaSE") (PStr "latitude") = Ok latitude /\
    pair_of latitude = Some (south, north) /\
    getitem (field_of dict_reference_regions "africaSE") (PStr "longitude") = Ok longitude /\
    pair_of longitude = Some (west, east) /\
    PrimFloat.leb (-90)%float south = true /\
    PrimFloat.ltb south north = true /\
    PrimFloat.leb north 90%float = true /\
    PrimFloat.leb 0%float west = true /\
    PrimFloat.ltb west east = true.
Proof.
  apply (regions_are_well_formed "africaSE").
  vm_compute. reflexivity.
Defined.

Lemma str_items_length (l : list pyval) :
  forallb is_str l = true -> List.length (str_items (PList l)) = List.length l.
Proof.
  intros Hl. rewrite (all_str_items l Hl) at 2. rewrite length_map. reflexivity.
Qed.

Lemma variable_entry_shape (entry : pyval) :
  variable_entry_well_formed entry = true ->
  (exists name,
     getitem entry (PStr "var_name") = Ok (PStr name) /\
     getitem entry (PStr "algebric_calculation")
     = Raise (KeyError (PStr "algebric_calculation"))) \/
  (exists names signs,
     getitem entry (PStr "var_name") = Ok (PList (map PStr names)) /\
     getitem entry (PStr "algebric_calculation") = Ok (PList (map PStr signs)) /\
     List.length signs = List.length names /\
     forall sign, In sign signs -> sign = "plus" \/ sign = "minus").
Proof.
  unfold variable_entry_well_formed.
  destruct (field_of entry "var_name") as [| | | | name | names | |] eqn:Hvar;
    try discriminate.
  - intros Hno. left. exists name. split.
    + apply field_of_getitem; [exact Hvar | discriminate].
    + apply negb_true_iff in Hno. unfold has_key in Hno.
      unfold field_of in Hvar.
      destruct entry; cbn in Hvar; try discriminate Hvar.
      cbn in Hno |- *. destruct (dict_get d "algebric_calculation"); [discriminate |].
      reflexivity.
  - destruct (field_of entry "algebric_calculation") as [| | | | | signs | |] eqn:Hcalc;
      try discriminate.
    intros H.
    apply andb_prop in H. destruct H as [H Hsigns].
    apply andb_prop in H. destruct H as [H Hlen].
    apply andb_prop in H. destruct H as [Hnames Hstr].
    right. exists (str_items (PList names)), (str_items (PList signs)).
    split_all.
    + rewrite <- (all_str_items names Hnames).
      apply field_of_getitem; [exact Hvar | discriminate].
    + rewrite <- (all_str_items signs Hstr).
      apply field_of_getitem; [exact Hcalc | discriminate].
    + rewrite (str_items_length names Hnames), (str_items_length signs Hstr).
      apply Nat.eqb_eq. exact Hlen.
    + intros sign Hsign.
      pose proof (forallb_In _ _ _ Hsigns Hsign) as Hs. unfold is_sign in Hs.
      apply orb_prop in Hs. destruct Hs as [Hs | Hs]; apply String.eqb_eq in Hs;
        [left | right]; exact Hs.
Qed.

(** Every variable of every dataset of [ReferenceObservations] is named
    either by one name in the file, without signs, or by a list of names
    with a list of as many signs, each ['plus'] or ['minus']. *)
Theorem observation_variables_are_well_formed (dataset variable : string)
    (description entry : pyval) :
  ReferenceObservations (PStr dataset) = Ok description ->
  getitem (field_of description "variable_name_in_file") (PStr variable) = Ok entry ->
  (exists name,
     getitem entry (PStr "var_name") = Ok (PStr name) /\
     getitem entry (PStr "algebric_calculation")
     = Raise (KeyError (PStr "algebric_calculation"))) \/
  (exists names signs,
     getitem entry (PStr "var_name") = Ok (PList (map PStr names)) /\
     getitem entry (PStr "algebric_calculation") = Ok (PList (map PStr signs)) /\
     List.length signs = List.length names /\
     forall sign, In sign signs -> sign = "plus" \/ sign = "minus").
Proof.
  intros Hdataset Hvariable.
  apply getitem_str_In in Hdataset. apply getitem_str_In in Hvariable.
  assert (Hall : forallb (fun kv => variables_well_formed (snd kv))
                   (dict_items dict_ref_obs) = true)
    by (vm_compute; reflexivity).
  pose proof (forallb_In _ _ _ Hall Hdataset) as Hdescription.
  cbn [snd] in Hdescription. unfold variables_well_formed in Hdescription.
  pose proof (forallb_In _ _ _ Hdescription Hvariable) as Hentry.
  exact (variable_entry_shape entry Hentry).
Qed.

Lemma observation_variables_are_well_formed_witness :
  let entry :=
    field_of (field_of (field_of dict_ref_obs "ERA-Interim") "variable_name_in_file") "thf" in
  (exists name,
     getitem entry (PStr "var_name") = Ok (PStr name) /\
     getitem entry (PStr "algebric_calculation")
     = Raise (KeyError (PStr "algebric_calculation"))) \/
  (exists names signs,
     getitem entry (PStr "var_name") = Ok (PList (map PStr names)) /\
     getitem entry (PStr "algebric_calculation") = Ok (PList (map PStr signs)) /\
     List.length signs = List.length names /\
     forall sign, In sign signs -> sign = "plus" \/ sign = "minus").
Proof.
  intros entry.
  apply (observation_variables_are_well_formed "ERA-Interim" "thf"
           (field_of dict_ref_obs "ERA-Interim") entry).
  - vm_compute. reflexivity.
  - vm_compute. reflexivity.
Defined.

(** The variables of [CmipVariables] have the same shape. *)
Lemma cmip_variables_are_well_formed (variable : string) (entry : pyval) :
  getitem (field_of CmipVariables "variable_name_in_file") (PStr variable) = Ok entry ->
  (exists name,
     getitem entry (PStr "var_name") = Ok (PStr name) /\
     getitem entry (PStr "algebric_calculation")
     = Raise (KeyError (PStr "algebric_calculation"))) \/
  (exists names signs,
     getitem entry (PStr "var_name") = Ok (PList (map PStr names)) /\
     getitem entry (PStr "algebric_calculation") = Ok (PList (map PStr signs)) /\
     List.length signs = List.length names /\
     forall sign, In sign signs -> sign = "plus" \/ sign = "minus").
Proof.
  intros Hvariable. apply getitem_str_In in Hvariable.
  assert (Hall : variables_well_formed CmipVariables = true) by (vm_compute; reflexivity).
  unfold variables_well_formed in Hall.
  exact (variable_entry_shape entry (forallb_In _ _ _ Hall Hvariable)).
Qed.

Lemma cmip_variables_are_well_formed_witness :
  let entry := field_of (field_of CmipVariables "variable_name_in_file") "lwr" in
  (exists name,
     getitem entry (PStr "var_name") = Ok (PStr name) /\
     getitem entry (PStr "algebric_calculation")
     = Raise (KeyError (PStr "algebric_calculation"))) \/
  (exists names signs,
     getitem entry (PStr "var_name") = Ok (PList (map PStr names)) /\
     getitem entry (PStr "algebric_calculation") = Ok (PList (map PStr signs)) /\
     List.length signs = List.length names /\
     forall sign, In sign signs -> sign = "plus" \/ sign = "minus").
Proof.
  intros entry.
  apply (cmip_variables_are_well_formed "lwr" entry).
  vm_compute. reflexivity.
Defined.

Lemma metric_spec_is_listed (mc metric : string) (collection spec : pyval) :
  defCollection (PStr mc) = Ok collection ->
  getitem (field_of collection "metrics_list") (PStr metric) = Ok spec ->
  In (mc, metric, spec) all_metric_specs.
Proof.
  intros Hcollection Hspec.
  apply getitem_str_In in Hcollection. apply getitem_str_In in Hspec.
  unfold all_metric_specs. apply in_flat_map.
  exists (mc, collection). split; [exact Hcollection |].
  cbn [fst snd]. apply in_map_iff. exists (metric, spec). split; [reflexivity | exact Hspec].
Qed.

(** Every metric of every collection names one or two variables, and for
    each of them ['regions'] gives a region that [ReferenceRegions] holds. *)
Theorem metric_regions_are_catalogued (mc metric : string) (collection spec : pyval) :
  defCollection (PStr mc) = Ok collection ->
  getitem (field_of collection "metrics_list") (PStr metric) = Ok spec ->
  exists variables,
    getitem spec (PStr "variables") = Ok (PList (map PStr variables)) /\
    (List.length variables = 1%nat \/ List.length variables = 2%nat) /\
    forall variable, In variable variables ->
      exists region entry,
        getitem (field_of spec "regions") (PStr variable) = Ok (PStr region) /\
        ReferenceRegions (PStr region) = Ok entry.
Proof.
  intros Hcollection Hspec.
  pose proof (metric_spec_is_listed mc metric collection spec Hcollection Hspec) as Hin.
  assert (Hall : forallb (fun x => metric_regions_catalogued (snd x)) all_metric_specs = true)
    by (vm_compute; reflexivity).
  pose proof (forallb_In _ _ _ Hall Hin) as Hok. cbn [snd] in Hok.
  unfold metric_regions_catalogued in Hok.
  apply andb_prop in Hok. destruct Hok as [Hok Hregions].
  apply andb_prop in Hok. destruct Hok as [Hstr Harity].
  exists (str_items (field_of spec "variables")).
  split_all.
  - destruct (field_of spec "variables") as [| | | | | l | l |] eqn:Hvariables;
      try (cbn in Harity; discriminate Harity).
    + rewrite <- (all_str_items l Hstr).
      apply field_of_getitem; [exact Hvariables | discriminate].
    + exfalso.
      assert (Hall' : forallb (fun x => match field_of (snd x) "variables" with
                                         | PTuple _ => false
                                         | _ => true
                                         end) all_metric_specs = true)
        by (vm_compute; reflexivity).
      pose proof (forallb_In _ _ _ Hall' Hin) as Hno. cbn [snd] in Hno.
      rewrite Hvariables in Hno. discriminate Hno.
  - apply orb_prop in Harity. destruct Harity as [H | H]; apply Nat.eqb_eq in H;
      [left | right]; exact H.
  - intros variable Hvariable.
    pose proof (forallb_In _ _ _ Hregions Hvariable) as Hregion.
    cbv beta in Hregion.
    destruct (field_of (field_of spec "regions") variable) as [| | | | region | | |] eqn:E;
      try discriminate Hregion.
    unfold has_key in Hregion.
    destruct (dict_get (dict_items dict_reference_regions) region) as [entry |] eqn:Hentry;
      [| discriminate Hregion].
    exists region, entry. split.
    + apply field_of_getitem; [exact E | discriminate].
    + change (getitem (PDict (dict_items dict_reference_regions)) (PStr region) = Ok entry).
      cbn [getitem]. rewrite Hentry. reflexivity.
Qed.

Lemma metric_regions_are_catalogued_witness :
  let spec := field_of (field_of (field_of metrics_collection "ENSO_proc") "metrics_list")
                "EnsoFbSstTaux" in
  exists variables,
    getitem spec (PStr "variables") = Ok (PList (map PStr variables)) /\
    (List.length variables = 1%nat \/ List.length variables = 2%nat) /\
    forall variable, In variable variables ->
      exists region entry,
        getitem (field_of spec "regions") (PStr variable) = Ok (PStr region) /\
        ReferenceRegions (PStr region) = Ok entry.
Proof.
  intros spec.
  apply (metric_regions_are_catalogued "ENSO_proc" "EnsoFbSstTaux"
           (field_of metrics_collection "ENSO_proc") spec).
  - vm_compute. reflexivity.
  - vm_compute. reflexivity.
Defined.

Lemma has_key_getitem (v : pyval) (key : string) :
  has_key v key = true -> exists x, getitem v (PStr key) = Ok x.
Proof.
  unfold has_key. destruct v; cbn; try discriminate.
  destruct (dict_get d key) as [x |]; [| discriminate].
  intros _. exists x. reflexivity.
Qed.

(** Every collection of [defCollection] has a name, a description and a
    plot order of strings, the seven common parameters, and at least one
    metric; every metric has its ['variables'], ['regions'] and
    ['obs_name']. *)
Theorem collections_are_well_formed (mc : string) (collection : pyval) :
  defCollection (PStr mc) = Ok collection ->
  (exists name description order,
     getitem collection (PStr "long_name") = Ok (PStr name) /\
     getitem collection (PStr "description") = Ok (PStr description) /\
     getitem collection (PStr "plot_order") = Ok (PList (map PStr order))) /\
  (forall parameter,
     In parameter common_parameters ->
     exists v,
       getitem (field_of collection "common_collection_parameters") (PStr parameter)
       = Ok v) /\
  dict_items (field_of collection "metrics_list") <> [] /\
  (forall metric spec key,
     getitem (field_of collection "metrics_list") (PStr metric) = Ok spec ->
     In key metric_keys ->
     exists v, getitem spec (PStr key) = Ok v).
Proof.
  intros Hcollection. apply getitem_str_In in Hcollection.
  assert (Hall : forallb (fun kv => collection_well_formed (snd kv))
                   (dict_items metrics_collection) = true)
    by (vm_compute; reflexivity).
  pose proof (forallb_In _ _ _ Hall Hcollection) as Hok. cbn [snd] in Hok.
  unfold collection_well_formed in Hok.
  repeat match type of Hok with
         | _ && _ = true => let H := fresh "H" in apply andb_prop in Hok; destruct Hok as [Hok H]
         end.
  rename Hok into Hname, H3 into Hdescription, H2 into Horder, H1 into Hparameters,
         H0 into Hmetrics, H into Hkeys.
  split_all.
  - destruct (is_str_inv _ Hname) as [name Ename].
    destruct (is_str_inv _ Hdescription) as [description Edescription].
    destruct (field_of collection "plot_order") as [| | | | | order | |] eqn:Eorder;
      try discriminate Horder.
    exists name, description, (str_items (PList order)). split_all.
    + apply field_of_getitem; [exact Ename | discriminate].
    + apply field_of_getitem; [exact Edescription | discriminate].
    + apply field_of_getitem; [| discriminate].
      rewrite Eorder. f_equal. exact (all_str_items order Horder).
  - intros parameter Hparameter. apply has_key_getitem.
    exact (forallb_In _ _ _ Hparameters Hparameter).
  - intros Hnone. rewrite Hnone in Hmetrics. discriminate Hmetrics.
  - intros metric spec key Hspec Hkey. apply getitem_str_In in Hspec.
    apply has_key_getitem.
    pose proof (forallb_In _ _ _ Hkeys Hspec) as Hspec_keys. cbn [snd] in Hspec_keys.
    exact (forallb_In _ _ _ Hspec_keys Hkey).
Qed.

Lemma collections_are_well_formed_witness :
  let collection := field_of metrics_collection "ENSO_tel" in
  (exists name description order,
     getitem collection (PStr "long_name") = Ok (PStr name) /\
     getitem collection (PStr "description") = Ok (PStr description) /\
     getitem collection (PStr "plot_order") = Ok (PList (map PStr order))) /\
  (forall parameter,
     In parameter common_parameters ->
     exists v,
       getitem (field_of collection "common_collection_parameters") (PStr parameter)
       = Ok v) /\
  dict_items (field_of collection "metrics_list") <> [] /\
  (forall metric spec key,
     getitem (field_of collection "metrics_list") (PStr metric) = Ok spec ->
     In key metric_keys ->
     exists v, getitem spec (PStr key) = Ok v).
Proof.
  intros collection.
  apply (collections_are_well_formed "ENSO_tel" collection).
  vm_compute. reflexivity.
Defined.

End CatalogInvariants.

(** ** Infinities and NaN through the arithmetic *)

Section NonFinite.

Local Open Scope float_scope.

Local Abbreviation nonfinite r :=
  (Prim2SF r = S754_nan \/ exists s, Prim2SF r = S754_infinity s).

Lemma div_by_zero_nonfinite (x z : float) (s : bool) :
  Prim2SF z = S754_zero s -> nonfinite (x / z).
Proof.
  intros Hz. rewrite FloatAxioms.div_spec, Hz. unfold SF64div.
  destruct (Prim2SF x) as [sx | sx | | sx mx ex]; cbn.
  - left; reflexivity.
  - right; eexists; reflexivity.
  - left; reflexivity.
  - right; eexists; reflexivity.
Qed.

Lemma div_by_nan_nonfinite (x z : float) : Prim2SF z = S754_nan -> nonfinite (x / z).
Proof.
  intros Hz. left. rewrite FloatAxioms.div_spec, Hz. unfold SF64div.
  destruct (Prim2SF x); reflexivity.
Qed.

Lemma div_of_nonfinite (x y : float) : nonfinite x -> nonfinite (x / y).
Proof.
  intros [Hx | [s Hx]]; rewrite FloatAxioms.div_spec, Hx; unfold SF64div.
  - left. reflexivity.
  - destruct (Prim2SF y) as [sy | sy | | sy my ey]; cbn.
    + right; eexists; reflexivity.
    + left; reflexivity.
    + left; reflexivity.
    + right; eexists; reflexivity.
Qed.

Lemma mul_by_nonfinite (x y : float) : nonfinite y -> nonfinite (x * y).
Proof.
  intros [Hy | [s Hy]]; rewrite FloatAxioms.mul_spec, Hy; unfold SF64mul.
  - left. destruct (Prim2SF x); reflexivity.
  - destruct (Prim2SF x) as [sx | sx | | sx mx ex]; cbn.
    + left; reflexivity.
    + right; eexists; reflexivity.
    + left; reflexivity.
    + right; eexists; reflexivity.
Qed.

Lemma add_of_nonfinite (x y : float) : nonfinite x -> nonfinite (x + y).
Proof.
  intros [Hx | [s Hx]]; rewrite FloatAxioms.add_spec, Hx; unfold SF64add.
  - left. reflexivity.
  - destruct (Prim2SF y) as [sy | sy | | sy my ey]; cbn.
    + right; eexists; reflexivity.
    + destruct s, sy; cbn; (left; reflexivity) || (right; eexists; reflexivity).
    + left; reflexivity.
    + right; eexists; reflexivity.
Qed.

End NonFinite.

(** ** The one-variable metrics *)

Section OneVariableMetrics.

Import EnsoMetricsLib.
Local Open Scope float_scope.

Context {field grid : Type}.
Variable T : EnsoToolsLib field grid.

Local Abbreviation read := (ReadAndSelectRegion T).

Lemma years_of_short_series (n : Z) : (0 <= n < 12)%Z -> (n / 12 = 0)%Z.
Proof. intros Hn. apply Z.div_small. exact Hn. Qed.

(** With less than a year of months the year count of [EnsoAmpl] is 0 and
    its standard error is an infinity or a NaN. *)
Theorem EnsoAmpl_of_short_series (sstfile sstname : pyval) (ninobox : string) :
  let sst := CheckUnits T (read sstfile sstname ninobox) "temperature" in
  (0 <= shape0 T sst < 12)%Z ->
  exists d,
    EnsoAmpl T sstfile sstname ninobox = Ok d /\
    nyears d = 0%Z /\
    PrimFloat.is_finite (num_val (value_error d)) = false.
Proof.
  intros sst Hshort. unfold EnsoAmpl. fold sst.
  unfold num_div, NUMPYsqrt. cbn [is_np]. rewrite orb_true_r. cbn [bind num_val].
  rewrite (years_of_short_series _ Hshort).
  eexists. split_all.
  - reflexivity.
  - reflexivity.
  - cbn [value_error num_val].
    apply div_by_zero_not_finite. vm_compute. reflexivity.
Qed.

(** [EnsoSeasonality] raises [ZeroDivisionError] when the two seasonal
    standard deviations are Python floats and the one of MAM is zero; in
    every other case it returns, with the ratio NDJ / MAM as a Python float
    for ['value'] and a Python float for ['value_error']. *)
Theorem EnsoSeasonality_outcome (sstfile sstname : pyval) (ninobox : string) :
  let sst := CheckUnits T (read sstfile sstname ninobox) "temperature" in
  let sst_NDJ_std := ComputeStd T (SpatialAverage T (SeasonalMean T sst "NDJ")) in
  let sst_MAM_std := ComputeStd T (SpatialAverage T (SeasonalMean T sst "MAM")) in
  (is_np sst_NDJ_std || is_np sst_MAM_std = false /\
   PrimFloat.eqb (num_val sst_MAM_std) 0 = true ->
   EnsoSeasonality T sstfile sstname ninobox
   = Raise (ZeroDivisionError "float division by zero")) /\
  (is_np sst_NDJ_std || is_np sst_MAM_std = true \/
   PrimFloat.eqb (num_val sst_MAM_std) 0 = false ->
   exists d,
     EnsoSeasonality T sstfile sstname ninobox = Ok d /\
     value d = PyFloat (num_val sst_NDJ_std / num_val sst_MAM_std) /\
     is_np (value_error d) = false /\
     nyears d = (shape0 T sst / 12)%Z /\
     nonlinearity d = None).
Proof.
  intros sst sst_NDJ_std sst_MAM_std. split.
  - intros [Hpy Hzero]. unfold EnsoSeasonality.
    fold sst. fold sst_NDJ_std. fold sst_MAM_std.
    unfold num_div at 1. rewrite Hpy, Hzero. reflexivity.
  - intros Hdefined. unfold EnsoSeasonality.
    fold sst. fold sst_NDJ_std. fold sst_MAM_std.
    assert (Hq : exists q, num_div sst_NDJ_std sst_MAM_std = Ok q /\
                           num_val q = num_val sst_NDJ_std / num_val sst_MAM_std).
    { unfold num_div.
      destruct (is_np sst_NDJ_std || is_np sst_MAM_std).
      - eexists. split; reflexivity.
      - destruct Hdefined as [H | H]; [discriminate H |]. rewrite H.
        eexists. split; reflexivity. }
    destruct Hq as (q & Hq & Hqval). rewrite Hq. cbn [bind].
    unfold num_div, NUMPYsqrt, NUMPYsquare. cbn [is_np bind].
    repeat (rewrite orb_true_r; cbn [is_np bind]). eexists. split; [reflexivity |]. cbn [value value_error nyears nonlinearity].
    split_all; try reflexivity.
    unfold py_float. rewrite Hqval. reflexivity.
Qed.

(** With less than two years of months, whenever [EnsoSeasonality] returns,
    its ['value_error'] is an infinity or a NaN: the NDJ standard error is
    divided by the square root of [yearN - 1]. *)
Theorem EnsoSeasonality_of_short_series (sstfile sstname : pyval) (ninobox : string) :
  let sst := CheckUnits T (read sstfile sstname ninobox) "temperature" in
  let sst_NDJ_std := ComputeStd T (SpatialAverage T (SeasonalMean T sst "NDJ")) in
  let sst_MAM_std := ComputeStd T (SpatialAverage T (SeasonalMean T sst "MAM")) in
  (0 <= shape0 T sst < 24)%Z ->
  is_np sst_NDJ_std || is_np sst_MAM_std = true \/
  PrimFloat.eqb (num_val sst_MAM_std) 0 = false ->
  exists d,
    EnsoSeasonality T sstfile sstname ninobox = Ok d /\
    PrimFloat.is_finite (num_val (value_error d)) = false.
Proof.
  intros sst sst_NDJ_std sst_MAM_std Hshort Hdefined.
  unfold EnsoSeasonality. fold sst. fold sst_NDJ_std. fold sst_MAM_std.
  assert (Hq : exists q, num_div sst_NDJ_std sst_MAM_std = Ok q).
  { unfold num_div.
    destruct (is_np sst_NDJ_std || is_np sst_MAM_std).
    - eexists. reflexivity.
    - destruct Hdefined as [H | H]; [discriminate H |]. rewrite H.
      eexists. reflexivity. }
  destruct Hq as (q & Hq). rewrite Hq. cbn [bind].
  unfold num_div, NUMPYsqrt, NUMPYsquare. cbn [is_np bind].
  repeat (rewrite orb_true_r; cbn [is_np bind]). eexists. split; [reflexivity |].
  cbn [value_error py_float num_val].
  apply nan_or_infinity_not_finite. apply div_of_nonfinite.
  unfold num_add, num_mul, num_like. cbn [is_np]. rewrite !orb_true_r. cbn [num_val].
  apply add_of_nonfinite. apply mul_by_nonfinite.
  assert (Hyears : (shape0 T sst / 12 = 0 \/ shape0 T sst / 12 = 1)%Z).
  { assert (0 <= shape0 T sst / 12 < 2)%Z; [| lia].
    split.
    - apply Z.div_pos; lia.
    - apply Z.div_lt_upper_bound; lia. }
  destruct Hyears as [Hy | Hy]; rewrite Hy.
  - apply div_by_nan_nonfinite. vm_compute. reflexivity.
  - apply (div_by_zero_nonfinite _ _ false). vm_compute. reflexivity.
Qed.

End OneVariableMetrics.

(** ** Fluxes given as lists of files *)

Section ListsOfFiles.

Import EnsoMetricsLib.
Local Open Scope Z_scope.

Context {field grid : Type}.
Variable T : EnsoToolsLib field grid.

Local Abbreviation regress := (get_slope_linear_regression_from_anomaly T).
Local Abbreviation read := (ReadAndSelectRegion T).
Local Abbreviation checked file fname box := (CheckUnits T (read file fname box) "heat flux").

(** [EnsoAlphaThf] on a list of files and a list of at least as many names:
    the total heat flux is the first field plus each later one in turn (no
    sign is applied), and the metric reports its three regressions onto the
    SST. *)
Theorem EnsoAlphaThf_adds_the_listed_fluxes (sstfile sstname : pyval)
    (sstbox thfbox : string) (file name : pyval) (files names : list pyval) :
  (List.length files <= List.length names)%nat ->
  let sst := CheckUnits T (read sstfile sstname sstbox) "temperature" in
  let thf :=
    fold_left (field_add T)
      (map (fun fn => checked (fst fn) (snd fn) thfbox) (combine files names))
      (checked file name thfbox) in
  exists d,
    EnsoAlphaThf T sstfile (PList (file :: files)) sstname (PList (name :: names))
      sstbox thfbox = Ok d /\
    reports_regressions (regress thf sst 0) (regress thf sst 1) (regress thf sst (-1)) d.
Proof.
  intros Hlen sst thf. unfold EnsoAlphaThf, read_total_heat_flux.
  change 0 with (Z.of_nat 0).
  rewrite read_terms_of_lists by (cbn [List.length]; lia).
  cbn [bind skipn combine map fst snd].
  eexists. split; [reflexivity | apply regression_metric_reports].
Qed.

(** What [EnsoAlphaThf] does with a flux it cannot read: an empty list of
    files, or an argument that is neither a string nor a list, leaves [thf]
    unassigned ([UnboundLocalError]); a list of names shorter than the list
    of files raises [IndexError]. *)
Theorem EnsoAlphaThf_refuses_malformed_fluxes (sstfile sstname : pyval)
    (sstbox thfbox : string) :
  (forall thfname,
     EnsoAlphaThf T sstfile (PList []) sstname thfname sstbox thfbox
     = Raise (UnboundLocalError "thf")) /\
  (forall thffile thfname,
     match thffile with PStr _ | PList _ => False | _ => True end ->
     EnsoAlphaThf T sstfile thffile sstname thfname sstbox thfbox
     = Raise (UnboundLocalError "thf")) /\
  (forall files names,
     (List.length names < List.length files)%nat ->
     EnsoAlphaThf T sstfile (PList files) sstname (PList names) sstbox thfbox
     = Raise (IndexError "list index out of range")).
Proof.
  split_all.
  - intros thfname. reflexivity.
  - intros thffile thfname Hkind.
    destruct thffile; try contradiction Hkind; reflexivity.
  - intros files names Hlen. unfold EnsoAlphaThf, read_total_heat_flux.
    change 0 with (Z.of_nat 0).
    rewrite read_terms_of_short_names.
    + reflexivity.
    + cbn. exact Hlen.
    + intros Hnil. subst files. cbn in Hlen. lia.
Qed.

(** [EnsoAlphaLwr] and [EnsoAlphaSwr] on a list of files: the net radiation
    is the first field minus the second, further files and names are not
    looked at, and the metric reports its three regressions onto the SST. *)
Theorem net_radiation_is_first_minus_second (sstfile sstname : pyval)
    (sstbox box : string) (down up name_down name_up : pyval) (files names : list pyval) :
  let sst := CheckUnits T (read sstfile sstname sstbox) "temperature" in
  let net := field_sub T (checked down name_down box) (checked up name_up box) in
  let lwrfile := PList (down :: up :: files) in
  let lwrname := PList (name_down :: name_up :: names) in
  (exists d,
     EnsoAlphaLwr T sstfile lwrfile sstname lwrname sstbox box = Ok d /\
     reports_regressions (regress net sst 0) (regress net sst 1) (regress net sst (-1)) d) /\
  (exists d,
     EnsoAlphaSwr T sstfile lwrfile sstname lwrname sstbox box = Ok d /\
     reports_regressions (regress net sst 0) (regress net sst 1) (regress net sst (-1)) d).
Proof.
  intros sst net lwrfile lwrname.
  assert (Hread : forall var, read_net_radiation T var lwrfile lwrname box = Ok net).
  { intros var. unfold read_net_radiation, lwrfile, lwrname.
    change (PInt 0) with (PInt (Z.of_nat 0)). change (PInt 1) with (PInt (Z.of_nat 1)).
    rewrite !getitem_list_nat. reflexivity. }
  split.
  - unfold EnsoAlphaLwr. rewrite Hread. cbn [bind].
    eexists. split; [reflexivity | apply regression_metric_reports].
  - unfold EnsoAlphaSwr. rewrite Hread. cbn [bind].
    eexists. split; [reflexivity | apply regression_metric_reports].
Qed.

(** [EnsoAlphaLwr] and [EnsoAlphaSwr] never return on a list of fewer than
    two files, whatever the names are: without a file, and with names that
    are a list, they raise [IndexError]; with one file and other names the
    exception is the one of [lwrname[0]] where that raises. A flux that is
    neither a string nor a list leaves the flux unassigned
    ([UnboundLocalError]). *)
Theorem net_radiation_refuses_malformed_fluxes (sstfile sstname : pyval)
    (sstbox box : string) :
  (forall files fname,
     (List.length files < 2)%nat ->
     exists e,
       EnsoAlphaLwr T sstfile (PList files) sstname fname sstbox box = Raise e /\
       EnsoAlphaSwr T sstfile (PList files) sstname fname sstbox box = Raise e /\
       (files = [] -> exn_class e = "IndexError") /\
       (forall names, fname = PList names -> exn_class e = "IndexError") /\
       (forall e', getitem fname (PInt 0) = Raise e' -> files <> [] -> e = e') /\
       (forall name, getitem fname (PInt 0) = Ok name -> exn_class e = "IndexError")) /\
  (forall file fname,
     match file with PStr _ | PList _ => False | _ => True end ->
     EnsoAlphaLwr T sstfile file sstname fname sstbox box = Raise (UnboundLocalError "lwr") /\
     EnsoAlphaSwr T sstfile file sstname fname sstbox box = Raise (UnboundLocalError "swr")).
Proof.
  split.
  - intros files fname Hlen.
    assert (Hread : exists e,
               (forall var, read_net_radiation T var (PList files) fname box = Raise e) /\
               (files = [] -> exn_class e = "IndexError") /\
               (forall names, fname = PList names -> exn_class e = "IndexError") /\
               (forall e', getitem fname (PInt 0) = Raise e' -> files <> [] -> e = e') /\
               (forall name, getitem fname (PInt 0) = Ok name -> exn_class e = "IndexError")).
    { unfold read_net_radiation.
      destruct files as [| f0 [| f1 files]].
      - exists (IndexError "list index out of range"). split_all.
        + intros var. reflexivity.
        + reflexivity.
        + reflexivity.
        + intros e' _ Hfiles. contradiction Hfiles. reflexivity.
        + reflexivity.
      - change (getitem (PList [f0]) (PInt 0)) with (Ok (A := pyval) f0). cbn [bind].
        destruct (getitem fname (PInt 0)) as [name | e0] eqn:Hname; cbn [bind].
        + exists (IndexError "list index out of range"). split_all.
          * intros var. reflexivity.
          * reflexivity.
          * reflexivity.
          * intros e' He'. discriminate He'.
          * reflexivity.
        + exists e0. split_all.
          * intros var. reflexivity.
          * intros Hnil. discriminate Hnil.
          * intros names ->. change (PInt 0) with (PInt (Z.of_nat 0)) in Hname.
            rewrite getitem_list_nat in Hname.
            destruct (nth_error names 0); [discriminate Hname |].
            injection Hname as <-. reflexivity.
          * intros e' He' _. injection He' as ->. reflexivity.
          * intros name Hname'. discriminate Hname'.
      - cbn in Hlen. lia. }
    destruct Hread as (e & Hraise & Hempty & Hlist & Hnames & Hnamed).
    exists e. split_all.
    + unfold EnsoAlphaLwr. rewrite Hraise. reflexivity.
    + unfold EnsoAlphaSwr. rewrite Hraise. reflexivity.
    + exact Hempty.
    + exact Hlist.
    + exact Hnames.
    + exact Hnamed.
  - intros file fname Hkind.
    destruct file; try contradiction Hkind; split; reflexivity.
Qed.

End ListsOfFiles.

(** ** More of ComputeMetric *)

Section ComputeMetricMore.

Import EnsoMetricsLib.
Local Open Scope Z_scope.

Context {field grid : Type}.
Variable T : EnsoToolsLib field grid.
Variable G : Globals field.

Local Abbreviation read := (ReadAndSelectRegion T).

Lemma lookup_absent {A : Type} (d : list (string * A)) (k : string) :
  ~ In k (map fst d) -> lookup d k = None.
Proof.
  induction d as [| [k' v] d IH]; intros Hk; cbn [lookup]; [reflexivity |].
  destruct (String.eqb k' k) eqn:E.
  - apply String.eqb_eq in E. exfalso. apply Hk. left. exact E.
  - apply IH. intros Hin. apply Hk. right. exact Hin.
Qed.

(** A metric that none of the three tables knows: once its regions are
    resolved, [ComputeMetric] reaches line 627 with [metric_mod] unassigned
    and raises [UnboundLocalError]. *)
Theorem ComputeMetric_of_unknown_metric
    (MetricCollection metric modelName : string) (modelFile1 modelVarName1 : pyval)
    (obsName : string) (obsFile1 obsVarName1 : pyval)
    (regionVar1 regionVar2 modelFile2 modelVarName2 obsFile2 obsVarName2 : pyval)
    (regions : pyval * pyval * pyval) :
  ~ In metric (map fst (dict_oneVar_modelAndObs T) ++ map fst (dict_oneVar T)
               ++ map fst (dict_twoVar T G))%list ->
  resolve_regions G MetricCollection metric regionVar1 regionVar2 = Ok regions ->
  ComputeMetric T G MetricCollection metric modelName modelFile1 modelVarName1
    obsName obsFile1 obsVarName1 regionVar1 regionVar2
    modelFile2 modelVarName2 obsFile2 obsVarName2
  = Raise (UnboundLocalError "metric_mod").
Proof.
  intros Hunknown Hregions.
  assert (H0 : lookup (dict_oneVar_modelAndObs T) metric = None).
  { apply lookup_absent. intros H. apply Hunknown. apply in_or_app. left. exact H. }
  assert (H1 : lookup (dict_oneVar T) metric = None).
  { apply lookup_absent. intros H. apply Hunknown.
    apply in_or_app. right. apply in_or_app. left. exact H. }
  assert (H2 : lookup (dict_twoVar T G) metric = None).
  { apply lookup_absent. intros H. apply Hunknown.
    apply in_or_app. right. apply in_or_app. right. exact H. }
  unfold ComputeMetric. rewrite Hregions.
  destruct regions as [[dict_regions r1] r2]. cbn [bind].
  rewrite H0. unfold model_and_obs_metrics. rewrite H1, H2. reflexivity.
Qed.

(** The names the module never binds: without [defCollection] in the scope
    [ComputeMetric] raises [NameError] on every input; without [region1] it
    raises [NameError] for every metric of the three tables once the regions
    are resolved; without [MatchTimeDimension], [EnsoMu] raises [NameError]
    when the two time axes differ in length, and only then. *)
Theorem unbound_names_raise_NameError :
  (forall (MetricCollection metric modelName : string) (modelFile1 modelVarName1 : pyval)
          (obsName : string) (obsFile1 obsVarName1 : pyval)
          (regionVar1 regionVar2 modelFile2 modelVarName2 obsFile2 obsVarName2 : pyval),
     g_defCollection G = None ->
     ComputeMetric T G MetricCollection metric modelName modelFile1 modelVarName1
       obsName obsFile1 obsVarName1 regionVar1 regionVar2
       modelFile2 modelVarName2 obsFile2 obsVarName2
     = Raise (NameError "defCollection")) /\
  (forall (MetricCollection metric modelName : string) (modelFile1 modelVarName1 : pyval)
          (obsName : string) (obsFile1 obsVarName1 : pyval)
          (regionVar1 regionVar2 modelFile2 modelVarName2 obsFile2 obsVarName2 : pyval)
          regions,
     g_region1 G = None ->
     In metric (map fst (dict_oneVar_modelAndObs T) ++ map fst (dict_oneVar T)
                ++ map fst (dict_twoVar T G))%list ->
     resolve_regions G MetricCollection metric regionVar1 regionVar2 = Ok regions ->
     ComputeMetric T G MetricCollection metric modelName modelFile1 modelVarName1
       obsName obsFile1 obsVarName1 regionVar1 regionVar2
       modelFile2 modelVarName2 obsFile2 obsVarName2
     = Raise (NameError "region1")) /\
  (forall (sstfile tauxfile sstname tauxname : pyval) (sstbox tauxbox : string),
     let sst := CheckUnits T (read sstfile sstname sstbox) "temperature" in
     let taux := CheckUnits T (read tauxfile tauxname tauxbox) "wind stress" in
     g_MatchTimeDimension G = None ->
     (shape0 T sst <> shape0 T taux ->
      EnsoMu T G sstfile tauxfile sstname tauxname sstbox tauxbox
      = Raise (NameError "MatchTimeDimension")) /\
     (shape0 T sst = shape0 T taux ->
      exists d, EnsoMu T G sstfile tauxfile sstname tauxname sstbox tauxbox = Ok d)).
Proof.
  split_all.
  - intros * Hunbound. unfold ComputeMetric, resolve_regions.
    rewrite Hunbound. reflexivity.
  - intros * Hunbound Hknown Hregions.
    unfold ComputeMetric. rewrite Hregions.
    destruct regions as [[dict_regions r1] r2]. cbn [bind].
    unfold model_and_obs_metrics. rewrite Hunbound.
    cbn in Hknown.
    repeat (destruct Hknown as [<- | Hknown]; [reflexivity |]).
    contradiction Hknown.
  - intros * Hunbound. split.
    + intros Hneq. unfold EnsoMu, match_time. fold sst. fold taux.
      apply Z.eqb_neq in Hneq. rewrite Hneq, Hunbound. reflexivity.
    + intros Heq. unfold EnsoMu. fold sst. fold taux.
      rewrite (match_time_equal_lengths T G sst taux Heq). cbn [bind].
      eexists. reflexivity.
Qed.

Lemma collections_have_no_dict_of_regions (mc : string) (collection : pyval) :
  In (mc, collection) (EnsoCollectionsLib.dict_items EnsoCollectionsLib.metrics_collection) ->
  getitem collection (PStr "dict_of_regions") = Raise (KeyError (PStr "dict_of_regions")).
Proof.
  intros Hin.
  assert (Hall : forallb (fun kv => CatalogShape.is_dict (snd kv) &&
                                    negb (EnsoCollectionsLib.has_key (snd kv) "dict_of_regions"))
                   (EnsoCollectionsLib.dict_items EnsoCollectionsLib.metrics_collection) = true)
    by (vm_compute; reflexivity).
  pose proof (forallb_In _ _ _ Hall Hin) as Hok. cbn [snd] in Hok.
  apply andb_prop in Hok. destruct Hok as [Hdict Hkey].
  destruct collection; try discriminate Hdict.
  apply negb_true_iff in Hkey. unfold EnsoCollectionsLib.has_key in Hkey.
  cbn in Hkey |- *. destruct (dict_get d "dict_of_regions"); [discriminate | reflexivity].
Qed.

(** With [defCollection] of [EnsoCollectionsLib] in the scope,
    [ComputeMetric] raises [KeyError] on every input: of
    ['dict_of_regions'], a key no collection has, when the collection
    exists, and of the collection's identifier when it does not. *)
Theorem ComputeMetric_finds_no_dict_of_regions
    (MetricCollection metric modelName : string) (modelFile1 modelVarName1 : pyval)
    (obsName : string) (obsFile1 obsVarName1 : pyval)
    (regionVar1 regionVar2 modelFile2 modelVarName2 obsFile2 obsVarName2 : pyval) :
  g_defCollection G = Some (fun mc => EnsoCollectionsLib.defCollection (PStr mc)) ->
  exists key,
    ComputeMetric T G MetricCollection metric modelName modelFile1 modelVarName1
      obsName obsFile1 obsVarName1 regionVar1 regionVar2
      modelFile2 modelVarName2 obsFile2 obsVarName2
    = Raise (KeyError (PStr key)) /\
    (In MetricCollection
        (EnsoCollectionsLib.catalog_ids EnsoCollectionsLib.metrics_collection) ->
     key = "dict_of_regions") /\
    (~ In MetricCollection
         (EnsoCollectionsLib.catalog_ids EnsoCollectionsLib.metrics_collection) ->
     key = MetricCollection).
Proof.
  intros Hbound. unfold ComputeMetric, resolve_regions.
  rewrite Hbound. cbn [global bind].
  change (EnsoCollectionsLib.defCollection (PStr MetricCollection))
    with (EnsoCollectionsLib.catalog_lookup EnsoCollectionsLib.Collections
            (PStr MetricCollection)).
  destruct (existsb (String.eqb MetricCollection)
              (EnsoCollectionsLib.catalog_ids EnsoCollectionsLib.metrics_collection))
    eqn:Hknown.
  - apply In_existsb in Hknown.
    destruct (listed_collection_is_found MetricCollection Hknown)
      as (collection & Hlookup & Hin).
    rewrite Hlookup. cbn [bind].
    rewrite (collections_have_no_dict_of_regions _ _ Hin). cbn [bind].
    exists "dict_of_regions". split_all.
    + reflexivity.
    + reflexivity.
    + intros Habsent. contradiction (Habsent Hknown).
  - apply not_In_existsb in Hknown.
    rewrite lookup_is_getitem.
    change EnsoCollectionsLib.metrics_collection
      with (EnsoCollectionsLib.catalog_data EnsoCollectionsLib.Collections) in Hknown.
    rewrite (catalog_data_is_dict EnsoCollectionsLib.Collections) in Hknown |- *.
    rewrite (getitem_absent
               (EnsoCollectionsLib.dict_items
                  (EnsoCollectionsLib.catalog_data EnsoCollectionsLib.Collections))
               MetricCollection Hknown).
    cbn [bind].
    exists MetricCollection. split_all.
    + reflexivity.
    + intros Hpresent. contradiction (Hknown Hpresent).
    + reflexivity.
Qed.

(** The nonlinearity block only adds its six keys: whatever it returns has
    the metric, its error and every other entry of the dictionary it was
    given, and a model result without ['nonlinearity'] leaves the dictionary
    as it is. *)
Theorem nonlinearity_channel_keeps_the_metric
    (metric_mod metric_obs : StatMetric) (metric_val metric_val' : MetricVal) :
  nonlinearity_channel metric_mod metric_obs metric_val = Ok metric_val' ->
  (nonlinearity metric_mod = None -> metric_val' = metric_val) /\
  mv_name metric_val' = mv_name metric_val /\
  metric metric_val' = metric metric_val /\
  metric_error metric_val' = metric_error metric_val /\
  comment metric_val' = comment metric_val /\
  model metric_val' = model metric_val /\
  nyears_model metric_val' = nyears_model metric_val /\
  observations metric_val' = observations metric_val /\
  nyears_observations metric_val' = nyears_observations metric_val /\
  mv_units metric_val' = mv_units metric_val /\
  mv_method metric_val' = mv_method metric_val /\
  mv_ref metric_val' = mv_ref metric_val /\
  value_model metric_val' = value_model metric_val /\
  value_error_model metric_val' = value_error_model metric_val /\
  value_observations metric_val' = value_observations metric_val /\
  value_error_observations metric_val' = value_error_observations metric_val.
Proof.
  unfold nonlinearity_channel.
  destruct (nonlinearity metric_mod) as [v1 |].
  - destruct (item "nonlinearity" (nonlinearity metric_obs)) as [v2 | e]; cbn [bind];
      [| discriminate].
    destruct (item "nonlinearity_error" (nonlinearity_error metric_mod)) as [err1 | e];
      cbn [bind]; [| discriminate].
    destruct (item "nonlinearity_error" (nonlinearity_error metric_obs)) as [err2 | e];
      cbn [bind]; [| discriminate].
    destruct (num_div (value metric_mod) (value metric_obs)) as [val2 | e]; cbn [bind];
      [| discriminate].
    destruct (num_div _ (NUMPYsquare v2)) as [val2_err | e]; cbn [bind]; [| discriminate].
    intros Hok. injection Hok as <-.
    split; [discriminate |]. split_all; reflexivity.
  - intros Hok. injection Hok as <-.
    split; [reflexivity |]. split_all; reflexivity.
Qed.

(** What lines 604-610 resolve: a region the caller gives is kept; the
    default of the first variable is an entry of the metric's
    ['dict_of_regions'], which is handed back as it was read; a missing
    second region stays as passed unless the entry of a third variable
    replaces it. *)
Theorem resolve_regions_keeps_the_callers_regions
    (MetricCollection metric : string) (regionVar1 regionVar2 : pyval)
    (dict_regions region1 region2 : pyval) :
  resolve_regions G MetricCollection metric regionVar1 regionVar2
  = Ok (dict_regions, region1, region2) ->
  (truthy regionVar1 = true -> region1 = regionVar1) /\
  (truthy regionVar1 = false -> exists variable, getitem dict_regions variable = Ok region1) /\
  (truthy regionVar2 = true -> region2 = regionVar2) /\
  (truthy regionVar2 = false ->
   region2 = regionVar2 \/ exists variable, getitem dict_regions variable = Ok region2).
Proof.
  unfold resolve_regions.
  destruct (global "defCollection" (g_defCollection G)) as [defCollection | e];
    cbn [bind]; [| discriminate].
  destruct (defCollection MetricCollection) as [collection | e]; cbn [bind];
    [| discriminate].
  destruct (getitem collection (PStr "dict_of_regions")) as [all_regions | e];
    cbn [bind]; [| discriminate].
  destruct (getitem all_regions (PStr metric)) as [regions | e]; cbn [bind];
    [| discriminate].
  destruct (global "metricReqs" (g_metricReqs G)) as [metricReqs | e]; cbn [bind];
    [| discriminate].
  destruct (metricReqs metric) as [reqs | e]; cbn [bind]; [| discriminate].
  destruct (getitem reqs (PStr "var_names")) as [var_names | e]; cbn [bind];
    [| discriminate].
  destruct (truthy regionVar1) eqn:H1; cbn [negb bind].
  - intros Hok. injection Hok as <- <- <-.
    split; [reflexivity |]. split; [discriminate |].
    destruct (truthy regionVar2) eqn:H2; cbn [negb].
    + split; [reflexivity | discriminate].
    + split; [discriminate |]. intros _. unfold try_or.
      destruct (getitem var_names (PInt 2)) as [v | e]; cbn [bind];
        [| left; reflexivity].
      destruct (getitem regions v) eqn:Hv; [right; exists v; exact Hv | left; reflexivity].
  - destruct (getitem var_names (PInt 0)) as [v0 | e]; cbn [bind]; [| discriminate].
    destruct (getitem regions v0) as [r |] eqn:Hv0; cbn [bind]; [| discriminate].
    intros Hok. injection Hok as <- <- <-.
    split; [discriminate |]. split; [intros _; exists v0; exact Hv0 |].
    destruct (truthy regionVar2) eqn:H2; cbn [negb].
    + split; [reflexivity | discriminate].
    + split; [discriminate |]. intros _. unfold try_or.
      destruct (getitem var_names (PInt 2)) as [v | e]; cbn [bind];
        [| left; reflexivity].
      destruct (getitem regions v) eqn:Hv; [right; exists v; exact Hv | left; reflexivity].
Qed.

End ComputeMetricMore.

(** ** The further facts on concrete inputs *)

Section FurtherExamples.

Import EnsoMetricsLib Fixture Cases.
Local Open Scope Z_scope.
Local Set Warnings "-inexact-float".

Lemma EnsoAmpl_of_short_series_witness :
  let T := tools (seasonal 6 (PyFloat 0.8)) in
  0 <= shape0 T (CheckUnits T (ReadAndSelectRegion T (PStr "sst_model.nc") (PStr "ts")
                                 "nino3.4") "temperature") < 12 /\
  exists d,
    EnsoAmpl T (PStr "sst_model.nc") (PStr "ts") "nino3.4" = Ok d /\
    nyears d = 0 /\
    PrimFloat.is_finite (num_val (value_error d)) = false.
Proof.
  intros T.
  assert (Hshort : 0 <= shape0 T (CheckUnits T (ReadAndSelectRegion T (PStr "sst_model.nc")
                                                  (PStr "ts") "nino3.4") "temperature") < 12)
    by (cbn; lia).
  split.
  - exact Hshort.
  - exact (EnsoAmpl_of_short_series T (PStr "sst_model.nc") (PStr "ts") "nino3.4" Hshort).
Defined.

Lemma EnsoSeasonality_outcome_witness :
  EnsoSeasonality (tools (seasonal 4800 (PyFloat 0))) (PStr "sst_model.nc") (PStr "ts")
    "nino3.4"
  = Raise (ZeroDivisionError "float division by zero") /\
  exists d,
    EnsoSeasonality (tools (seasonal 4800 (PyFloat 0.8))) (PStr "sst_model.nc") (PStr "ts")
      "nino3.4" = Ok d /\
    value d = PyFloat (1.2 / 0.8) /\
    is_np (value_error d) = false /\
    nyears d = 400 /\
    nonlinearity d = None.
Proof.
  split.
  - apply (proj1 (EnsoSeasonality_outcome (tools (seasonal 4800 (PyFloat 0)))
                    (PStr "sst_model.nc") (PStr "ts") "nino3.4")).
    split; vm_compute; reflexivity.
  - apply (proj2 (EnsoSeasonality_outcome (tools (seasonal 4800 (PyFloat 0.8)))
                    (PStr "sst_model.nc") (PStr "ts") "nino3.4")).
    right. vm_compute. reflexivity.
Defined.

Lemma EnsoSeasonality_of_short_series_witness :
  let T := tools (seasonal 12 (PyFloat 0.8)) in
  0 <= shape0 T (CheckUnits T (ReadAndSelectRegion T (PStr "sst_model.nc") (PStr "ts")
                                 "nino3.4") "temperature") < 24 /\
  exists d,
    EnsoSeasonality T (PStr "sst_model.nc") (PStr "ts") "nino3.4" = Ok d /\
    PrimFloat.is_finite (num_val (value_error d)) = false.
Proof.
  intros T.
  assert (Hshort : 0 <= shape0 T (CheckUnits T (ReadAndSelectRegion T (PStr "sst_model.nc")
                                                  (PStr "ts") "nino3.4") "temperature") < 24)
    by (cbn; lia).
  split.
  - exact Hshort.
  - apply (EnsoSeasonality_of_short_series T (PStr "sst_model.nc") (PStr "ts") "nino3.4"
             Hshort).
    right. vm_compute. reflexivity.
Defined.

Lemma EnsoAlphaThf_adds_the_listed_fluxes_witness :
  let T := tools wind_stress_example in
  let sst := {| handle := "sst_model.nc"; months := 4800 |} in
  let thf := {| handle := "hfls_model.nc+hfss_model.nc+rlds_model.nc"; months := 4800 |} in
  (2 <= 3)%nat /\
  exists d,
    EnsoAlphaThf T (PStr "sst_model.nc")
      (PList [PStr "hfls_model.nc"; PStr "hfss_model.nc"; PStr "rlds_model.nc"])
      (PStr "ts") (PList [PStr "hfls"; PStr "hfss"; PStr "rlds"; PStr "rlus"])
      "nino3" "nino3" = Ok d /\
    reports_regressions (get_slope_linear_regression_from_anomaly T thf sst 0)
      (get_slope_linear_regression_from_anomaly T thf sst 1)
      (get_slope_linear_regression_from_anomaly T thf sst (-1)) d.
Proof.
  intros T sst thf. split; [lia |].
  apply (EnsoAlphaThf_adds_the_listed_fluxes T (PStr "sst_model.nc") (PStr "ts")
           "nino3" "nino3" (PStr "hfls_model.nc") (PStr "hfls")
           [PStr "hfss_model.nc"; PStr "rlds_model.nc"]
           [PStr "hfss"; PStr "rlds"; PStr "rlus"]).
  cbn. lia.
Defined.

Lemma EnsoAlphaThf_refuses_malformed_fluxes_witness :
  let T := tools wind_stress_example in
  EnsoAlphaThf T (PStr "sst_model.nc") (PList []) (PStr "ts") (PList []) "nino3" "nino3"
  = Raise (UnboundLocalError "thf") /\
  EnsoAlphaThf T (PStr "sst_model.nc") PNone (PStr "ts") (PStr "hfls") "nino3" "nino3"
  = Raise (UnboundLocalError "thf") /\
  EnsoAlphaThf T (PStr "sst_model.nc") (PList [PStr "hfls_model.nc"; PStr "hfss_model.nc"])
    (PStr "ts") (PList [PStr "hfls"]) "nino3" "nino3"
  = Raise (IndexError "list index out of range").
Proof.
  intros T.
  destruct (EnsoAlphaThf_refuses_malformed_fluxes T (PStr "sst_model.nc") (PStr "ts")
              "nino3" "nino3") as (Hempty & Hkind & Hshort).
  split_all.
  - exact (Hempty (PList [])).
  - exact (Hkind PNone (PStr "hfls") I).
  - apply (Hshort [PStr "hfls_model.nc"; PStr "hfss_model.nc"] [PStr "hfls"]).
    cbn. lia.
Defined.

Lemma net_radiation_refuses_malformed_fluxes_witness :
  let T := tools wind_stress_example in
  raises (EnsoAlphaLwr T (PStr "sst_model.nc") (PList [PStr "rlds_model.nc"]) (PStr "ts")
            (PList [PStr "rlds"]) "nino3" "nino3") "IndexError" /\
  raises (EnsoAlphaSwr T (PStr "sst_model.nc") (PList []) (PStr "ts") PNone "nino3" "nino3")
    "IndexError" /\
  EnsoAlphaLwr T (PStr "sst_model.nc") (PList [PStr "rlds_model.nc"]) (PStr "ts")
    PNone "nino3" "nino3"
  = Raise (TypeError "object has no attribute '__getitem__'") /\
  EnsoAlphaLwr T (PStr "sst_model.nc") PNone (PStr "ts") (PStr "rlds") "nino3" "nino3"
  = Raise (UnboundLocalError "lwr") /\
  EnsoAlphaSwr T (PStr "sst_model.nc") PNone (PStr "ts") (PStr "rsds") "nino3" "nino3"
  = Raise (UnboundLocalError "swr").
Proof.
  intros T.
  destruct (net_radiation_refuses_malformed_fluxes T (PStr "sst_model.nc") (PStr "ts")
              "nino3" "nino3") as (Hshort & Hkind).
  split_all.
  - destruct (Hshort [PStr "rlds_model.nc"] (PList [PStr "rlds"]))
      as (e & Hlwr & _ & _ & Hlist & _ & Hnamed); [cbn; lia |].
    exists e. split; [exact Hlwr | exact (Hlist [PStr "rlds"] eq_refl)].
  - destruct (Hshort [] PNone) as (e & _ & Hswr & Hempty & _); [cbn; lia |].
    exists e. split; [exact Hswr | exact (Hempty eq_refl)].
  - destruct (Hshort [PStr "rlds_model.nc"] PNone)
      as (e & Hlwr & _ & _ & _ & Hnames & _); [cbn; lia |].
    rewrite Hlwr. f_equal. apply Hnames; [reflexivity | discriminate].
  - exact (proj1 (Hkind PNone (PStr "rlds") I)).
  - exact (proj2 (Hkind PNone (PStr "rsds") I)).
Defined.

Lemma ComputeMetric_of_unknown_metric_witness :
  let T := tools spec_example in
  let G := scope_with_EnsoDuration in
  ~ In "EnsoDuration" (map fst (dict_oneVar_modelAndObs T) ++ map fst (dict_oneVar T)
                       ++ map fst (dict_twoVar T G))%list /\
  resolve_regions G "ENSO_perf" "EnsoDuration" (PStr "") (PStr "")
  = Ok (PDict [("sst", PStr "nino3.4")], PStr "nino3.4", PStr "") /\
  compute spec_example G "EnsoDuration" (PStr "") (PStr "") "" ""
  = Raise (UnboundLocalError "metric_mod").
Proof.
  intros T G.
  assert (Hunknown : ~ In "EnsoDuration"
                       (map fst (dict_oneVar_modelAndObs T) ++ map fst (dict_oneVar T)
                        ++ map fst (dict_twoVar T G))%list).
  { apply not_In_existsb. vm_compute. reflexivity. }
  assert (Hregions : resolve_regions G "ENSO_perf" "EnsoDuration" (PStr "") (PStr "")
                     = Ok (PDict [("sst", PStr "nino3.4")], PStr "nino3.4", PStr ""))
    by (vm_compute; reflexivity).
  split_all.
  - exact Hunknown.
  - exact Hregions.
  - unfold compute.
    exact (ComputeMetric_of_unknown_metric T G "ENSO_perf" "EnsoDuration" "model"
             (PStr "sst_model.nc") (PStr "ts") "obs" (PStr "sst_obs.nc") (PStr "ts")
             (PStr "") (PStr "") (PStr "_model.nc") (PStr "") (PStr "_obs.nc") (PStr "")
             _ Hunknown Hregions).
Defined.

Lemma unbound_names_raise_NameError_witness :
  compute spec_example (module_scope series) "EnsoAmpl" (PStr "") (PStr "") "" ""
  = Raise (NameError "defCollection") /\
  compute spec_example region1_unbound "EnsoAmpl" (PStr "") (PStr "") "" ""
  = Raise (NameError "region1") /\
  EnsoMu (tools unequal_lengths) (module_scope series) (PStr "sst_model.nc")
    (PStr "taux_model.nc") (PStr "ts") (PStr "tauu") "nino3" "nino4"
  = Raise (NameError "MatchTimeDimension") /\
  exists d,
    EnsoMu (tools wind_stress_example) (module_scope series) (PStr "sst_model.nc")
      (PStr "taux_model.nc") (PStr "ts") (PStr "tauu") "nino3" "nino4" = Ok d.
Proof.
  split_all.
  - unfold compute.
    apply (proj1 (unbound_names_raise_NameError (tools spec_example) (module_scope series))).
    reflexivity.
  - unfold compute.
    eapply (proj1 (proj2 (unbound_names_raise_NameError (tools spec_example)
                            region1_unbound))).
    + reflexivity.
    + cbn. right. left. reflexivity.
    + vm_compute. reflexivity.
  - apply (proj2 (proj2 (unbound_names_raise_NameError (tools unequal_lengths)
                           (module_scope series)))).
    + reflexivity.
    + cbn. discriminate.
  - apply (proj2 (proj2 (unbound_names_raise_NameError (tools wind_stress_example)
                           (module_scope series)))).
    + reflexivity.
    + reflexivity.
Defined.

Lemma ComputeMetric_finds_no_dict_of_regions_witness :
  exists key,
    compute spec_example repository_scope "EnsoAmpl" (PStr "") (PStr "") "" ""
    = Raise (KeyError (PStr key)) /\
    (In "ENSO_perf" (EnsoCollectionsLib.catalog_ids EnsoCollectionsLib.metrics_collection) ->
     key = "dict_of_regions") /\
    (~ In "ENSO_perf" (EnsoCollectionsLib.catalog_ids EnsoCollectionsLib.metrics_collection) ->
     key = "ENSO_perf").
Proof.
  unfold compute.
  apply (ComputeMetric_finds_no_dict_of_regions (tools spec_example) repository_scope).
  reflexivity.
Defined.

Lemma nonlinearity_channel_keeps_the_metric_witness :
  lhf_metric nonlinear_example "model" = Ok nonlinear_model /\
  lhf_metric nonlinear_example "obs" = Ok nonlinear_observations /\
  forall metric_val, exists metric_val',
    nonlinearity_channel nonlinear_model nonlinear_observations metric_val = Ok metric_val' /\
    metric metric_val' = metric metric_val /\
    metric_error metric_val' = metric_error metric_val /\
    value_model metric_val' = value_model metric_val /\
    value_observations metric_val' = value_observations metric_val.
Proof.
  split_all.
  - vm_compute. reflexivity.
  - vm_compute. reflexivity.
  - intros metric_val.
    destruct (nonlinearity_channel nonlinear_model nonlinear_observations metric_val)
      as [metric_val' | e] eqn:Hchannel.
    + exists metric_val'.
      destruct (nonlinearity_channel_keeps_the_metric _ _ _ _ Hchannel)
        as (_ & _ & Hmetric & Herror & _ & _ & _ & _ & _ & _ & _ & _ & Hmodel & _ & Hobs & _).
      split_all.
      * reflexivity.
      * exact Hmetric.
      * exact Herror.
      * exact Hmodel.
      * exact Hobs.
    + vm_compute in Hchannel. discriminate Hchannel.
Defined.

Lemma resolve_regions_keeps_the_callers_regions_witness :
  resolve_regions bound_scope "ENSO_perf" "EnsoMu" (PStr "nino4") (PStr "")
  = Ok (PDict [("sst", PStr "nino3"); ("taux", PStr "nino4")], PStr "nino4", PStr "") /\
  (truthy (PStr "nino4") = true -> PStr "nino4" = PStr "nino4") /\
  (truthy (PStr "nino4") = false ->
   exists variable,
     getitem (PDict [("sst", PStr "nino3"); ("taux", PStr "nino4")]) variable
     = Ok (PStr "nino4")) /\
  (truthy (PStr "") = true -> PStr "" = PStr "") /\
  (truthy (PStr "") = false ->
   PStr "" = PStr "" \/
   exists variable,
     getitem (PDict [("sst", PStr "nino3"); ("taux", PStr "nino4")]) variable
     = Ok (PStr "")).
Proof.
  assert (Hregions :
            resolve_regions bound_scope "ENSO_perf" "EnsoMu" (PStr "nino4") (PStr "")
            = Ok (PDict [("sst", PStr "nino3"); ("taux", PStr "nino4")], PStr "nino4",
                  PStr ""))
    by (vm_compute; reflexivity).
  split.
  - exact Hregions.
  - exact (resolve_regions_keeps_the_callers_regions bound_scope "ENSO_perf" "EnsoMu"
             (PStr "nino4") (PStr "") _ _ _ Hregions).
Defined.

Lemma ComputeMetric_returns_only_for_EnsoRMSE_witness :
  exists metric_val,
    compute spec_example bound_scope "EnsoRMSE" (PStr "") (PStr "") "" "" = Ok metric_val /\
    "EnsoRMSE" = "EnsoRMSE".
Proof.
  destruct (compute spec_example bound_scope "EnsoRMSE" (PStr "") (PStr "") "" "")
    as [metric_val | e] eqn:Hcompute.
  - exists metric_val. split; [reflexivity |].
    unfold compute in Hcompute.
    exact (ComputeMetric_returns_only_for_EnsoRMSE _ _ _ _ _ _ _ _ _ _ _ _ _ _ _ _ _
             Hcompute).
  - vm_compute in Hcompute. discriminate Hcompute.
Defined.

Lemma ComputeMetric_ignores_region_arguments_witness :
  truthy (PStr "nino4") = true /\
  truthy (PStr "nino3.4") = true /\
  compute spec_example bound_scope "EnsoRMSE" (PStr "nino4") (PStr "") "" ""
  = compute spec_example bound_scope "EnsoRMSE" (PStr "nino3.4") (PStr "nino3") "" "".
Proof.
  split_all.
  - reflexivity.
  - reflexivity.
  - unfold compute.
    apply (ComputeMetric_ignores_region_arguments (tools spec_example) bound_scope);
      reflexivity.
Defined.

Lemma nonlinearity_channel_reuses_value_ratio_witness :
  lhf_metric nonlinear_example "model" = Ok nonlinear_model /\
  lhf_metric nonlinear_example "obs" = Ok nonlinear_observations /\
  nonlinearity nonlinear_model <> None /\
  forall metric_val, exists metric_val' val2,
    nonlinearity_channel nonlinear_model nonlinear_observations metric_val = Ok metric_val' /\
    num_div (value nonlinear_model) (value nonlinear_observations) = Ok val2 /\
    metric_nonlinearity metric_val' = Some val2.
Proof.
  assert (Hhas : nonlinearity nonlinear_model <> None) by discriminate.
  split_all.
  - vm_compute. reflexivity.
  - vm_compute. reflexivity.
  - exact Hhas.
  - intros metric_val.
    destruct (nonlinearity_channel nonlinear_model nonlinear_observations metric_val)
      as [metric_val' | e] eqn:Hchannel.
    + exists metric_val'.
      destruct (nonlinearity_channel_reuses_value_ratio _ _ _ _ Hhas Hchannel)
        as (val2 & Hval2 & Hstored).
      exists val2. split_all.
      * reflexivity.
      * exact Hval2.
      * exact Hstored.
    + vm_compute in Hchannel. discriminate Hchannel.
Defined.

End FurtherExamples.
